(** * ArcCompanion data engine: a shallow embedding of [modules/data_manager.py]

    The development follows the Python module top to bottom:
    - Python built-ins the module relies on ([str.strip], [str.replace],
      [str.title], insertion-ordered [dict], truthiness, exceptions);
    - the JSON documents the module loads and the records of the static
      reference data;
    - [ItemDatabase] and [DataManager] with their query methods;
    - the progress store (load, atomic save) over a small file-system model;
    - the tables the constructor of [DataManager] builds (names in lower
      case, trades by item id, items by id, station names), the backup of
      the progress file and its reload.

    Conventions.  Python [str] is [string], a character being a code point
    below 256; the case, white-space and printing built-ins ([str.strip],
    [str.title], [str.lower], [repr]) are those of Python on these code
    points.  JSON numbers are integers ([Z]); floating point is outside the
    embedding, and so is text above U+00FF: what is stated about files read
    from disk is stated for texts that write neither ([Json.in_range]).  A Python [dict] is an association list in insertion order.  The static reference
    records (stations, projects, quests) are typed after the constructor's
    normalisation, a field read with [.get] being an [option]; the progress
    document stays an untyped JSON object and reading it can raise, as in
    Python. *)

From Stdlib Require Import ZArith String Ascii List Bool Lia.
From Stdlib Require Import Sorting.Sorted Sorting.Permutation.
From Stdlib Require Import DecimalString DecimalZ DecimalPos DecimalFacts.
From stdpp Require Import base option list strings gmap.

Import ListNotations.
Local Open Scope string_scope.
Local Open Scope Z_scope.

(** ** Python built-ins on strings *)

Module PyStr.

(** [str.isspace] on code points below 256: TAB..CR, FS..US, the space,
    NEL (U+0085) and the no-break space (U+00A0). *)
Definition isspace (c : ascii) : bool :=
  let n := nat_of_ascii c in
  ((9 <=? n)%nat && (n <=? 13)%nat) || ((28 <=? n)%nat && (n <=? 32)%nat)
  || (n =? 133)%nat || (n =? 160)%nat.

(** [str.islower] on code points below 256: the letters a..z, the ordinal
    indicators (U+00AA, U+00BA), the micro sign (U+00B5) and U+00DF..U+00FF
    without the division sign. *)
Definition islower (c : ascii) : bool :=
  let n := nat_of_ascii c in
  ((97 <=? n)%nat && (n <=? 122)%nat)
  || (n =? 170)%nat || (n =? 181)%nat || (n =? 186)%nat
  || ((223 <=? n)%nat && negb (n =? 247)%nat).

(** [str.isupper] on code points below 256: A..Z and U+00C0..U+00DE without
    the multiplication sign. *)
Definition isupper (c : ascii) : bool :=
  let n := nat_of_ascii c in
  ((65 <=? n)%nat && (n <=? 90)%nat)
  || ((192 <=? n)%nat && (n <=? 222)%nat && negb (n =? 215)%nat).

(** The character has a case. *)
Definition iscased (c : ascii) : bool := islower c || isupper c.

(** The upper case of a letter whose upper case is one code point below
    256: a..z and U+00E0..U+00FE without the division sign. *)
Definition upper_char (c : ascii) : ascii :=
  let n := nat_of_ascii c in
  if ((97 <=? n)%nat && (n <=? 122)%nat)
     || ((224 <=? n)%nat && (n <=? 254)%nat && negb (n =? 247)%nat)
  then ascii_of_nat (n - 32)
  else c.

Definition lower_char (c : ascii) : ascii :=
  if isupper c then ascii_of_nat (nat_of_ascii c + 32) else c.

(** The title case of a character: that of the sharp s (U+00DF) is two
    letters.  The title case of the micro sign (U+00B5) and of U+00FF is
    a code point above 255, which a [string] cannot hold; [title_fits]
    says that neither is called for. *)
Definition title_char (c : ascii) : string :=
  if (nat_of_ascii c =? 223)%nat then "Ss" else String (upper_char c) EmptyString.

Fixpoint lstrip (s : string) : string :=
  match s with
  | String c s' => if isspace c then lstrip s' else s
  | EmptyString => EmptyString
  end.

Definition rstrip (s : string) : string := String.rev (lstrip (String.rev s)).

(** [s.strip()] *)
Definition strip (s : string) : string := rstrip (lstrip s).

(** [old in s] for strings: [old] occurs as a substring of [s]. *)
Fixpoint contains (old s : string) : bool :=
  String.prefix old s ||
  match s with
  | String _ s' => contains old s'
  | EmptyString => false
  end.

(** [s.replace(old, new)] for a non-empty [old]: the non-overlapping
    occurrences are replaced left to right; [skip] counts the characters
    of a matched occurrence still to be dropped. *)
Fixpoint replace_from (old new : string) (skip : nat) (s : string) : string :=
  match s with
  | EmptyString => EmptyString
  | String c s' =>
      match skip with
      | S k => replace_from old new k s'
      | O =>
          if String.prefix old s
          then new ++ replace_from old new (Nat.pred (String.length old)) s'
          else String c (replace_from old new 0 s')
      end
  end.

Definition replace (old new s : string) : string := replace_from old new 0 s.

(** [s.title()]: a character that follows an uncased one gets its title
    case, one that follows a cased one its lower case. *)
Fixpoint title_from (prev_cased : bool) (s : string) : string :=
  match s with
  | EmptyString => EmptyString
  | String c s' =>
      (if prev_cased then String (lower_char c) EmptyString else title_char c)
      ++ title_from (iscased c) s'
  end.

Definition title (s : string) : string := title_from false s.

(** The title case of the text is text of code points below 256: no micro
    sign (U+00B5) and no U+00FF follows an uncased character or starts the
    text. *)
Fixpoint title_fits_from (prev_cased : bool) (s : string) : bool :=
  match s with
  | EmptyString => true
  | String c s' =>
      (prev_cased
       || negb ((nat_of_ascii c =? 181)%nat || (nat_of_ascii c =? 255)%nat))
      && title_fits_from (iscased c) s'
  end.

Definition title_fits (s : string) : bool := title_fits_from false s.

(** [str(n)] for an integer. *)
Definition of_int (n : Z) : string := NilZero.string_of_int (Z.to_int n).

(** [str(x)] where [x] is a string or [None]. *)
Definition of_opt (o : option string) : string :=
  match o with Some s => s | None => "None" end.

End PyStr.

(** ** JSON values and Python dictionaries *)

Unset Elimination Schemes.
Inductive json : Type :=
| JNull
| JBool (b : bool)
| JInt (z : Z)
| JStr (s : string)
| JList (l : list json)
| JDict (d : list (string * json)).
Set Elimination Schemes.

(** A [dict] with string keys, in insertion order, one entry per key. *)
Definition dict (A : Type) : Type := list (string * A).

Definition pydict : Type := dict json.

Section Dict.
Context {A : Type}.

(** [d.get(k)] *)
Fixpoint dict_get (d : dict A) (k : string) : option A :=
  match d with
  | [] => None
  | (k', v) :: d' => if String.eqb k k' then Some v else dict_get d' k
  end.

(** [k in d] *)
Definition dict_mem (k : string) (d : dict A) : bool :=
  match dict_get d k with Some _ => true | None => false end.

(** [d[k] = v]: an existing key keeps its place, a new one goes last. *)
Fixpoint dict_set (d : dict A) (k : string) (v : A) : dict A :=
  match d with
  | [] => [(k, v)]
  | (k', v') :: d' =>
      if String.eqb k k' then (k', v) :: d' else (k', v') :: dict_set d' k v
  end.

(** [del d[k]]: the key is gone, the other entries keep their order. *)
Fixpoint dict_del (d : dict A) (k : string) : dict A :=
  match d with
  | [] => []
  | (k', v') :: d' =>
      if String.eqb k k' then dict_del d' k else (k', v') :: dict_del d' k
  end.

(** [d.get(k, dflt)] where the key may be [None]: no key of a JSON
    object equals [None]. *)
Definition dict_get_or (d : dict A) (k : option string) (dflt : A) : A :=
  match k with
  | Some k' => match dict_get d k' with Some v => v | None => dflt end
  | None => dflt
  end.

End Dict.

(** Truthiness of a value ([if x], [not x]). *)
Definition truthy (v : json) : bool :=
  match v with
  | JNull => false
  | JBool b => b
  | JInt z => negb (z =? 0)
  | JStr s => negb (String.eqb s "")
  | JList l => match l with [] => false | _ => true end
  | JDict d => match d with [] => false | _ => true end
  end.

(** ** Exceptions *)

Inductive pyexn : Type := TypeError | AttributeError | KeyError | OSError | ValueError.

Inductive result (A : Type) : Type :=
| Ok (a : A)
| Raise (e : pyexn).
Arguments Ok {A} a.
Arguments Raise {A} e.

Definition bind {A B : Type} (r : result A) (k : A -> result B) : result B :=
  match r with
  | Ok a => k a
  | Raise e => Raise e
  end.

Notation "'let*' x ':=' r 'in' k" := (bind r (fun x => k))
  (at level 10, x name, r at level 100, k at level 200).

(** ** The [json] module: [json.dumps(obj, indent=4)] and [json.loads]

    Integer literals only; a string holds code points below 256, written
    and read back through [\u00XX] outside the printable ASCII range.  A
    text that writes a number with a fraction or an exponent, or an escape
    above [\u00FF], denotes a document outside [json]: [loads] raises on
    it, and what is stated about files read from disk is stated for texts
    for which [in_range] holds. *)

Module Json.

Definition dquote : ascii := "034"%char.
Definition backslash : ascii := "092"%char.
Definition newline : ascii := "010"%char.

Definition hex_digit (n : nat) : ascii :=
  nth n (list_ascii_of_string "0123456789abcdef") "0"%char.

Definition hex_value (c : ascii) : option nat :=
  let n := nat_of_ascii c in
  if (48 <=? n)%nat && (n <=? 57)%nat then Some (n - 48)%nat
  else if (97 <=? n)%nat && (n <=? 102)%nat then Some (n - 87)%nat
  else if (65 <=? n)%nat && (n <=? 70)%nat then Some (n - 55)%nat
  else None.

(** The short escapes of [json.encoder.ESCAPE_DCT]. *)
Definition short_escape (c : ascii) : option ascii :=
  let n := nat_of_ascii c in
  if (n =? 34)%nat then Some dquote
  else if (n =? 92)%nat then Some backslash
  else if (n =? 10)%nat then Some "n"%char
  else if (n =? 13)%nat then Some "r"%char
  else if (n =? 9)%nat then Some "t"%char
  else if (n =? 8)%nat then Some "b"%char
  else if (n =? 12)%nat then Some "f"%char
  else None.

Definition escape_char (c : ascii) : string :=
  match short_escape c with
  | Some e => String backslash (String e EmptyString)
  | None =>
      let n := nat_of_ascii c in
      if (32 <=? n)%nat && (n <=? 126)%nat then String c EmptyString
      else String backslash (String "u" (String "0" (String "0"
             (String (hex_digit (n / 16)) (String (hex_digit (n mod 16)) EmptyString)))))
  end.

Fixpoint escape (s : string) : string :=
  match s with
  | EmptyString => EmptyString
  | String c s' => escape_char c ++ escape s'
  end.

Definition quote (s : string) : string :=
  String dquote (escape s ++ String dquote EmptyString).

Fixpoint spaces (n : nat) : string :=
  match n with O => EmptyString | S k => String " " (spaces k) end.

(** A line break followed by the indentation of nesting depth [n]. *)
Definition nl (n : nat) : string := String newline (spaces (4 * n)).

(** The members of a non-empty container, separated by [sep]. *)
Definition members {A : Type} (sep : string) (f : A -> string) (l : list A) : string :=
  match l with
  | [] => EmptyString
  | x :: xs => f x ++ fold_right (fun y acc => sep ++ f y ++ acc) EmptyString xs
  end.

Fixpoint dumps_at (n : nat) (v : json) : string :=
  match v with
  | JNull => "null"
  | JBool true => "true"
  | JBool false => "false"
  | JInt z => PyStr.of_int z
  | JStr s => quote s
  | JList [] => "[]"
  | JList l =>
      "[" ++ nl (S n) ++ members ("," ++ nl (S n)) (dumps_at (S n)) l ++ nl n ++ "]"
  | JDict [] => "{}"
  | JDict d =>
      "{" ++ nl (S n)
      ++ members ("," ++ nl (S n))
           (fun kv => quote (fst kv) ++ ": " ++ dumps_at (S n) (snd kv)) d
      ++ nl n ++ "}"
  end.

(** [json.dumps(v, indent=4)] *)
Definition dumps (v : json) : string := dumps_at 0 v.

Definition is_ws (c : ascii) : bool :=
  let n := nat_of_ascii c in
  (n =? 32)%nat || (n =? 9)%nat || (n =? 10)%nat || (n =? 13)%nat.

Fixpoint skip_ws (s : string) : string :=
  match s with
  | String c s' => if is_ws c then skip_ws s' else s
  | EmptyString => EmptyString
  end.

Definition is_digit (c : ascii) : bool :=
  let n := nat_of_ascii c in (48 <=? n)%nat && (n <=? 57)%nat.

(** The longest prefix of digits and what follows it. *)
Fixpoint span_digits (s : string) : string * string :=
  match s with
  | String c s' =>
      if is_digit c then let (ds, r) := span_digits s' in (String c ds, r)
      else (EmptyString, s)
  | EmptyString => (EmptyString, EmptyString)
  end.

Definition unescape (e : ascii) : option ascii :=
  let n := nat_of_ascii e in
  if (n =? 34)%nat then Some dquote
  else if (n =? 92)%nat then Some backslash
  else if (n =? 47)%nat then Some "/"%char
  else if (n =? 110)%nat then Some newline
  else if (n =? 114)%nat then Some "013"%char
  else if (n =? 116)%nat then Some "009"%char
  else if (n =? 98)%nat then Some "008"%char
  else if (n =? 102)%nat then Some "012"%char
  else None.

Definition hex4 (a b c d : ascii) : option ascii :=
  match hex_value a, hex_value b, hex_value c, hex_value d with
  | Some 0%nat, Some 0%nat, Some h, Some l => Some (ascii_of_nat (16 * h + l))
  | _, _, _, _ => None
  end.

(** The characters of a string literal after its opening quote, up to
    and without the closing quote, and the text after it. *)
Fixpoint parse_string_body (s : string) : option (string * string) :=
  match s with
  | EmptyString => None
  | String c s' =>
      if Ascii.eqb c dquote then Some (EmptyString, s')
      else if Ascii.eqb c backslash then
        match s' with
        | String e s'' =>
            match unescape e with
            | Some ch =>
                match parse_string_body s'' with
                | Some (body, r) => Some (String ch body, r)
                | None => None
                end
            | None =>
                if Ascii.eqb e "u" then
                  match s'' with
                  | String h1 (String h2 (String h3 (String h4 s4))) =>
                      match hex4 h1 h2 h3 h4, parse_string_body s4 with
                      | Some ch, Some (body, r) => Some (String ch body, r)
                      | _, _ => None
                      end
                  | _ => None
                  end
                else None
            end
        | EmptyString => None
        end
      else if (nat_of_ascii c <? 32)%nat then None
      else
        match parse_string_body s' with
        | Some (body, r) => Some (String c body, r)
        | None => None
        end
  end.

(** [s] after its first character, if that is [c]. *)
Definition starts_with (c : ascii) (s : string) : option string :=
  match s with
  | String c' r => if Ascii.eqb c' c then Some r else None
  | EmptyString => None
  end.

(** An integer literal: an optional sign, then [0] or digits without a
    leading zero; a fraction or exponent part is not read. *)
Definition parse_int (s : string) : option (Z * string) :=
  let (neg, s1) :=
    match starts_with "-" s with
    | Some s' => (true, s')
    | None => (false, s)
    end in
  let (ds, r) := span_digits s1 in
  let float_part :=
    match r with
    | String c _ => Ascii.eqb c "." || Ascii.eqb c "e" || Ascii.eqb c "E"
    | EmptyString => false
    end in
  let leading_zero :=
    match ds with
    | String c (String _ _) => Ascii.eqb c "0"
    | _ => false
    end in
  if leading_zero || float_part then None
  else
    match NilZero.uint_of_string ds with
    | Some d => Some (if neg then Z.opp (Z.of_uint d) else Z.of_uint d, r)
    | None => None
    end.

(** [s] without its prefix [lit], if it starts with it. *)
Fixpoint strip_prefix (lit s : string) : option string :=
  match lit with
  | EmptyString => Some s
  | String a lit' =>
      match s with
      | String b s' => if Ascii.eqb a b then strip_prefix lit' s' else None
      | EmptyString => None
      end
  end.

Definition expect (lit : string) (v : json) (s : string) : option (json * string) :=
  match strip_prefix lit s with
  | Some r => Some (v, r)
  | None => None
  end.

(** The [dict] an object literal denotes: a repeated key keeps its first
    place and its last value. *)
Definition dict_of_pairs (l : list (string * json)) : pydict :=
  fold_left (fun d kv => dict_set d (fst kv) (snd kv)) l [].

(** A value, and the members of an array or object after its opening
    bracket; [fuel] bounds the nesting and the number of members. *)
Fixpoint parse_value (fuel : nat) (s : string) : option (json * string) :=
  match fuel with
  | O => None
  | S fuel' =>
      match skip_ws s with
      | EmptyString => None
      | String c s' =>
          if Ascii.eqb c "n" then expect "ull" JNull s'
          else if Ascii.eqb c "t" then expect "rue" (JBool true) s'
          else if Ascii.eqb c "f" then expect "alse" (JBool false) s'
          else if Ascii.eqb c dquote then
            match parse_string_body s' with
            | Some (str, r) => Some (JStr str, r)
            | None => None
            end
          else if Ascii.eqb c "[" then
            match starts_with "]" (skip_ws s') with
            | Some r => Some (JList [], r)
            | None =>
                match parse_elements fuel' s' with
                | Some (l, r) => Some (JList l, r)
                | None => None
                end
            end
          else if Ascii.eqb c "{" then
            match starts_with "}" (skip_ws s') with
            | Some r => Some (JDict [], r)
            | None =>
                match parse_members fuel' s' with
                | Some (d, r) => Some (JDict (dict_of_pairs d), r)
                | None => None
                end
            end
          else
            match parse_int (String c s') with
            | Some (z, r) => Some (JInt z, r)
            | None => None
            end
      end
  end
with parse_elements (fuel : nat) (s : string) : option (list json * string) :=
  match fuel with
  | O => None
  | S fuel' =>
      match parse_value fuel' s with
      | Some (v, r) =>
          match starts_with "," (skip_ws r) with
          | Some r' =>
              match parse_elements fuel' r' with
              | Some (l, r'') => Some (v :: l, r'')
              | None => None
              end
          | None =>
              match starts_with "]" (skip_ws r) with
              | Some r' => Some ([v], r')
              | None => None
              end
          end
      | None => None
      end
  end
with parse_members (fuel : nat) (s : string)
  : option (list (string * json) * string) :=
  match fuel with
  | O => None
  | S fuel' =>
      match starts_with dquote (skip_ws s) with
      | Some s' =>
          match parse_string_body s' with
          | Some (k, r) =>
              match starts_with ":" (skip_ws r) with
              | Some r1 =>
                  match parse_value fuel' r1 with
                  | Some (v, r2) =>
                      match starts_with "," (skip_ws r2) with
                      | Some r3 =>
                          match parse_members fuel' r3 with
                          | Some (d, r4) => Some ((k, v) :: d, r4)
                          | None => None
                          end
                      | None =>
                          match starts_with "}" (skip_ws r2) with
                          | Some r3 => Some ([(k, v)], r3)
                          | None => None
                          end
                      end
                  | None => None
                  end
              | None => None
              end
          | None => None
          end
      | None => None
      end
  end.

(** The text is in the range of the embedding: outside its string literals
    it writes no number with a fraction or an exponent and no [NaN] or
    [Infinity], and inside them no [\u] escape of a code point above U+00FF.
    What [json.load] reads from such a text, if it reads anything, is a
    document of integers and of text below U+0100, and it is what [loads]
    reads; from a text out of range [json.load] can read a document that
    [json] does not hold, where [loads] raises.  [in_str] says that the
    scan is inside a string literal. *)
Fixpoint in_range_from (in_str : bool) (s : string) : bool :=
  match s with
  | EmptyString => true
  | String c s' =>
      if in_str then
        if Ascii.eqb c backslash then
          match s' with
          | String e s'' =>
              if Ascii.eqb e "u" then
                match s'' with
                | String h1 (String h2 s3) =>
                    Ascii.eqb h1 "0" && Ascii.eqb h2 "0" && in_range_from true s3
                | _ => true
                end
              else in_range_from true s''
          | EmptyString => true
          end
        else if Ascii.eqb c dquote then in_range_from false s'
        else in_range_from true s'
      else if Ascii.eqb c dquote then in_range_from true s'
      else if Ascii.eqb c "N" || Ascii.eqb c "I" then false
      else if is_digit c then
        match s' with
        | String d _ =>
            negb (Ascii.eqb d "." || Ascii.eqb d "e" || Ascii.eqb d "E")
            && in_range_from false s'
        | EmptyString => true
        end
      else in_range_from false s'
  end.

Definition in_range (s : string) : bool := in_range_from false s.

(** [json.loads(s)]: one value, then only white space. *)
Definition loads (s : string) : result json :=
  match parse_value (2 * String.length s + 2) s with
  | Some (v, r) =>
      match skip_ws r with
      | EmptyString => Ok v
      | String _ _ => Raise ValueError
      end
  | None => Raise ValueError
  end.

End Json.

(** ** [str] and [repr] of a value *)

Module PyRepr.

(** [str.isprintable] on code points below 256: U+0020..U+007E and
    U+00A1..U+00FF without the soft hyphen (U+00AD). *)
Definition printable (c : ascii) : bool :=
  let n := nat_of_ascii c in
  ((32 <=? n)%nat && (n <=? 126)%nat) || ((161 <=? n)%nat && negb (n =? 173)%nat).

(** A character inside [repr(s)] with the quote [q]: what is not printable
    is written as an escape. *)
Definition escape_char (q c : ascii) : string :=
  let n := nat_of_ascii c in
  if Ascii.eqb c q || Ascii.eqb c Json.backslash
  then String Json.backslash (String c EmptyString)
  else if (n =? 9)%nat then String Json.backslash "t"
  else if (n =? 10)%nat then String Json.backslash "n"
  else if (n =? 13)%nat then String Json.backslash "r"
  else if printable c then String c EmptyString
  else String Json.backslash (String "x"
         (String (Json.hex_digit (n / 16)) (String (Json.hex_digit (n mod 16)) EmptyString))).

Fixpoint escape (q : ascii) (s : string) : string :=
  match s with
  | EmptyString => EmptyString
  | String c s' => escape_char q c ++ escape q s'
  end.

Fixpoint has_char (c : ascii) (s : string) : bool :=
  match s with
  | EmptyString => false
  | String c' s' => Ascii.eqb c c' || has_char c s'
  end.

(** [repr(s)]: single quotes unless the text has one and no double quote. *)
Definition repr_str (s : string) : string :=
  let q := if has_char "'" s && negb (has_char Json.dquote s)
           then Json.dquote else "'"%char in
  String q (escape q s ++ String q EmptyString).

Fixpoint repr (v : json) : string :=
  match v with
  | JNull => "None"
  | JBool true => "True"
  | JBool false => "False"
  | JInt z => PyStr.of_int z
  | JStr s => repr_str s
  | JList l => "[" ++ Json.members ", " repr l ++ "]"
  | JDict d =>
      "{" ++ Json.members ", " (fun kv => repr_str (fst kv) ++ ": " ++ repr (snd kv)) d ++ "}"
  end.

(** [str(v)] *)
Definition str (v : json) : string :=
  match v with
  | JStr s => s
  | _ => repr v
  end.

End PyRepr.

(** A [for] loop whose body updates the accumulated state and may raise. *)
Fixpoint for_each {A S : Type} (l : list A) (s : S) (body : S -> A -> result S)
  : result S :=
  match l with
  | [] => Ok s
  | x :: l' => let* s' := body s x in for_each l' s' body
  end.

(** The integer a value stands for in arithmetic and in comparisons with
    an integer: [bool] is a subtype of [int]. *)
Definition as_int (v : json) : option Z :=
  match v with
  | JInt z => Some z
  | JBool b => Some (if b then 1 else 0)
  | _ => None
  end.

(** [n <= v], [n == v + 1] and [n - v] for an integer [n]; any operand
    that is not a number raises [TypeError]. *)
Definition int_le (n : Z) (v : json) : result bool :=
  match as_int v with Some z => Ok (n <=? z) | None => Raise TypeError end.

Definition int_eq_succ (n : Z) (v : json) : result bool :=
  match as_int v with Some z => Ok (n =? z + 1) | None => Raise TypeError end.

Definition int_sub (n : Z) (v : json) : result Z :=
  match as_int v with Some z => Ok (n - z) | None => Raise TypeError end.

(** [v.get(k, dflt)] on a value: only a [dict] has the method. *)
Definition py_get (v : json) (k : option string) (dflt : json) : result json :=
  match v with
  | JDict d => Ok (dict_get_or d k dflt)
  | _ => Raise AttributeError
  end.

(** [o == v] where [o] is a string or [None]. *)
Definition opt_str_eq (o : option string) (v : json) : bool :=
  match o, v with
  | Some s, JStr t => String.eqb s t
  | None, JNull => true
  | _, _ => false
  end.

(** ** Static reference data

    The records a station, project or quest file decodes to.  A name is the
    value left by the constructor of [DataManager], which replaces a
    language table by its [en] entry. *)

Record requirement : Type := {
  itemId : option string;
  quantity : option Z
}.

Record level_info : Type := {
  level : option Z;
  level_requirementItemIds : option (list requirement)
}.

Record station : Type := {
  station_id : option string;
  station_name : option string;
  levels : option (list level_info)
}.

Record phase_info : Type := {
  phase : option Z;
  phase_requirementItemIds : option (list requirement)
}.

Record project : Type := {
  project_id : option string;
  project_name : option string;
  phases : option (list phase_info)
}.

(** A text that is either a plain string or a language table. *)
Inductive loc_text : Type :=
| Plain (s : string)
| Table (t : dict string).

Record quest : Type := {
  quest_id : option string;
  quest_name : option loc_text;
  objectives : option (list loc_text)
}.

(** ** DataManager *)

Record DataManager : Type := {
  items : dict pydict;
  hideout_data : list station;
  project_data : list project;
  quest_data : list quest;
  user_progress : pydict;
  id_to_item_map : dict pydict
}.

Definition get_item_by_name (self : DataManager) (name : string) : option pydict :=
  dict_get (items self) name.

(** One entry of a requirement query: the label and its class,
    ["next"] or ["future"]. *)
Definition entry : Type := (string * string)%type.

Definition hideout_label (sname : option string) (lvl rem : Z) : string :=
  PyStr.of_opt sname ++ " (Lvl " ++ PyStr.of_int lvl ++ "): x" ++ PyStr.of_int rem.

Definition project_label (pname : string) (pnum rem : Z) : string :=
  pname ++ " (Ph" ++ PyStr.of_int pnum ++ "): x" ++ PyStr.of_int rem.

Definition find_hideout_requirements (self : DataManager) (item_name : string)
  : result (list entry) :=
  match get_item_by_name self item_name with
  | None => Ok []
  | Some target_item =>
    match target_item, dict_get target_item "id" with
    | [], _ | _, None => Ok []
    | _, Some tid =>
      let h_inv := dict_get_or (user_progress self) (Some "hideout_inventory") (JDict []) in
      for_each (hideout_data self) [] (fun (results : list entry) station =>
        let sid := station_id station in
        let sname := station_name station in
        let cur_lvl := dict_get_or (user_progress self) sid (JInt 0) in
        for_each (default [] (levels station)) results (fun (results : list entry) lvl_info =>
          let lvl := default 0 (level lvl_info) in
          let* skip := int_le lvl cur_lvl in
          if (skip : bool) then Ok results else
          let* is_next := int_eq_succ lvl cur_lvl in
          let req_type := if (is_next : bool) then "next" else "future" in
          for_each (default [] (level_requirementItemIds lvl_info)) results
            (fun (results : list entry) req =>
              if opt_str_eq (itemId req) tid then
                let needed := default 0 (quantity req) in
                let* at_station := py_get h_inv sid (JDict []) in
                let* at_level := py_get at_station (Some (PyStr.of_int lvl)) (JDict []) in
                let* owned := py_get at_level (itemId req) (JInt 0) in
                let* rem := int_sub needed owned in
                if 0 <? rem
                then Ok (results ++ [(hideout_label sname lvl rem, req_type)])%list
                else Ok results
              else Ok results)))
    end
  end.

(** [pname] as displayed: when it contains ["Project"], every occurrence
    is removed and the result stripped.  [None] has no [in]. *)
Definition display_name (pname : option string) : result string :=
  match pname with
  | None => Raise TypeError
  | Some n =>
      if PyStr.contains "Project" n
      then Ok (PyStr.strip (PyStr.replace "Project" "" n))
      else Ok n
  end.

Definition default_project_progress : json :=
  JDict [("completed_phase", JInt 0); ("inventory", JDict [])].

Definition find_project_requirements (self : DataManager) (item_name : string)
  : result (list entry) :=
  match get_item_by_name self item_name with
  | None => Ok []
  | Some target_item =>
    match target_item, dict_get target_item "id" with
    | [], _ | _, None => Ok []
    | _, Some tid =>
      let p_prog := dict_get_or (user_progress self) (Some "projects") (JDict []) in
      for_each (project_data self) [] (fun (results : list entry) proj =>
        let pid := project_id proj in
        let* pname := display_name (project_name proj) in
        let* prog := py_get p_prog pid default_project_progress in
        let* comp_phase := py_get prog (Some "completed_phase") (JInt 0) in
        let* inv := py_get prog (Some "inventory") (JDict []) in
        for_each (default [] (phases proj)) results (fun (results : list entry) ph =>
          let pnum := default 0 (phase ph) in
          let* skip := int_le pnum comp_phase in
          if (skip : bool) then Ok results else
          let* is_next := int_eq_succ pnum comp_phase in
          let req_type := if (is_next : bool) then "next" else "future" in
          for_each (default [] (phase_requirementItemIds ph)) results
            (fun (results : list entry) req =>
              if opt_str_eq (itemId req) tid then
                let needed := default 0 (quantity req) in
                let* at_phase := py_get inv (Some (PyStr.of_int pnum)) (JDict []) in
                let* owned := py_get at_phase (itemId req) (JInt 0) in
                let* rem := int_sub needed owned in
                if 0 <? rem
                then Ok (results ++ [(project_label pname pnum rem, req_type)])%list
                else Ok results
              else Ok results)))
    end
  end.

(** ** Files

    A file system maps a path to the text of a file and a directory path
    to the names [os.listdir] returns for it, in that order. *)

Record filesystem : Type := {
  files : gmap string string;
  dirs : gmap string (list string)
}.

(** [os.path.exists] *)
Definition path_exists (fs : filesystem) (p : string) : bool :=
  match files fs !! p, dirs fs !! p with
  | None, None => false
  | _, _ => true
  end.

(** [os.path.join(directory, filename)] for a relative file name. *)
Definition path_join (directory filename : string) : string :=
  directory ++ "/" ++ filename.

(** [open(p, 'r').read()] *)
Definition read_text (fs : filesystem) (p : string) : result string :=
  match files fs !! p with
  | Some t => Ok t
  | None => Raise OSError
  end.

(** [os.listdir] *)
Definition listdir (fs : filesystem) (p : string) : result (list string) :=
  match dirs fs !! p with
  | Some names => Ok names
  | None => Raise OSError
  end.

(** [with open(filepath, 'r') as f: json.load(f)] *)
Definition load_file (fs : filesystem) (filepath : string) : result json :=
  let* text := read_text fs filepath in
  Json.loads text.

(** [name.endswith(suffix)] *)
Definition endswith (name suffix : string) : bool :=
  String.prefix (String.rev suffix) (String.rev name).

(** The paths of [Constants], a module outside this one. *)
Record Constants : Type := {
  ITEMS_DIR : string;
  HIDEOUT_DIR : string;
  QUESTS_DIR : string;
  PROJECTS_FILE : string;
  TRADES_FILE : string;
  PROGRESS_FILE : string
}.

(** What the module prints. *)
Inductive diagnostic : Type :=
| ItemsDirNotFound (directory : string)
| NoUsableName (filename : string)
| ErrorLoadingItem (filename : string)
| DataDirNotFound (directory : string)
| ErrorLoadingData (filename directory : string)
| ErrorSavingProgress.

(** ** ItemDatabase *)

(** The body of the [try] block for one parsed file: the record gets its
    canonical [name] and its [names] table, then one index entry per
    truthy name. *)
Definition index_item (choices : dict pydict) (filename : string) (item_object : json)
  : result (dict pydict * list diagnostic) :=
  match item_object with
  | JDict o =>
      match dict_get o "name" with
      | Some (JDict name_obj) =>
          let o1 :=
            match dict_get name_obj "en" with
            | Some en => dict_set o "name" (JStr (PyStr.strip (PyRepr.str en)))
            | None => o
            end in
          let o2 := dict_set o1 "names" (JDict name_obj) in
          Ok (fold_left
                (fun ch kv =>
                   if truthy (snd kv)
                   then dict_set ch (PyStr.strip (PyRepr.str (snd kv))) o2
                   else ch)
                name_obj choices, [])
      | Some (JStr name_str) =>
          let item_name := PyStr.strip name_str in
          let o1 := dict_set o "name" (JStr item_name) in
          let o2 := dict_set o1 "names" (JDict [("en", JStr item_name)]) in
          Ok (dict_set choices item_name o2, [])
      | _ => Ok (choices, [NoUsableName filename])
      end
  | _ => Raise AttributeError
  end.

Definition load_item_file (fs : filesystem) (directory : string)
    (acc : dict pydict * list diagnostic) (filename : string)
  : dict pydict * list diagnostic :=
  let (choices, log) := acc in
  if endswith filename ".json" then
    let filepath := path_join directory filename in
    match (let* item_object := load_file fs filepath in
           index_item choices filename item_object) with
    | Ok (choices', printed) => (choices', (log ++ printed)%list)
    | Raise _ => (choices, (log ++ [ErrorLoadingItem filename])%list)
    end
  else acc.

Definition _load_items_from_dir (fs : filesystem) (directory : string)
  : result (dict pydict * list diagnostic) :=
  if negb (path_exists fs directory) then Ok ([], [ItemsDirNotFound directory])
  else
    let* names := listdir fs directory in
    Ok (fold_left (load_item_file fs directory) names ([], [])).

(** ** Loading JSON documents *)

(** [a or b] *)
Definition py_or (a b : json) : json := if truthy a then a else b.

(** [default=None] is [JNull]. *)
Definition _load_json (fs : filesystem) (filepath : string) (default : json) : json :=
  if negb (path_exists fs filepath) then py_or default (JDict [])
  else
    match load_file fs filepath with
    | Ok v => v
    | Raise _ => py_or default (JDict [])
    end.

Definition load_data_file (fs : filesystem) (directory : string)
    (acc : list json * list diagnostic) (filename : string)
  : list json * list diagnostic :=
  let (data_list, log) := acc in
  if endswith filename ".json" then
    let filepath := path_join directory filename in
    match load_file fs filepath with
    | Ok v => ((data_list ++ [v])%list, log)
    | Raise _ => (data_list, (log ++ [ErrorLoadingData filename directory])%list)
    end
  else acc.

Definition _load_json_dir (fs : filesystem) (directory : string)
  : result (list json * list diagnostic) :=
  if negb (path_exists fs directory) then Ok ([], [DataDirNotFound directory])
  else
    let* names := listdir fs directory in
    Ok (fold_left (load_data_file fs directory) names ([], [])).

(** ** Writing files

    Each system call of a save either works, raises [OSError] or is where
    the process dies; [written] is how much of the text had reached the
    file when the write does not work. *)

Inductive mode : Type := Works | Fails | Dies.

Record faults : Type := {
  on_open : mode;
  on_write : mode;
  written : nat;
  on_flush : mode;
  on_fsync : mode;
  on_close : mode;
  on_replace : mode;
  on_remove : mode
}.

Inductive event : Type :=
| EvOpen (p : string)
| EvWrite (p text : string)
| EvFlush (p : string)
| EvFsync (p : string)
| EvClose (p : string)
| EvReplace (src dst : string)
| EvRemove (p : string)
| EvPrint (d : diagnostic).

Record world : Type := {
  fs : filesystem;
  trace : list event
}.

Inductive outcome (A : Type) : Type :=
| Done (a : A)
| Raised (e : pyexn)
| Killed.
Arguments Done {A} a.
Arguments Raised {A} e.
Arguments Killed {A}.

Definition io (A : Type) : Type := world -> world * outcome A.

Definition io_ret {A : Type} (a : A) : io A := fun w => (w, Done a).

Definition io_bind {A B : Type} (m : io A) (k : A -> io B) : io B :=
  fun w =>
    match m w with
    | (w', Done a) => k a w'
    | (w', Raised e) => (w', Raised e)
    | (w', Killed) => (w', Killed)
    end.

Notation "'do' x ':=' m 'in' k" := (io_bind m (fun x => k))
  (at level 10, x name, m at level 100, k at level 200).

Definition set_files (w : world) (f : gmap string string) : world :=
  {| fs := {| files := f; dirs := dirs (fs w) |}; trace := trace w |}.

Definition emit (e : event) : io unit :=
  fun w => ({| fs := fs w; trace := (trace w ++ [e])%list |}, Done tt).

Definition print (d : diagnostic) : io unit := emit (EvPrint d).

Definition raise {A : Type} (e : pyexn) : io A := fun w => (w, Raised e).

(** A system call under its fault mode. *)
Definition syscall (m : mode) (act : io unit) : io unit :=
  fun w =>
    match m with
    | Works => act w
    | Fails => (w, Raised OSError)
    | Dies => (w, Killed)
    end.

Definition os_path_exists (p : string) : io bool :=
  fun w => (w, Done (path_exists (fs w) p)).

(** [open(p, 'w')] creates or truncates the file. *)
Definition sys_open_w (env : faults) (p : string) : io unit :=
  syscall (on_open env)
    (do _ := emit (EvOpen p) in
     fun w => (set_files w (<[p := EmptyString]> (files (fs w))), Done tt)).

Definition append_text (p text : string) : io unit :=
  fun w =>
    (set_files w (<[p := default EmptyString (files (fs w) !! p) ++ text]> (files (fs w))),
     Done tt).

(** Writing [text]: all of it, or its first [written env] characters
    before the fault. *)
Definition sys_write (env : faults) (p text : string) : io unit :=
  match on_write env with
  | Works => do _ := emit (EvWrite p text) in append_text p text
  | Fails =>
      do _ := append_text p (String.substring 0 (written env) text) in raise OSError
  | Dies =>
      do _ := append_text p (String.substring 0 (written env) text) in
      fun w => (w, Killed)
  end.

Definition sys_flush (env : faults) (p : string) : io unit :=
  syscall (on_flush env) (emit (EvFlush p)).

Definition sys_fsync (env : faults) (p : string) : io unit :=
  syscall (on_fsync env) (emit (EvFsync p)).

Definition sys_close (env : faults) (p : string) : io unit :=
  syscall (on_close env) (emit (EvClose p)).

(** [os.replace(src, dst)]: one step; [dst] gets the text of [src]. *)
Definition sys_replace (env : faults) (src dst : string) : io unit :=
  syscall (on_replace env)
    (fun w =>
       match files (fs w) !! src with
       | Some text =>
           emit (EvReplace src dst)
             (set_files w (<[dst := text]> (delete src (files (fs w)))))
       | None => (w, Raised OSError)
       end).

(** [os.remove(p)] *)
Definition sys_remove (env : faults) (p : string) : io unit :=
  syscall (on_remove env)
    (fun w =>
       match files (fs w) !! p with
       | Some _ => emit (EvRemove p) (set_files w (delete p (files (fs w))))
       | None => (w, Raised OSError)
       end).

(** [try: body except Exception as e: handler(e)] *)
Definition try_except {A : Type} (body : io A) (handler : pyexn -> io A) : io A :=
  fun w =>
    match body w with
    | (w', Raised e) => handler e w'
    | r => r
    end.

(** [with open(p, 'w') as f: body]: the file is closed on the way out,
    also when [body] raised. *)
Definition with_open_w {A : Type} (env : faults) (p : string) (body : io A) : io A :=
  do _ := sys_open_w env p in
  fun w =>
    match body w with
    | (w1, Killed) => (w1, Killed)
    | (w1, r) =>
        match sys_close env p w1 with
        | (w2, Done _) => (w2, r)
        | (w2, Raised e) => (w2, Raised e)
        | (w2, Killed) => (w2, Killed)
        end
    end.

(** ** DataManager: progress store *)

(** The [try] block of [save_user_progress]. *)
Definition save_attempt (env : faults) (K : Constants) (self : DataManager) : io unit :=
  let temp_file := PROGRESS_FILE K ++ ".tmp" in
  do _ := with_open_w env temp_file
            (do _ := sys_write env temp_file (Json.dumps (JDict (user_progress self))) in
             do _ := sys_flush env temp_file in
             sys_fsync env temp_file) in
  sys_replace env temp_file (PROGRESS_FILE K).

(** Its [except Exception] block. *)
Definition save_cleanup (env : faults) (K : Constants) (e : pyexn) : io unit :=
  do _ := print ErrorSavingProgress in
  do tmp_exists := os_path_exists (PROGRESS_FILE K ++ ".tmp") in
  if (tmp_exists : bool)
  then try_except (sys_remove env (PROGRESS_FILE K ++ ".tmp")) (fun _ => io_ret tt)
  else io_ret tt.

Definition save_user_progress (env : faults) (K : Constants) (self : DataManager)
  : io unit :=
  try_except (save_attempt env K self) (save_cleanup env K).

(** [self.user_progress = self._load_json(Constants.PROGRESS_FILE, {})] *)
Definition load_progress (K : Constants) (fs : filesystem) : json :=
  _load_json fs (PROGRESS_FILE K) (JDict []).

(** ** DataManager: item notes *)

Definition with_user_progress (self : DataManager) (up : pydict) : DataManager :=
  {| items := items self; hideout_data := hideout_data self;
     project_data := project_data self; quest_data := quest_data self;
     user_progress := up; id_to_item_map := id_to_item_map self |}.

(** Methods that read or write [self] return it next to their result. *)
Definition get_item_note (self : DataManager) (item_id : string)
  : DataManager * result json :=
  let notes := dict_get_or (user_progress self) (Some "item_notes") (JDict []) in
  (self, py_get notes (Some item_id) (JStr "")).

Definition is_str (s : string) (v : json) : bool :=
  match v with JStr t => String.eqb s t | _ => false end.

(** The update of [user_progress] made by [set_item_note] before it saves. *)
Definition store_note (up : pydict) (item_id note : string) : result pydict :=
  let up1 := if dict_mem "item_notes" up then up else dict_set up "item_notes" (JDict []) in
  let notes := dict_get_or up1 (Some "item_notes") JNull in
  if negb (String.eqb note "") && negb (String.eqb (PyStr.strip note) "") then
    match notes with
    | JDict d =>
        Ok (dict_set up1 "item_notes" (JDict (dict_set d item_id (JStr (PyStr.strip note)))))
    | _ => Raise TypeError
    end
  else
    match notes with
    | JDict d =>
        if dict_mem item_id d
        then Ok (dict_set up1 "item_notes" (JDict (dict_del d item_id)))
        else Ok up1
    | JList l => if existsb (is_str item_id) l then Raise TypeError else Ok up1
    | JStr s => if PyStr.contains item_id s then Raise TypeError else Ok up1
    | _ => Raise TypeError
    end.

Definition set_item_note (env : faults) (K : Constants) (self : DataManager)
    (item_id note : string) : io DataManager :=
  match store_note (user_progress self) item_id note with
  | Raise e => raise e
  | Ok up' =>
      let self' := with_user_progress self up' in
      do _ := save_user_progress env K self' in
      io_ret self'
  end.

(** ** DataManager: localisation *)

Inductive identifier : Type :=
| IdItem (item : pydict)
| IdStr (s : string)
| IdOther.

(** [k in v] and [v[k]] for a string [k]. *)
Definition py_in (k : string) (v : json) : result bool :=
  match v with
  | JDict d => Ok (dict_mem k d)
  | JStr s => Ok (PyStr.contains k s)
  | JList l => Ok (existsb (is_str k) l)
  | _ => Raise TypeError
  end.

Definition py_item (v : json) (k : string) : result json :=
  match v with
  | JDict d =>
      match dict_get d k with
      | Some x => Ok x
      | None => Raise KeyError
      end
  | _ => Raise TypeError
  end.

Definition get_localized_name (self : DataManager) (item_identifier : identifier)
    (lang_code : string) : result json :=
  let item :=
    match item_identifier with
    | IdItem d => Some d
    | IdStr s => dict_get (id_to_item_map self) s
    | IdOther => None
    end in
  match item with
  | None | Some [] =>
      match item_identifier with
      | IdStr s => Ok (JStr (PyStr.title (PyStr.replace "_" " " s)))
      | _ => Ok (JStr "Unknown")
      end
  | Some it =>
      let names := dict_get_or it (Some "names") (JDict []) in
      let* found := py_in lang_code names in
      if (found : bool) then py_item names lang_code
      else Ok (dict_get_or it (Some "name") (JStr "Unknown"))
  end.

(** ** DataManager: quests *)

(** [sorted(l, key=key)].  The keys are computed first, one per element;
    the order on keys is total, so the result is that of any stable sort:
    here, insertion from the right, an element going before the first one
    whose key is not smaller. *)
Section Sorted.
Context {K A : Type} (lt : K -> K -> bool).

Fixpoint insert_keyed (x : K * A) (l : list (K * A)) : list (K * A) :=
  match l with
  | [] => [x]
  | y :: l' => if lt (fst y) (fst x) then y :: insert_keyed x l' else x :: l
  end.

Definition sort_keyed (l : list (K * A)) : list (K * A) :=
  fold_right insert_keyed [] l.

Definition keyed (key : A -> result K) (l : list A) : result (list (K * A)) :=
  for_each l [] (fun acc x => let* k := key x in Ok (acc ++ [(k, x)])%list).

Definition py_sorted (key : A -> result K) (l : list A) : result (list A) :=
  let* kl := keyed key l in
  Ok (map snd (sort_keyed kl)).
End Sorted.

Record quest_info : Type := {
  info_id : string;
  info_name : option loc_text;
  info_objectives : list string;
  is_completed : json;
  is_tracked : json;
  objectives_completed : json
}.

(** [info['name'] = info['name']['en']] when the name is a table with [en]. *)
Definition flatten_name (name : option loc_text) : option loc_text :=
  match name with
  | Some (Table t) =>
      match dict_get t "en" with
      | Some en => Some (Plain en)
      | None => name
      end
  | _ => name
  end.

Definition flatten_objectives (original : list loc_text) : list string :=
  fold_left
    (fun flat obj =>
       match obj with
       | Table t =>
           match dict_get t "en" with
           | Some en => (flat ++ [en])%list
           | None => flat
           end
       | Plain o => (flat ++ [o])%list
       end)
    original [].

(** The first loop: one merged record per quest that has an id. *)
Definition all_quest_info (quest_data : list quest) (up : pydict)
  : result (list quest_info) :=
  for_each quest_data [] (fun all q =>
    match quest_id q with
    | None | Some EmptyString => Ok all
    | Some q_id =>
        let* progress :=
          py_get (dict_get_or up (Some "quests") JNull) (Some q_id) (JDict []) in
        let* completed := py_get progress (Some "quest_completed") (JBool false) in
        let* tracked := py_get progress (Some "is_tracked") (JBool false) in
        let* done := py_get progress (Some "objectives_completed") (JList []) in
        Ok (all ++ [{| info_id := q_id;
                       info_name := flatten_name (quest_name q);
                       info_objectives := flatten_objectives (default [] (objectives q));
                       is_completed := completed;
                       is_tracked := tracked;
                       objectives_completed := done |}])%list
    end).

Fixpoint find_index {A : Type} (p : A -> bool) (l : list A) : option nat :=
  match l with
  | [] => None
  | x :: l' => if p x then Some O else option_map S (find_index p l')
  end.

(** [len(v)] *)
Definition py_len (v : json) : result nat :=
  match v with
  | JList l => Ok (length l)
  | JStr s => Ok (String.length s)
  | JDict d => Ok (length d)
  | _ => Raise TypeError
  end.

(** [v.index(q_id) if q_id in v else missing] *)
Definition index_or (v : json) (q_id : string) (missing : result nat) : result nat :=
  match v with
  | JList l =>
      match find_index (is_str q_id) l with
      | Some i => Ok i
      | None => missing
      end
  | JStr s =>
      match String.index 0 q_id s with
      | Some i => Ok i
      | None => missing
      end
  | JDict d => if dict_mem q_id d then Raise AttributeError else missing
  | _ => Raise TypeError
  end.

Definition sort_key_t : Type := (bool * nat * Z)%type.

(** [<] on the key tuples. *)
Definition key_lt (a b : sort_key_t) : bool :=
  match a, b with
  | (a1, a2, a3), (b1, b2, b3) =>
      if Bool.eqb a1 b1 then
        if Nat.eqb a2 b2 then a3 <? b3 else Nat.ltb a2 b2
      else negb a1 && b1
  end.

(** The completion flag takes part in the key comparison as a number.
    [sorted] compares the flags of two quests only when their first two
    key components tie, and raises [TypeError] when it then meets a flag
    that is no number; here a flag that is no number is reported as that
    [TypeError] when the key is computed.  What is stated about the sort is
    stated for documents whose flags are booleans ([quests_typed]), on
    which the two agree. *)
Definition sort_key (custom_order : json) (q : quest_info) : result sort_key_t :=
  let* order_index := index_or custom_order (info_id q) (py_len custom_order) in
  match as_int (is_completed q) with
  | Some c => Ok (negb (truthy (is_tracked q)), order_index, c)
  | None => Raise TypeError
  end.

Definition tracked_key (custom_order : json) (q : quest_info) : result nat :=
  index_or custom_order (info_id q) (Ok 999%nat).

(** [if 'quests' not in self.user_progress: self.user_progress['quests'] = {}] *)
Definition with_quests (up : pydict) : pydict :=
  if dict_mem "quests" up then up else dict_set up "quests" (JDict []).

Definition get_filtered_quests (self : DataManager) (tracked_only : bool)
  : DataManager * result (list quest_info) :=
  let up := with_quests (user_progress self) in
  let self' := with_user_progress self up in
  (self',
   let* all := all_quest_info (quest_data self) up in
   let custom_order := dict_get_or up (Some "quest_order") (JList []) in
   let* sorted_quests := py_sorted key_lt (sort_key custom_order) all in
   if tracked_only then
     let tracked :=
       List.filter (fun q => truthy (is_tracked q) && negb (truthy (is_completed q))) all in
     py_sorted Nat.ltb (tracked_key custom_order) tracked
   else Ok sorted_quests).

(** ** Typed views of the progress document

    What the resolvers read from [user_progress] when it has the shape of
    the progress document: a number under a station id, nested objects of
    numbers under [hideout_inventory]. *)

Definition is_number (v : json) : bool :=
  match as_int v with Some _ => true | None => false end.

Definition number_of (v : json) : Z := default 0 (as_int v).

Definition current_level (up : pydict) (st : station) : Z :=
  number_of (dict_get_or up (station_id st) (JInt 0)).

Definition levels_typed (up : pydict) (stations : list station) : bool :=
  forallb (fun st => is_number (dict_get_or up (station_id st) (JInt 0))) stations.

(** An object all of whose values satisfy [p]. *)
Definition dict_of (p : json -> bool) (v : json) : bool :=
  match v with
  | JDict d => forallb (fun kv => p (snd kv)) d
  | _ => false
  end.

Definition inventory_typed (up : pydict) : bool :=
  dict_of (dict_of (dict_of is_number))
    (dict_get_or up (Some "hideout_inventory") (JDict [])).

Definition sub_dict (v : json) (k : option string) : json :=
  match v with
  | JDict d => dict_get_or d k (JDict [])
  | _ => JDict []
  end.

Definition sub_dict_or (v : json) (k : option string) (dflt : json) : json :=
  match v with
  | JDict d => dict_get_or d k dflt
  | _ => dflt
  end.

Definition count_in (v : json) (k : option string) : Z :=
  match v with
  | JDict d => number_of (dict_get_or d k (JInt 0))
  | _ => 0
  end.

(** Owned count of [item] for level [lvl] of station [sid]. *)
Definition hideout_owned (up : pydict) (sid : option string) (lvl : Z)
    (item : option string) : Z :=
  let h_inv := dict_get_or up (Some "hideout_inventory") (JDict []) in
  count_in (sub_dict (sub_dict h_inv sid) (Some (PyStr.of_int lvl))) item.

(** The entries of one level, as the specification words them: nothing at
    or below the current level; above it, one entry per requirement of the
    target with a positive remainder. *)
Definition level_entries (up : pydict) (tid : json) (st : station) (li : level_info)
  : list entry :=
  let cur := current_level up st in
  let lvl := default 0 (level li) in
  if lvl <=? cur then []
  else
    flat_map
      (fun req =>
         let rem := default 0 (quantity req)
                    - hideout_owned up (station_id st) lvl (itemId req) in
         if opt_str_eq (itemId req) tid && (0 <? rem)
         then [(hideout_label (station_name st) lvl rem,
                if lvl =? cur + 1 then "next" else "future")]
         else [])
      (default [] (level_requirementItemIds li)).

Definition hideout_entries (up : pydict) (tid : json) (stations : list station)
  : list entry :=
  flat_map (fun st => flat_map (level_entries up tid st) (default [] (levels st))) stations.

(** ** Sample data *)

Definition rope_req (n : Z) : requirement :=
  {| itemId := Some "rope"; quantity := Some n |}.

Definition workbench : station :=
  {| station_id := Some "workbench";
     station_name := Some "Workbench";
     levels := Some [
       {| level := Some 1; level_requirementItemIds := Some [rope_req 2] |};
       {| level := Some 3; level_requirementItemIds := Some [rope_req 10] |};
       {| level := Some 5; level_requirementItemIds := Some [rope_req 7] |}] |}.

Definition rope_item : pydict :=
  [("id", JStr "rope"); ("name", JStr "Rope"); ("names", JDict [("en", JStr "Rope")])].

(** Current level 2 at the workbench, 4 of the item stored for level 3. *)
Definition sample_manager : DataManager :=
  {| items := [("Rope", rope_item)];
     hideout_data := [workbench];
     project_data := [];
     quest_data := [];
     user_progress :=
       [("workbench", JInt 2);
        ("hideout_inventory",
         JDict [("workbench", JDict [("3", JDict [("rope", JInt 4)])])])];
     id_to_item_map := [("rope", rope_item)] |}.

(** Progress of a project: a number under [completed_phase], nested
    objects of numbers under [inventory]. *)
Definition project_progress_typed (prog : json) : bool :=
  match prog with
  | JDict d =>
      is_number (dict_get_or d (Some "completed_phase") (JInt 0))
      && dict_of (dict_of is_number) (dict_get_or d (Some "inventory") (JDict []))
  | _ => false
  end.

Definition projects_typed (up : pydict) : bool :=
  dict_of project_progress_typed (dict_get_or up (Some "projects") (JDict [])).

Definition project_progress (up : pydict) (pr : project) : json :=
  sub_dict_or (dict_get_or up (Some "projects") (JDict [])) (project_id pr)
    default_project_progress.

Definition completed_phase (up : pydict) (pr : project) : Z :=
  count_in (project_progress up pr) (Some "completed_phase").

Definition project_owned (up : pydict) (pr : project) (pnum : Z) (item : option string) : Z :=
  count_in (sub_dict (sub_dict (project_progress up pr) (Some "inventory"))
              (Some (PyStr.of_int pnum))) item.

(** The name shown for a project that has one. *)
Definition shown_name (pr : project) : string :=
  match project_name pr with
  | Some n =>
      if PyStr.contains "Project" n
      then PyStr.strip (PyStr.replace "Project" "" n)
      else n
  | None => EmptyString
  end.

Definition phase_entries (up : pydict) (tid : json) (pr : project) (ph : phase_info)
  : list entry :=
  let done := completed_phase up pr in
  let pnum := default 0 (phase ph) in
  if pnum <=? done then []
  else
    flat_map
      (fun req =>
         let rem := default 0 (quantity req) - project_owned up pr pnum (itemId req) in
         if opt_str_eq (itemId req) tid && (0 <? rem)
         then [(project_label (shown_name pr) pnum rem,
                if pnum =? done + 1 then "next" else "future")]
         else [])
      (default [] (phase_requirementItemIds ph)).

Definition project_entries (up : pydict) (tid : json) (projects : list project)
  : list entry :=
  flat_map (fun pr => flat_map (phase_entries up tid pr) (default [] (phases pr))) projects.

(** A project record without a [name] key, as the only project. *)
Definition nameless_project : project :=
  {| project_id := Some "p1"; project_name := None; phases := Some [] |}.

Definition manager_with_nameless_project : DataManager :=
  {| items := items sample_manager;
     hideout_data := [];
     project_data := [nameless_project];
     quest_data := [];
     user_progress := [];
     id_to_item_map := id_to_item_map sample_manager |}.

(** The sibling case: a station record without a [name] key. *)
Definition nameless_station : station :=
  {| station_id := Some "workbench"; station_name := None;
     levels := Some [{| level := Some 1; level_requirementItemIds := Some [rope_req 2] |}] |}.

Definition manager_with_nameless_station : DataManager :=
  {| items := items sample_manager;
     hideout_data := [nameless_station];
     project_data := [];
     quest_data := [];
     user_progress := [];
     id_to_item_map := id_to_item_map sample_manager |}.

Definition result_map {A B : Type} (f : A -> B) (r : result A) : result B :=
  match r with
  | Ok a => Ok (f a)
  | Raise e => Raise e
  end.

(** A file system without files or directories. *)
Definition no_files : filesystem := {| files := ∅; dirs := ∅ |}.

Definition sample_constants : Constants :=
  {| ITEMS_DIR := "data/items";
     HIDEOUT_DIR := "data/hideout";
     QUESTS_DIR := "data/quests";
     PROJECTS_FILE := "data/projects.json";
     TRADES_FILE := "data/trades.json";
     PROGRESS_FILE := "progress.json" |}.

(** Two tracked, incomplete quests; the custom order lists one of them
    after a thousand other ids. *)
Definition plain_quest (q_id : string) : quest :=
  {| quest_id := Some q_id; quest_name := Some (Plain q_id); objectives := None |}.

Definition tracked_entry : json := JDict [("is_tracked", JBool true)].

Definition manager_with_long_order : DataManager :=
  {| items := [];
     hideout_data := [];
     project_data := [];
     quest_data := [plain_quest "unlisted"; plain_quest "listed"];
     user_progress :=
       [("quests", JDict [("unlisted", tracked_entry); ("listed", tracked_entry)]);
        ("quest_order", JList (repeat (JStr "other") 1000 ++ [JStr "listed"])%list)];
     id_to_item_map := [] |}.

(** The item an identifier stands for: itself, or the entry of the id map. *)
Definition resolve (self : DataManager) (item_identifier : identifier) : option pydict :=
  match item_identifier with
  | IdItem it => Some it
  | IdStr s => dict_get (id_to_item_map self) s
  | IdOther => None
  end.

(** No entry of the map is an empty record: the constructor enters an item
    under its [id], so the item has that key. *)
Definition values_nonempty (m : dict pydict) : bool :=
  forallb (fun kv => match snd kv with [] => false | _ :: _ => true end) m.

(** ** Fault plans *)

Definition works (m : mode) : bool :=
  match m with Works => true | _ => false end.

(** Every call of the write sequence works. *)
Definition all_work (env : faults) : bool :=
  works (on_open env) && works (on_write env) && works (on_flush env)
  && works (on_fsync env) && works (on_close env) && works (on_replace env).

Definition no_faults : faults :=
  {| on_open := Works; on_write := Works; written := 0; on_flush := Works;
     on_fsync := Works; on_close := Works; on_replace := Works; on_remove := Works |}.

(** The replace fails, and so does the removal of the temporary file. *)
Definition replace_and_remove_fail : faults :=
  {| on_open := Works; on_write := Works; written := 0; on_flush := Works;
     on_fsync := Works; on_close := Works; on_replace := Fails; on_remove := Fails |}.

(** The process dies after the temporary file is written and synced,
    before the replace. *)
Definition dies_before_replace : faults :=
  {| on_open := Works; on_write := Works; written := 0; on_flush := Works;
     on_fsync := Works; on_close := Works; on_replace := Dies; on_remove := Works |}.

(** The write raises after 5 characters. *)
Definition write_fails_midway : faults :=
  {| on_open := Works; on_write := Fails; written := 5; on_flush := Works;
     on_fsync := Works; on_close := Works; on_replace := Works; on_remove := Works |}.

Definition file_at (w : world) (p : string) : option string := files (fs w) !! p.

(** A progress file saved earlier. *)
Definition old_world : world :=
  {| fs := {| files := {[ "progress.json" := "{}" ]}; dirs := ∅ |}; trace := [] |}.

(** No call is where the process dies. *)
Definition never_dies (env : faults) : bool :=
  match on_open env, on_write env, on_flush env, on_fsync env,
        on_close env, on_replace env, on_remove env with
  | Dies, _, _, _, _, _, _ | _, Dies, _, _, _, _, _ | _, _, Dies, _, _, _, _
  | _, _, _, Dies, _, _, _ | _, _, _, _, Dies, _, _ | _, _, _, _, _, Dies, _
  | _, _, _, _, _, _, Dies => false
  | _, _, _, _, _, _, _ => true
  end.

(** ** Notes *)

(** The text has a character that is not white space. *)
Fixpoint has_text (s : string) : bool :=
  match s with
  | EmptyString => false
  | String c s' => negb (PyStr.isspace c) || has_text s'
  end.

Definition notes_typed (up : pydict) : bool :=
  match dict_get up "item_notes" with
  | None | Some (JDict _) => true
  | Some _ => false
  end.

Definition notes_of (up : pydict) : pydict :=
  match dict_get up "item_notes" with
  | Some (JDict d) => d
  | _ => []
  end.

Definition manager_with_notes : DataManager :=
  with_user_progress sample_manager
    [("item_notes", JDict [("rope", JStr "keep ten")]); ("theme", JStr "dark")].

(** ** Quest order, as the specification words it *)

(** The custom order of a progress document that has a list, or none,
    under [quest_order]. *)
Definition custom_order_of (up : pydict) : list json :=
  match dict_get up "quest_order" with
  | Some (JList l) => l
  | _ => []
  end.

Definition listed (custom_order : list json) (q_id : string) : bool :=
  existsb (is_str q_id) custom_order.

(** Position in the custom order; the length of the order when absent. *)
Definition position (custom_order : list json) (q_id : string) : nat :=
  match find_index (is_str q_id) custom_order with
  | Some i => i
  | None => length custom_order
  end.

Definition tracked (q : quest_info) : bool := truthy (is_tracked q).
Definition completed (q : quest_info) : bool := truthy (is_completed q).

(** [a] may come before [b]: tracked before untracked; then the smaller
    position; then incomplete before completed. *)
Definition precedes (custom_order : list json) (a b : quest_info) : Prop :=
  (tracked a = true /\ tracked b = false)
  \/ (tracked a = tracked b
      /\ (position custom_order (info_id a) < position custom_order (info_id b)
          \/ (position custom_order (info_id a) = position custom_order (info_id b)
              /\ (completed a = true -> completed b = true))))%nat.

(** The quest has this tracked flag, position and completion flag. *)
Definition has_rank (custom_order : list json) (t : bool) (p : nat) (c : bool)
    (q : quest_info) : bool :=
  Bool.eqb (tracked q) t
  && Nat.eqb (position custom_order (info_id q)) p
  && Bool.eqb (completed q) c.

(** The progress entry of a quest, empty when there is none. *)
Definition quest_progress (up : pydict) (q_id : string) : json :=
  sub_dict (dict_get_or up (Some "quests") (JDict [])) (Some q_id).

Definition merged_info (up : pydict) (q : quest) (q_id : string) : quest_info :=
  {| info_id := q_id;
     info_name := flatten_name (quest_name q);
     info_objectives := flatten_objectives (default [] (objectives q));
     is_completed := sub_dict_or (quest_progress up q_id) (Some "quest_completed") (JBool false);
     is_tracked := sub_dict_or (quest_progress up q_id) (Some "is_tracked") (JBool false);
     objectives_completed :=
       sub_dict_or (quest_progress up q_id) (Some "objectives_completed") (JList []) |}.

(** One record per quest that has an id, in the order of the quest data. *)
Definition merged (up : pydict) (quest_data : list quest) : list quest_info :=
  flat_map
    (fun q =>
       match quest_id q with
       | None | Some EmptyString => []
       | Some q_id => [merged_info up q q_id]
       end)
    quest_data.

Definition is_bool (v : json) : bool :=
  match v with JBool _ => true | _ => false end.

(** [quests], if present, maps ids to objects whose [quest_completed], if
    present, is a boolean; [quest_order], if present, is a list. *)
Definition quests_typed (up : pydict) : bool :=
  dict_of (fun p =>
             match p with
             | JDict e => is_bool (dict_get_or e (Some "quest_completed") (JBool false))
             | _ => false
             end)
    (dict_get_or up (Some "quests") (JDict []))
  && match dict_get up "quest_order" with
     | None | Some (JList _) => true
     | Some _ => false
     end.

Definition manager_with_quests : DataManager :=
  {| items := [];
     hideout_data := [];
     project_data := [];
     quest_data := [plain_quest "a"; plain_quest "b"; plain_quest "c"; plain_quest "d"];
     user_progress :=
       [("quests",
         JDict [("b", JDict [("is_tracked", JBool true)]);
                ("c", JDict [("quest_completed", JBool true)]);
                ("d", JDict [("is_tracked", JBool true); ("quest_completed", JBool true)])]);
        ("quest_order", JList [JStr "d"; JStr "a"])];
     id_to_item_map := [] |}.

(** The key [sort_key] computes on a typed progress document. *)
Definition rank (custom_order : list json) (q : quest_info) : sort_key_t :=
  (negb (tracked q), position custom_order (info_id q), number_of (is_completed q)).

Definition key_eqb (a b : sort_key_t) : bool :=
  match a, b with
  | (a1, a2, a3), (b1, b2, b3) => Bool.eqb a1 b1 && Nat.eqb a2 b2 && (a3 =? b3)
  end.

(** ** The item index, as the specification words it *)

(** The index key of a name: its text, stripped. *)
Definition index_key (name_val : json) : string := PyStr.strip (PyRepr.str name_val).

(** The keys a name table is indexed under: one per truthy value. *)
Definition table_keys (name_obj : pydict) : list string :=
  flat_map (fun kv => if truthy (snd kv) then [index_key (snd kv)] else []) name_obj.

(** The Item kept for a record with a name table: the record with its
    canonical [name], when the table has [en], and the table as [names]. *)
Definition table_item (o name_obj : pydict) : pydict :=
  dict_set
    (match dict_get name_obj "en" with
     | Some en => dict_set o "name" (JStr (index_key en))
     | None => o
     end)
    "names" (JDict name_obj).

Definition plain_item (o : pydict) (name_str : string) : pydict :=
  dict_set (dict_set o "name" (JStr (PyStr.strip name_str)))
    "names" (JDict [("en", JStr (PyStr.strip name_str))]).

(** The keys and the Item of a parsed record. *)
Definition record_keys (item_object : json) : list string :=
  match item_object with
  | JDict o =>
      match dict_get o "name" with
      | Some (JDict name_obj) => table_keys name_obj
      | Some (JStr name_str) => [PyStr.strip name_str]
      | _ => []
      end
  | _ => []
  end.

Definition record_item (item_object : json) : pydict :=
  match item_object with
  | JDict o =>
      match dict_get o "name" with
      | Some (JDict name_obj) => table_item o name_obj
      | Some (JStr name_str) => plain_item o name_str
      | _ => []
      end
  | _ => []
  end.

(** What [json.load] gives for a file of the directory. *)
Definition parse_file (fs : filesystem) (directory filename : string) : result json :=
  load_file fs (path_join directory filename).

(** The keys a file of the directory is indexed under. *)
Definition file_keys (fs : filesystem) (directory filename : string) : list string :=
  if endswith filename ".json" then
    match parse_file fs directory filename with
    | Ok item_object => record_keys item_object
    | Raise _ => []
    end
  else [].

(** The text of a [.json] file of the directory is in the range of the
    embedding, so that [json.load] reads from it what [Json.loads] reads. *)
Definition file_in_range (fs : filesystem) (directory filename : string) : bool :=
  if endswith filename ".json" then
    match files fs !! path_join directory filename with
    | Some text => Json.in_range text
    | None => true
    end
  else true.

(** So are all the [.json] files the directory lists. *)
Definition listing_in_range (fs : filesystem) (directory : string) : bool :=
  match dirs fs !! directory with
  | Some names => forallb (file_in_range fs directory) names
  | None => true
  end.

(** Three item files: two share a German name, one pads its name. *)
Definition rope_record : json :=
  JDict [("id", JStr "rope"); ("name", JDict [("en", JStr "Rope"); ("de", JStr "Seil")])].

Definition cord_record : json :=
  JDict [("id", JStr "cord"); ("name", JDict [("en", JStr "Cord"); ("de", JStr "Seil")])].

Definition wire_record : json :=
  JDict [("id", JStr "wire"); ("name", JDict [("en", JStr " Wire ")])].

Definition items_fs : filesystem :=
  {| files :=
       <["data/items/a.json" := Json.dumps rope_record]>
       (<["data/items/b.json" := Json.dumps cord_record]>
        (<["data/items/c.json" := Json.dumps wire_record]> ∅));
     dirs := {[ "data/items" := ["a.json"; "b.json"; "c.json"] ]} |}.

Definition lookup_in (r : result (dict pydict * list diagnostic)) (name : string)
  : option pydict :=
  match r with
  | Ok (choices, _) => dict_get choices name
  | Raise _ => None
  end.

(** ** Well-formed values *)

Fixpoint unique (keys : list string) : bool :=
  match keys with
  | [] => true
  | k :: keys' => negb (existsb (String.eqb k) keys') && unique keys'
  end.

(** Every object of the value has one entry per key, as a [dict] has. *)
Fixpoint well_formed (v : json) : bool :=
  match v with
  | JList l => forallb well_formed l
  | JDict d => unique (map fst d) && forallb (fun kv => well_formed (snd kv)) d
  | _ => true
  end.

(** Nodes of a value; a container counts twice. *)
Fixpoint size (v : json) : nat :=
  match v with
  | JList l => 2 + list_sum (map size l)
  | JDict d => 2 + list_sum (map (fun kv => size (snd kv)) d)
  | _ => 1
  end.

Section JsonInduction.
Variable P : json -> Prop.
Hypothesis Hnull : P JNull.
Hypothesis Hbool : forall b, P (JBool b).
Hypothesis Hint : forall z, P (JInt z).
Hypothesis Hstr : forall s, P (JStr s).
Hypothesis Hlist : forall l, Forall P l -> P (JList l).
Hypothesis Hdict : forall d, Forall (fun kv => P (snd kv)) d -> P (JDict d).

Fixpoint json_ind (v : json) : P v :=
  match v with
  | JNull => Hnull
  | JBool b => Hbool b
  | JInt z => Hint z
  | JStr s => Hstr s
  | JList l =>
      Hlist l
        ((fix elements (l : list json) : Forall P l :=
            match l with
            | [] => @List.Forall_nil json P
            | x :: l' => @List.Forall_cons json P x l' (json_ind x) (elements l')
            end) l)
  | JDict d =>
      Hdict d
        ((fix members (d : list (string * json)) : Forall (fun kv => P (snd kv)) d :=
            match d with
            | [] => @List.Forall_nil (string * json) (fun kv => P (snd kv))
            | kv :: d' =>
                @List.Forall_cons (string * json) (fun kv => P (snd kv)) kv d'
                  (json_ind (snd kv)) (members d')
            end) d)
  end.
End JsonInduction.

(** A progress document with keys the module does not know. *)
Definition progress_with_unknown_keys : pydict :=
  [("quests", JDict [("q1", JDict [("is_tracked", JBool true);
                                   ("objectives_completed", JList [JInt 0; JInt 2])])]);
   ("workbench", JInt 2);
   ("item_notes", JDict [("rope", JStr "keep ten")]);
   ("theme", JStr "dark");
   ("window", JDict [("x", JInt (-40)); ("pinned", JBool false); ("tabs", JList [])]);
   ("last_seen", JNull)].

(** ** Printed text *)

(** What may follow a printed value: nothing, a comma or a line break. *)
Definition ends_value (rest : string) : bool :=
  match rest with
  | EmptyString => true
  | String c _ => Ascii.eqb c "," || Ascii.eqb c Json.newline
  end.

(** The first character of a printed value. *)
Definition value_head (c : ascii) : bool :=
  negb (Json.is_ws c) && negb (Ascii.eqb c "]") && negb (Ascii.eqb c "}").

(** The members of a container after the first one. *)
Definition tail_text {A : Type} (sep : string) (f : A -> string) (l : list A) : string :=
  fold_right (fun y acc => sep ++ f y ++ acc) EmptyString l.

(** The key of the tracked-only sort: the position, 999 when unlisted. *)
Definition tracked_rank (custom_order : list json) (q : quest_info) : nat :=
  match find_index (is_str (info_id q)) custom_order with
  | Some i => i
  | None => 999%nat
  end.

(** ** Dictionaries keyed by values

    The keys of [item_to_trades_map] and [id_to_item_map] are the ids found
    in the data.  A list or an object cannot be a key; [True] and [1] are
    the same key. *)

Definition hashable (v : json) : bool :=
  match v with
  | JList _ | JDict _ => false
  | _ => true
  end.

(** [a == b] on keys. *)
Definition key_eq (a b : json) : bool :=
  match a, b with
  | JStr s, JStr t => String.eqb s t
  | JNull, JNull => true
  | _, _ =>
      match as_int a, as_int b with
      | Some x, Some y => x =? y
      | _, _ => false
      end
  end.

Definition kdict (A : Type) : Type := list (json * A).

Section KDict.
Context {A : Type}.

(** [m.get(k)] *)
Fixpoint kdict_get (m : kdict A) (k : json) : option A :=
  match m with
  | [] => None
  | (k', v) :: m' => if key_eq k k' then Some v else kdict_get m' k
  end.

(** [m[k] = v]: an entry under an equal key keeps its key and its place. *)
Fixpoint kdict_set (m : kdict A) (k : json) (v : A) : kdict A :=
  match m with
  | [] => [(k, v)]
  | (k', v') :: m' =>
      if key_eq k k' then (k', v) :: m' else (k', v') :: kdict_set m' k v
  end.

End KDict.

(** ** DataManager: the tables of the constructor *)

(** [name.lower()]: the letters of Latin-1 that have a lower case. *)
Definition lower_point (c : ascii) : ascii :=
  let n := nat_of_ascii c in
  if ((65 <=? n)%nat && (n <=? 90)%nat)
     || ((192 <=? n)%nat && (n <=? 222)%nat && negb (n =? 215)%nat)
  then ascii_of_nat (n + 32)
  else c.

Fixpoint str_lower (s : string) : string :=
  match s with
  | EmptyString => EmptyString
  | String c s' => String (lower_point c) (str_lower s')
  end.

(** [[name.lower() for name in self.items.keys()]] *)
Definition item_names_lower (items : dict pydict) : list string :=
  map (fun kv => str_lower (fst kv)) items.

(** [{name.lower(): name for name in self.items.keys()}] *)
Definition lower_to_actual_name (items : dict pydict) : dict string :=
  fold_left (fun m kv => dict_set m (str_lower (fst kv)) (fst kv)) items [].

(** [for x in v] *)
Definition py_iter (v : json) : result (list json) :=
  match v with
  | JList l => Ok l
  | JDict d => Ok (map (fun kv => JStr (fst kv)) d)
  | JStr s => Ok (map (fun c => JStr (String c EmptyString)) (list_ascii_of_string s))
  | _ => Raise TypeError
  end.

(** The body of the loop over [trade_data]:
    [self.item_to_trades_map.setdefault(item_id, []).append(trade)]. *)
Definition index_trade (m : kdict (list json)) (trade : json)
  : result (kdict (list json)) :=
  let* item_id := py_get trade (Some "itemId") JNull in
  if truthy item_id then
    if hashable item_id
    then Ok (kdict_set m item_id (default [] (kdict_get m item_id) ++ [trade])%list)
    else Raise TypeError
  else Ok m.

Definition build_item_to_trades_map (trade_data : json) : result (kdict (list json)) :=
  let* trades := py_iter trade_data in
  for_each trades [] index_trade.

(** [self.item_to_trades_map] is passed next to [self], whose record holds
    the fields the other queries read. *)
Definition find_trades_for_item (self : DataManager)
    (item_to_trades_map : kdict (list json)) (item_name : string)
  : result (list json) :=
  match get_item_by_name self item_name with
  | None | Some [] => Ok []
  | Some item =>
      match dict_get item "id" with
      | None => Ok []
      | Some tid =>
          if hashable tid then Ok (default [] (kdict_get item_to_trades_map tid))
          else Raise TypeError
      end
  end.

(** The body of the loop over [self.items.values()]:
    [if item.get('id'): self.id_to_item_map[item['id']] = item]. *)
Definition index_by_id (m : kdict pydict) (kv : string * pydict) : result (kdict pydict) :=
  let item := snd kv in
  let id := dict_get_or item (Some "id") JNull in
  if truthy id then
    if hashable id then Ok (kdict_set m id item) else Raise TypeError
  else Ok m.

Definition build_id_to_item_map (items : dict pydict) : result (kdict pydict) :=
  for_each items [] index_by_id.

(** [{i_id: item.get('name', 'Unknown') for i_id, item in self.id_to_item_map.items()}] *)
Definition build_id_to_name_map (id_map : kdict pydict) : kdict json :=
  map (fun kv => (fst kv, dict_get_or (snd kv) (Some "name") (JStr "Unknown"))) id_map.

(** The entries under string keys, which [get_localized_name] looks up. *)
Definition string_keys {A : Type} (m : kdict A) : dict A :=
  flat_map (fun kv => match fst kv with JStr s => [(s, snd kv)] | _ => [] end) m.

(** The id of an item, [None] when it has none. *)
Definition item_id_of (item : pydict) : json := dict_get_or item (Some "id") JNull.

(** The item has a truthy id equal to [k]. *)
Definition has_id (k : json) (item : pydict) : bool :=
  truthy (item_id_of item) && key_eq k (item_id_of item).

(** The trade is for the item with id [tid]. *)
Definition trade_for (tid : json) (trade : json) : bool :=
  match trade with
  | JDict t =>
      truthy (dict_get_or t (Some "itemId") JNull)
      && key_eq tid (dict_get_or t (Some "itemId") JNull)
  | _ => false
  end.

(** Two trades for the rope, one for another item, one without an item. *)
Definition sample_trades : json :=
  JList [JDict [("itemId", JStr "rope"); ("trader", JStr "Celeste")];
         JDict [("itemId", JStr "wire"); ("trader", JStr "Apollo")];
         JDict [("trader", JStr "Lance")];
         JDict [("itemId", JStr "rope"); ("trader", JStr "Apollo")]].

Definition sample_trade_map : kdict (list json) :=
  Eval cbv in
    match build_item_to_trades_map sample_trades with
    | Ok m => m
    | Raise _ => []
    end.

(** An index of three names for two items: a name of each language leads
    to the item. *)
Definition cord_item : pydict :=
  [("id", JStr "cord"); ("name", JStr "Cord");
   ("names", JDict [("en", JStr "Cord"); ("de", JStr "Schnur")])].

Definition two_items : dict pydict :=
  [("Rope", rope_item); ("Cord", cord_item); ("Schnur", cord_item)].

Definition two_items_by_id : kdict pydict :=
  Eval cbv in
    match build_id_to_item_map two_items with
    | Ok m => m
    | Raise _ => []
    end.

(** ** The directories, file by file *)

(** The file is indexed under [k]. *)
Definition declares (fs : filesystem) (directory k filename : string) : bool :=
  if in_dec string_dec k (file_keys fs directory filename) then true else false.

(** The Item a file of the directory is kept as. *)
Definition file_item (fs : filesystem) (directory filename : string) : pydict :=
  match parse_file fs directory filename with
  | Ok item_object => record_item item_object
  | Raise _ => []
  end.

(** What loading the items prints for a file: nothing for a record with a
    name, and for a file that is not a [.json] file. *)
Definition item_diagnostics (fs : filesystem) (directory filename : string)
  : list diagnostic :=
  if endswith filename ".json" then
    match parse_file fs directory filename with
    | Ok (JDict o) =>
        match dict_get o "name" with
        | Some (JDict _) | Some (JStr _) => []
        | _ => [NoUsableName filename]
        end
    | _ => [ErrorLoadingItem filename]
    end
  else [].

(** The document of a [.json] file that can be read and parsed. *)
Definition file_data (fs : filesystem) (directory filename : string) : list json :=
  if endswith filename ".json" then
    match parse_file fs directory filename with
    | Ok v => [v]
    | Raise _ => []
    end
  else [].

Definition data_diagnostics (fs : filesystem) (directory filename : string)
  : list diagnostic :=
  if endswith filename ".json" then
    match parse_file fs directory filename with
    | Ok _ => []
    | Raise _ => [ErrorLoadingData filename directory]
    end
  else [].

(** A directory of three files: a station, a file that is not JSON and a
    file of another kind. *)
Definition hideout_fs : filesystem :=
  {| files :=
       <["data/hideout/bench.json" := Json.dumps (JDict [("id", JStr "workbench")])]>
       (<["data/hideout/broken.json" := "{"]>
        (<["data/hideout/notes.txt" := "x"]> ∅));
     dirs := {[ "data/hideout" := ["bench.json"; "broken.json"; "notes.txt"] ]} |}.

(** A progress file next to the file of another program. *)
Definition shared_world : world :=
  {| fs := {| files := <["progress.json" := "{}"]> {[ "settings.json" := "{1}" ]};
              dirs := {[ "data" := ["items"] ]} |};
     trace := [] |}.

(** ** DataManager: backups

    [shutil.copy2] works, raises or is where the process dies; when it does
    not work the destination is untouched ([None]) or holds the first
    characters of the source. *)

Inductive copy_mode : Type :=
| CopyWorks
| CopyFails (reached : option nat)
| CopyDies (reached : option nat).

(** [os.path.basename] *)
Fixpoint basename (p : string) : string :=
  match p with
  | EmptyString => EmptyString
  | String _ p' => if PyStr.contains "/" p then basename p' else p
  end.

(** Where [shutil.copy2(src, dst)] writes: inside [dst] when it is a
    directory. *)
Definition copy_target (fs : filesystem) (src dst : string) : string :=
  match dirs fs !! dst with
  | Some _ => path_join dst (basename src)
  | None => dst
  end.

Definition write_file (p text : string) : io unit :=
  fun w => (set_files w (<[p := text]> (files (fs w))), Done tt).

Definition partial_copy (reached : option nat) (target text : string) : io unit :=
  match reached with
  | Some n => write_file target (String.substring 0 n text)
  | None => io_ret tt
  end.

Definition shutil_copy2 (c : copy_mode) (src dst : string) : io unit :=
  fun w =>
    match files (fs w) !! src with
    | None => (w, Raised OSError)
    | Some text =>
        let target := copy_target (fs w) src dst in
        if String.eqb target src then (w, Raised OSError)
        else
          match c with
          | CopyWorks => write_file target text w
          | CopyFails reached =>
              (do _ := partial_copy reached target text in raise OSError) w
          | CopyDies reached =>
              (do _ := partial_copy reached target text in fun w' => (w', Killed)) w
          end
    end.

(** What the backup and the reload print. *)
Inductive notice : Type :=
| BackupCreated (backup_path : string)
| BackupFailed
| ProgressReloaded.

(** The lines printed are returned, in order. *)
Definition _backup_progress (c : copy_mode) (K : Constants) : io (list notice) :=
  do present := os_path_exists (PROGRESS_FILE K) in
  if (present : bool) then
    try_except
      (let backup_path := PROGRESS_FILE K ++ ".bak" in
       do _ := shutil_copy2 c (PROGRESS_FILE K) backup_path in
       io_ret [BackupCreated backup_path])
      (fun _ => io_ret [BackupFailed])
  else io_ret [].

(** The value [reload_progress] assigns to [self.user_progress], next to
    the lines printed. *)
Definition reload_progress (c : copy_mode) (K : Constants) : io (json * list notice) :=
  fun w =>
    let user_progress := load_progress K (fs w) in
    (do printed := _backup_progress c K in
     io_ret (user_progress, (printed ++ [ProgressReloaded])%list)) w.

(** ** Sorting by a comparison

    [sort_keyed] on elements paired with their keys, written on the
    elements: [before y x] says that the key of [y] is below the key of [x]. *)
Section SortBy.
Context {A : Type} (before : A -> A -> bool).

Fixpoint insert_by (x : A) (l : list A) : list A :=
  match l with
  | [] => [x]
  | y :: l' => if before y x then y :: insert_by x l' else x :: l
  end.

Definition sort_by (l : list A) : list A := fold_right insert_by [] l.

End SortBy.

(** The quests the tracked-only view keeps. *)
Definition shown_when_tracked (q : quest_info) : bool := tracked q && negb (completed q).

(** The record of a quest nothing is known about. *)
Definition unstarted_info (q : quest) (q_id : string) : quest_info :=
  {| info_id := q_id;
     info_name := flatten_name (quest_name q);
     info_objectives := flatten_objectives (default [] (objectives q));
     is_completed := JBool false;
     is_tracked := JBool false;
     objectives_completed := JList [] |}.

Definition unstarted (quest_data : list quest) : list quest_info :=
  flat_map
    (fun q =>
       match quest_id q with
       | None | Some EmptyString => []
       | Some q_id => [unstarted_info q q_id]
       end)
    quest_data.

(** A first run: quest data, and a progress document without quests. *)
Definition manager_without_quest_progress : DataManager :=
  {| items := [];
     hideout_data := [];
     project_data := [];
     quest_data := [plain_quest "a";
                    {| quest_id := None; quest_name := None; objectives := None |};
                    plain_quest "b"];
     user_progress := [("theme", JStr "dark")];
     id_to_item_map := [] |}.

(** ** Records the resolvers can read *)

Definition named (pr : project) : bool :=
  match project_name pr with
  | Some _ => true
  | None => false
  end.

(** The level of the station is a number, or the station has no levels to
    compare it with. *)
Definition level_readable (up : pydict) (st : station) : bool :=
  is_number (dict_get_or up (station_id st) (JInt 0))
  || match default [] (levels st) with
     | [] => true
     | _ :: _ => false
     end.

(** A project with three phases, the first one completed and four of the
    item stored for the second. *)
Definition expedition : project :=
  {| project_id := Some "expedition";
     project_name := Some "Expedition Project";
     phases := Some [
       {| phase := Some 1; phase_requirementItemIds := Some [rope_req 2] |};
       {| phase := Some 2; phase_requirementItemIds := Some [rope_req 10] |};
       {| phase := Some 4; phase_requirementItemIds := Some [rope_req 7] |}] |}.

Definition manager_with_project : DataManager :=
  {| items := items sample_manager;
     hideout_data := [];
     project_data := [expedition];
     quest_data := [];
     user_progress :=
       [("projects",
         JDict [("expedition",
                 JDict [("completed_phase", JInt 1);
                        ("inventory", JDict [("2", JDict [("rope", JInt 4)])])])])];
     id_to_item_map := id_to_item_map sample_manager |}.

(** The level of the workbench was saved as a text. *)
Definition manager_with_text_level : DataManager :=
  with_user_progress sample_manager [("workbench", JStr "2")].

(** ** Ids the constructor cannot enter *)

(** The id of the item is falsy, or it can be a key. *)
Definition id_usable (item : pydict) : bool :=
  negb (truthy (item_id_of item)) || hashable (item_id_of item).

(** What entering a trade raises, if anything. *)
Definition trade_error (trade : json) : option pyexn :=
  match trade with
  | JDict t =>
      let item_id := dict_get_or t (Some "itemId") JNull in
      if truthy item_id && negb (hashable item_id) then Some TypeError else None
  | _ => Some AttributeError
  end.

Fixpoint first_error {A : Type} (f : A -> option pyexn) (l : list A) : option pyexn :=
  match l with
  | [] => None
  | x :: l' =>
      match f x with
      | Some e => Some e
      | None => first_error f l'
      end
  end.

(** ** The text of the progress file *)

(** A printable character of ASCII, or a line feed. *)
Definition plain (c : ascii) : bool :=
  let n := nat_of_ascii c in
  ((32 <=? n)%nat && (n <=? 126)%nat) || (n =? 10)%nat.

Fixpoint all_plain (s : string) : bool :=
  match s with
  | EmptyString => true
  | String c s' => plain c && all_plain s'
  end.

(** A document with text outside ASCII and with control characters. *)
Definition manager_with_accents : DataManager :=
  with_user_progress sample_manager
    [("item_notes", JDict [("rope", JStr (String "233"%char (String "009"%char "t")))])].

(** ** DataManager: the station records of the constructor *)

(** [if isinstance(r.get('name'), dict) and 'en' in r['name']:
       r['name'] = r['name']['en']] *)
Definition english_name (record : json) : result json :=
  match record with
  | JDict o =>
      match dict_get o "name" with
      | Some (JDict names) =>
          match dict_get names "en" with
          | Some en => Ok (JDict (dict_set o "name" en))
          | None => Ok record
          end
      | _ => Ok record
      end
  | _ => Raise AttributeError
  end.

(** [self.hideout_data = self._load_json_dir(Constants.HIDEOUT_DIR)] and the
    loop that follows it; the diagnostics of the loading come second. *)
Definition load_hideout_data (fs : filesystem) (K : Constants)
  : result (list json * list diagnostic) :=
  let* loaded := _load_json_dir fs (HIDEOUT_DIR K) in
  let* hideout_data :=
    for_each (fst loaded) [] (fun done station =>
      let* station' := english_name station in Ok (done ++ [station'])%list) in
  Ok (hideout_data, snd loaded).

Definition is_object (v : json) : bool :=
  match v with
  | JDict _ => true
  | _ => false
  end.

(** The record with the English name in the place of a name table. *)
Definition with_english_name (record : json) : json :=
  match english_name record with
  | Ok record' => record'
  | Raise _ => record
  end.

(** A station directory with a file that holds a list. *)
Definition hideout_fs_with_list : filesystem :=
  {| files :=
       <["data/hideout/bench.json" :=
           Json.dumps (JDict [("id", JStr "workbench");
                              ("name", JDict [("en", JStr "Workbench");
                                              ("de", JStr "Werkbank")])])]>
       (<["data/hideout/list.json" := "[]"]> ∅);
     dirs := {[ "data/hideout" := ["bench.json"; "list.json"] ]} |}.

(** * Properties *)

(** ** Loops and dictionaries *)

Lemma for_each_collect {A B : Type} (g : A -> list B)
    (body : list B -> A -> result (list B)) (l : list A) :
  forall acc,
    (forall acc' x, In x l -> body acc' x = Ok (acc' ++ g x)%list) ->
    for_each l acc body = Ok (acc ++ flat_map g l)%list.
Proof.
  induction l as [|x l IH]; intros acc Hbody; cbn [for_each flat_map].
  - now rewrite app_nil_r.
  - rewrite (Hbody acc x) by now left.
    cbn [bind]. rewrite IH.
    + now rewrite app_assoc.
    + intros acc' y Hy. apply Hbody. now right.
Qed.

Lemma dict_of_inv (p : json -> bool) (v : json) :
  dict_of p v = true ->
  exists d, v = JDict d /\ forall k dflt, p dflt = true -> p (dict_get_or d k dflt) = true.
Proof.
  destruct v as [| | | | |d]; cbn [dict_of]; try discriminate.
  intros Hall. exists d. split; [reflexivity|].
  intros [k|] dflt Hd; cbn [dict_get_or]; [|exact Hd].
  induction d as [|[k' v'] d IH]; cbn [dict_get]; [exact Hd|].
  cbn [forallb] in Hall. apply andb_true_iff in Hall as [Hv Hrest].
  destruct (String.eqb k k'); [exact Hv|].
  now apply IH.
Qed.

Lemma is_number_as_int (v : json) :
  is_number v = true -> as_int v = Some (number_of v).
Proof.
  unfold is_number, number_of. now destruct (as_int v).
Qed.

(** ** Station requirements *)

Section Hideout.
Variables (up : pydict) (tid : json).
Hypothesis Hinv : inventory_typed up = true.

Let h_inv : json := dict_get_or up (Some "hideout_inventory") (JDict []).

Lemma owned_bind {B : Type} (k : Z -> result B)
    (sid : option string) (lvl needed : Z) (item : option string) :
  (let* at_station := py_get h_inv sid (JDict []) in
   let* at_level := py_get at_station (Some (PyStr.of_int lvl)) (JDict []) in
   let* owned := py_get at_level item (JInt 0) in
   let* rem := int_sub needed owned in
   k rem)
  = k (needed - hideout_owned up sid lvl item).
Proof.
  unfold hideout_owned. fold h_inv.
  destruct (dict_of_inv _ _ Hinv) as (d1 & E1 & P1). fold h_inv in E1.
  rewrite E1. cbn [py_get bind sub_dict].
  destruct (dict_of_inv _ _ (P1 sid (JDict []) eq_refl)) as (d2 & E2 & P2).
  rewrite E2. cbn [py_get bind sub_dict].
  destruct (dict_of_inv _ _ (P2 (Some (PyStr.of_int lvl)) (JDict []) eq_refl))
    as (d3 & E3 & P3).
  rewrite E3. cbn [py_get bind count_in].
  unfold int_sub.
  now rewrite (is_number_as_int _ (P3 item (JInt 0) eq_refl)).
Qed.

Lemma level_loop (st : station) (li : level_info) (acc : list entry) :
  is_number (dict_get_or up (station_id st) (JInt 0)) = true ->
  (let sid := station_id st in
   let sname := station_name st in
   let cur_lvl := dict_get_or up sid (JInt 0) in
   let lvl := default 0 (level li) in
   let* skip := int_le lvl cur_lvl in
   if (skip : bool) then Ok acc else
   let* is_next := int_eq_succ lvl cur_lvl in
   let req_type := if (is_next : bool) then "next" else "future" in
   for_each (default [] (level_requirementItemIds li)) acc
     (fun (results : list entry) req =>
        if opt_str_eq (itemId req) tid then
          let needed := default 0 (quantity req) in
          let* at_station := py_get h_inv sid (JDict []) in
          let* at_level := py_get at_station (Some (PyStr.of_int lvl)) (JDict []) in
          let* owned := py_get at_level (itemId req) (JInt 0) in
          let* rem := int_sub needed owned in
          if 0 <? rem
          then Ok (results ++ [(hideout_label sname lvl rem, req_type)])%list
          else Ok results
        else Ok results))
  = Ok (acc ++ level_entries up tid st li)%list.
Proof.
  intros Hnum. cbv zeta.
  unfold int_le, int_eq_succ, level_entries, current_level.
  rewrite (is_number_as_int _ Hnum). cbn [bind].
  destruct (default 0 (level li) <=? _); [now rewrite app_nil_r|].
  apply for_each_collect. intros acc' req _.
  destruct (opt_str_eq (itemId req) tid); cbn [andb].
  - rewrite owned_bind. destruct (0 <? _); [reflexivity | now rewrite app_nil_r].
  - now rewrite app_nil_r.
Qed.

Lemma station_loop (stations : list station) :
  levels_typed up stations = true ->
  for_each stations [] (fun (results : list entry) station =>
    let sid := station_id station in
    let sname := station_name station in
    let cur_lvl := dict_get_or up sid (JInt 0) in
    for_each (default [] (levels station)) results (fun (results : list entry) lvl_info =>
      let lvl := default 0 (level lvl_info) in
      let* skip := int_le lvl cur_lvl in
      if (skip : bool) then Ok results else
      let* is_next := int_eq_succ lvl cur_lvl in
      let req_type := if (is_next : bool) then "next" else "future" in
      for_each (default [] (level_requirementItemIds lvl_info)) results
        (fun (results : list entry) req =>
          if opt_str_eq (itemId req) tid then
            let needed := default 0 (quantity req) in
            let* at_station := py_get h_inv sid (JDict []) in
            let* at_level := py_get at_station (Some (PyStr.of_int lvl)) (JDict []) in
            let* owned := py_get at_level (itemId req) (JInt 0) in
            let* rem := int_sub needed owned in
            if 0 <? rem
            then Ok (results ++ [(hideout_label sname lvl rem, req_type)])%list
            else Ok results
          else Ok results)))
  = Ok (hideout_entries up tid stations).
Proof.
  intros Hlv. unfold hideout_entries.
  rewrite (for_each_collect
             (fun st => flat_map (level_entries up tid st) (default [] (levels st))));
    [reflexivity|].
  intros acc st Hst. cbv zeta.
  apply for_each_collect. intros acc' li _.
  apply (level_loop st li acc').
  unfold levels_typed in Hlv. rewrite forallb_forall in Hlv. now apply Hlv.
Qed.

End Hideout.

(** C1. For a target item found by name that has an id, on a progress
    document whose station levels and hideout inventory are numbers,
    [find_hideout_requirements] returns [hideout_entries]: stations in
    declaration order, their levels in the order declared, and for a level
    its requirements of the target.  An entry is emitted exactly for a
    requirement of a level strictly above the station's current level
    (read under the station id, 0 when absent) whose remainder, required
    quantity minus owned count (0 when absent), is positive; its class is
    "next" when the level is the current one plus one, "future" otherwise. *)
Theorem find_hideout_requirements_levels
    (self : DataManager) (item_name : string) (target_item : pydict) (tid : json) :
  get_item_by_name self item_name = Some target_item ->
  dict_get target_item "id" = Some tid ->
  levels_typed (user_progress self) (hideout_data self) = true ->
  inventory_typed (user_progress self) = true ->
  let up := user_progress self in
  find_hideout_requirements self item_name
    = Ok (hideout_entries up tid (hideout_data self))
  /\ forall e : entry,
       In e (hideout_entries up tid (hideout_data self)) <->
       exists st li req,
         In st (hideout_data self)
         /\ In li (default [] (levels st))
         /\ In req (default [] (level_requirementItemIds li))
         /\ opt_str_eq (itemId req) tid = true
         /\ current_level up st < default 0 (level li)
         /\ 0 < default 0 (quantity req)
                - hideout_owned up (station_id st) (default 0 (level li)) (itemId req)
         /\ e = (hideout_label (station_name st) (default 0 (level li))
                   (default 0 (quantity req)
                    - hideout_owned up (station_id st) (default 0 (level li)) (itemId req)),
                 if default 0 (level li) =? current_level up st + 1
                 then "next" else "future").
Proof.
  intros Hitem Hid Hlv Hinv up. split.
  - unfold find_hideout_requirements. rewrite Hitem.
    destruct target_item as [|kv rest]; [discriminate Hid|].
    rewrite Hid. now apply station_loop.
  - intros e. unfold hideout_entries. rewrite in_flat_map. split.
    + intros (st & Hst & He). apply in_flat_map in He as (li & Hli & He).
      unfold level_entries in He.
      destruct (default 0 (level li) <=? current_level up st) eqn:Hle; [destruct He|].
      apply in_flat_map in He as (req & Hreq & He).
      destruct (opt_str_eq (itemId req) tid) eqn:Heq; [|destruct He].
      destruct (0 <? _) eqn:Hrem; [|destruct He].
      destruct He as [He|[]].
      exists st, li, req. repeat split; try assumption; try lia.
      now symmetry.
    + intros (st & li & req & Hst & Hli & Hreq & Heq & Hlt & Hrem & ->).
      exists st. split; [assumption|].
      apply in_flat_map. exists li. split; [assumption|].
      unfold level_entries.
      destruct (default 0 (level li) <=? current_level up st) eqn:Hle; [lia|].
      apply in_flat_map. exists req. split; [assumption|].
      rewrite Heq. cbn [andb].
      destruct (0 <? _) eqn:Hpos; [now left | lia].
Qed.

Lemma find_hideout_requirements_levels_witness :
  find_hideout_requirements sample_manager "Rope"
  = Ok [("Workbench (Lvl 3): x6", "next"); ("Workbench (Lvl 5): x7", "future")].
Proof.
  exact (proj1 (find_hideout_requirements_levels sample_manager "Rope" rope_item
                  (JStr "rope") eq_refl eq_refl eq_refl eq_refl)).
Defined.

(** ** Project requirements *)

Lemma find_project_requirements_not_found (self : DataManager) (item_name : string) :
  (get_item_by_name self item_name = None
   \/ exists target_item,
        get_item_by_name self item_name = Some target_item
        /\ dict_get target_item "id" = None) ->
  find_project_requirements self item_name = Ok [].
Proof.
  unfold find_project_requirements.
  intros [->|(target_item & -> & Hid)]; [reflexivity|].
  destruct target_item; [reflexivity|]. now rewrite Hid.
Qed.

Lemma find_hideout_requirements_not_found (self : DataManager) (item_name : string) :
  (get_item_by_name self item_name = None
   \/ exists target_item,
        get_item_by_name self item_name = Some target_item
        /\ dict_get target_item "id" = None) ->
  find_hideout_requirements self item_name = Ok [].
Proof.
  unfold find_hideout_requirements.
  intros [->|(target_item & -> & Hid)]; [reflexivity|].
  destruct target_item; [reflexivity|]. now rewrite Hid.
Qed.

Section Projects.
Variables (up : pydict) (tid : json).
Hypothesis Hprojects : projects_typed up = true.

Let p_prog : json := dict_get_or up (Some "projects") (JDict []).

Lemma project_progress_inv (pr : project) :
  exists d,
    py_get p_prog (project_id pr) default_project_progress = Ok (JDict d)
    /\ project_progress up pr = JDict d
    /\ is_number (dict_get_or d (Some "completed_phase") (JInt 0)) = true
    /\ dict_of (dict_of is_number) (dict_get_or d (Some "inventory") (JDict [])) = true.
Proof.
  destruct (dict_of_inv _ _ Hprojects) as (d1 & E1 & P1). fold p_prog in E1.
  unfold project_progress. fold p_prog. rewrite E1. cbn [py_get sub_dict_or].
  specialize (P1 (project_id pr) default_project_progress eq_refl).
  destruct (dict_get_or d1 (project_id pr) default_project_progress) as [| | | | |d];
    try discriminate P1.
  exists d. cbn [project_progress_typed] in P1.
  apply andb_true_iff in P1 as [Hc Hi]. now repeat split.
Qed.

Lemma project_loop (projects : list project) :
  Forall (fun pr => project_name pr <> None) projects ->
  for_each projects [] (fun (results : list entry) proj =>
    let pid := project_id proj in
    let* pname := display_name (project_name proj) in
    let* prog := py_get p_prog pid default_project_progress in
    let* comp_phase := py_get prog (Some "completed_phase") (JInt 0) in
    let* inv := py_get prog (Some "inventory") (JDict []) in
    for_each (default [] (phases proj)) results (fun (results : list entry) ph =>
      let pnum := default 0 (phase ph) in
      let* skip := int_le pnum comp_phase in
      if (skip : bool) then Ok results else
      let* is_next := int_eq_succ pnum comp_phase in
      let req_type := if (is_next : bool) then "next" else "future" in
      for_each (default [] (phase_requirementItemIds ph)) results
        (fun (results : list entry) req =>
          if opt_str_eq (itemId req) tid then
            let needed := default 0 (quantity req) in
            let* at_phase := py_get inv (Some (PyStr.of_int pnum)) (JDict []) in
            let* owned := py_get at_phase (itemId req) (JInt 0) in
            let* rem := int_sub needed owned in
            if 0 <? rem
            then Ok (results ++ [(project_label pname pnum rem, req_type)])%list
            else Ok results
          else Ok results)))
  = Ok (project_entries up tid projects).
Proof.
  intros Hnames. unfold project_entries.
  rewrite (for_each_collect
             (fun pr => flat_map (phase_entries up tid pr) (default [] (phases pr))));
    [reflexivity|].
  intros acc pr Hpr. cbv zeta.
  rewrite List.Forall_forall in Hnames. specialize (Hnames pr Hpr).
  assert (Hshown : display_name (project_name pr) = Ok (shown_name pr)).
  { unfold display_name, shown_name. destruct (project_name pr) as [n|]; [|congruence].
    now destruct (PyStr.contains "Project" n). }
  rewrite Hshown. cbn [bind].
  destruct (project_progress_inv pr) as (d & Eget & Eprog & Hc & Hi).
  rewrite Eget. cbn [bind py_get].
  apply for_each_collect. intros acc' ph _.
  unfold phase_entries, completed_phase, project_owned. rewrite Eprog.
  cbn [count_in sub_dict].
  unfold int_le, int_eq_succ. rewrite (is_number_as_int _ Hc). cbn [bind].
  destruct (default 0 (phase ph) <=? _); [now rewrite app_nil_r|].
  apply for_each_collect. intros acc'' req _.
  destruct (opt_str_eq (itemId req) tid); cbn [andb]; [|now rewrite app_nil_r].
  destruct (dict_of_inv _ _ Hi) as (d2 & E2 & P2). rewrite E2.
  cbn [py_get bind sub_dict].
  destruct (dict_of_inv _ _ (P2 (Some (PyStr.of_int (default 0 (phase ph)))) (JDict []) eq_refl))
    as (d3 & E3 & P3).
  rewrite E3. cbn [py_get bind count_in]. unfold int_sub.
  rewrite (is_number_as_int _ (P3 (itemId req) (JInt 0) eq_refl)). cbn [bind].
  destruct (0 <? _); [reflexivity | now rewrite app_nil_r].
Qed.

End Projects.

(** On named projects and typed progress the project resolver computes,
    phase for phase, what the station resolver computes level for level;
    the label carries [shown_name]. *)
Lemma find_project_requirements_phases
    (self : DataManager) (item_name : string) (target_item : pydict) (tid : json) :
  get_item_by_name self item_name = Some target_item ->
  dict_get target_item "id" = Some tid ->
  Forall (fun pr => project_name pr <> None) (project_data self) ->
  projects_typed (user_progress self) = true ->
  find_project_requirements self item_name
  = Ok (project_entries (user_progress self) tid (project_data self)).
Proof.
  intros Hitem Hid Hnames Htyped.
  unfold find_project_requirements. rewrite Hitem.
  destruct target_item as [|kv rest]; [discriminate Hid|].
  rewrite Hid. now apply project_loop.
Qed.

(** C8. A project record without a [name] makes [find_project_requirements]
    raise [TypeError] for a target that resolves and has an id, where the
    station resolver, on a station record without a [name], returns its
    entries. *)
Theorem find_project_requirements_nameless_raises :
  find_project_requirements manager_with_nameless_project "Rope" = Raise TypeError
  /\ find_hideout_requirements manager_with_nameless_station "Rope"
     = Ok [("None (Lvl 1): x2", "next")].
Proof.
  split; reflexivity.
Qed.

(** ** Missing files and directories *)

Lemma _load_json_missing (fs : filesystem) (filepath : string) (default : json) :
  path_exists fs filepath = false ->
  _load_json fs filepath default = py_or default (JDict []).
Proof.
  intros Hmissing. unfold _load_json. now rewrite Hmissing.
Qed.

Lemma load_progress_missing (K : Constants) (fs : filesystem) :
  path_exists fs (PROGRESS_FILE K) = false ->
  load_progress K fs = JDict [].
Proof.
  intros Hmissing. unfold load_progress. now rewrite _load_json_missing.
Qed.

Lemma _load_json_dir_missing (fs : filesystem) (directory : string) :
  path_exists fs directory = false ->
  _load_json_dir fs directory = Ok ([], [DataDirNotFound directory]).
Proof.
  intros Hmissing. unfold _load_json_dir. now rewrite Hmissing.
Qed.

Lemma _load_items_from_dir_missing (fs : filesystem) (directory : string) :
  path_exists fs directory = false ->
  _load_items_from_dir fs directory = Ok ([], [ItemsDirNotFound directory]).
Proof.
  intros Hmissing. unfold _load_items_from_dir. now rewrite Hmissing.
Qed.

Lemma _load_json_missing_falsy_default
    (fs : filesystem) (filepath : string) (default : json) :
  path_exists fs filepath = false ->
  truthy default = false ->
  _load_json fs filepath default = JDict [].
Proof.
  intros Hmissing Hfalsy.
  rewrite _load_json_missing by assumption.
  unfold py_or. now rewrite Hfalsy.
Qed.

(** C9. With no file at the path, [_load_json] called with the empty list
    as default, as the constructor calls it for the project and trade
    documents, returns the empty dict and not the list it was given. *)
Theorem _load_json_missing_empty_list_default :
  _load_json no_files (PROJECTS_FILE sample_constants) (JList []) = JDict []
  /\ _load_json no_files (TRADES_FILE sample_constants) (JList []) = JDict [].
Proof.
  split; reflexivity.
Qed.

(** ** Localised names *)

Lemma values_nonempty_get (m : dict pydict) (k : string) (it : pydict) :
  values_nonempty m = true -> dict_get m k = Some it -> it <> [].
Proof.
  unfold values_nonempty. induction m as [|[k' v] m IH]; cbn [dict_get forallb]; [discriminate|].
  intros Hall Hget. apply andb_true_iff in Hall as [Hv Hrest].
  destruct (String.eqb k k').
  - injection Hget as <-. cbn [snd] in Hv. now destruct v.
  - now apply IH.
Qed.

(** C7. [get_localized_name] resolves a string through the id map and an
    item to itself.  A string that does not resolve comes back with its
    underscores replaced by spaces and title-cased, not as an error; this
    is stated for a string whose title case is text below U+0100, which
    [PyStr.title] then is.  For a resolved item the result is the entry of
    its [names] table for the requested language when the table has one,
    else the item's [name], else ["Unknown"]. *)
Theorem get_localized_name_cases (self : DataManager) (lang_code : string) :
  values_nonempty (id_to_item_map self) = true ->
  (forall s : string,
     resolve self (IdStr s) = None ->
     PyStr.title_fits (PyStr.replace "_" " " s) = true ->
     get_localized_name self (IdStr s) lang_code
     = Ok (JStr (PyStr.title (PyStr.replace "_" " " s))))
  /\ (forall (item_identifier : identifier) (it : pydict) (names : pydict),
        resolve self item_identifier = Some it ->
        dict_get_or it (Some "names") (JDict []) = JDict names ->
        get_localized_name self item_identifier lang_code
        = Ok (match dict_get names lang_code with
              | Some localized => localized
              | None => dict_get_or it (Some "name") (JStr "Unknown")
              end)).
Proof.
  intros Hvalues. split.
  - intros s Hres _. cbn [resolve] in Hres.
    unfold get_localized_name. now rewrite Hres.
  - intros item_identifier it names Hres Hnames.
    assert (Hcase : it = [] /\ (exists d, item_identifier = IdItem d) \/ it <> []).
    { destruct item_identifier as [d|s|]; cbn [resolve] in Hres; [| |discriminate].
      - injection Hres as ->. destruct it; [left; eauto | now right].
      - right. eapply values_nonempty_get; eassumption. }
    unfold get_localized_name.
    replace (match item_identifier with
             | IdItem d => Some d
             | IdStr s => dict_get (id_to_item_map self) s
             | IdOther => None
             end) with (Some it) by (now destruct item_identifier).
    destruct Hcase as [[-> (d & ->)]|Hne].
    + cbn in Hnames. injection Hnames as <-. reflexivity.
    + destruct it as [|kv rest]; [congruence|].
      rewrite Hnames. cbn [py_in bind py_item]. unfold dict_mem.
      now destruct (dict_get names lang_code).
Qed.

Lemma get_localized_name_cases_witness :
  get_localized_name sample_manager (IdStr "old_rope") "de" = Ok (JStr "Old Rope")
  /\ get_localized_name sample_manager (IdStr "rope") "en" = Ok (JStr "Rope").
Proof.
  destruct (get_localized_name_cases sample_manager "de" eq_refl) as [Hfallback _].
  destruct (get_localized_name_cases sample_manager "en" eq_refl) as [_ Hresolved].
  split.
  - exact (Hfallback "old_rope" eq_refl eq_refl).
  - exact (Hresolved (IdStr "rope") rope_item [("en", JStr "Rope")] eq_refl eq_refl).
Defined.

(** ** Saving the progress document *)

Lemma length_append (s t : string) :
  String.length (s ++ t) = (String.length s + String.length t)%nat.
Proof.
  induction s as [|c s IH]; [reflexivity|].
  change (String c s ++ t) with (String c (s ++ t)).
  cbn [String.length]. now rewrite IH.
Qed.

Lemma temp_path_fresh (p : string) : p ++ ".tmp" <> p.
Proof.
  intros H. apply (f_equal String.length) in H.
  rewrite length_append in H. cbn [String.length] in H. lia.
Qed.

Lemma path_exists_file (f : gmap string string) (d : gmap string (list string))
    (p : string) :
  path_exists {| files := f; dirs := d |} p = false -> f !! p = None.
Proof.
  unfold path_exists. cbn [files dirs]. now destruct (f !! p), (d !! p).
Qed.

(** The cleanup leaves every other file alone, ends without an exception,
    and leaves no temporary file behind when the removal works. *)
Lemma save_cleanup_run (env : faults) (K : Constants) (e : pyexn) (w : world) :
  let r := save_cleanup env K e w in
  (forall p, p <> PROGRESS_FILE K ++ ".tmp" -> file_at (fst r) p = file_at w p)
  /\ (snd r = Done tt \/ snd r = Killed)
  /\ (snd r = Done tt -> on_remove env = Works ->
      file_at (fst r) (PROGRESS_FILE K ++ ".tmp") = None).
Proof.
  destruct w as [[f d] t]. unfold save_cleanup, file_at.
  cbv [io_bind print emit os_path_exists fs trace].
  destruct (path_exists _ _) eqn:Hex.
  - cbv [try_except sys_remove syscall io_ret].
    destruct (on_remove env); cbn [fs files fst snd].
    + destruct (f !! (PROGRESS_FILE K ++ ".tmp")) eqn:Htmp;
        cbv [emit set_files fs files dirs trace fst snd].
      * repeat split; auto.
        -- intros p Hp. now rewrite lookup_delete_ne.
        -- intros _ _. apply lookup_delete_eq.
      * repeat split; auto.
    + repeat split; auto. intros _ Hw. discriminate Hw.
    + repeat split; auto. intros Hd. discriminate Hd.
  - cbv [io_ret fst snd fs files]. repeat split; auto.
    intros _ _. now apply path_exists_file in Hex.
Qed.

Ltac run_io :=
  cbv [save_attempt with_open_w io_bind io_ret sys_open_w sys_write sys_flush
       sys_fsync sys_close sys_replace syscall emit raise append_text set_files
       fs files dirs trace fst snd on_open on_write on_flush on_fsync on_close
       on_replace written all_work works andb file_at].

(** The attempt either runs to the end, and then the destination holds the
    new text and the temporary file is gone, or it stops with the
    destination as it was. *)
Lemma save_attempt_run (env : faults) (K : Constants) (self : DataManager) (w : world) :
  let dest := PROGRESS_FILE K in
  let tmp := PROGRESS_FILE K ++ ".tmp" in
  let new := Json.dumps (JDict (user_progress self)) in
  let r := save_attempt env K self w in
  if all_work env then
    snd r = Done tt
    /\ file_at (fst r) dest = Some new
    /\ file_at (fst r) tmp = None
    /\ trace (fst r)
       = (trace w ++ [EvOpen tmp; EvWrite tmp new; EvFlush tmp; EvFsync tmp;
                      EvClose tmp; EvReplace tmp dest])%list
  else
    snd r <> Done tt /\ file_at (fst r) dest = file_at w dest.
Proof.
  pose proof (temp_path_fresh (PROGRESS_FILE K)) as Hfresh.
  destruct env as [o wr n fl fy cl rp rm], w as [[f d] t].
  cbv zeta.
  destruct o; [|run_io; split; [discriminate|reflexivity]..].
  destruct wr, fl, fy, cl, rp; run_io;
    rewrite ?lookup_insert_eq; run_io;
    rewrite ?lookup_insert_eq, ?lookup_delete_eq, ?lookup_insert_ne, ?lookup_delete_ne by assumption;
    try (split; [discriminate|reflexivity]).
  repeat split.
  - rewrite lookup_insert_ne by (intros E; now apply Hfresh).
    apply lookup_delete_eq.
  - now rewrite <- !app_assoc.
Qed.

(** C2 (as amended). [save_user_progress] never leaves the destination
    partially written: after any run, completed, failed or cut short by the
    death of the process, the destination holds what it held before or the
    whole new text.  When every call of the sequence works, the text is
    written to the temporary file, flushed and synced, the file is closed
    and then moved over the destination in one step, and no temporary file
    remains.  Otherwise the destination is untouched and no exception
    leaves the method; the temporary file is gone when the method returns
    and its removal worked. *)
Theorem save_user_progress_atomic
    (env : faults) (K : Constants) (self : DataManager) (w : world) :
  let dest := PROGRESS_FILE K in
  let tmp := PROGRESS_FILE K ++ ".tmp" in
  let new := Json.dumps (JDict (user_progress self)) in
  let r := save_user_progress env K self w in
  (file_at (fst r) dest = file_at w dest \/ file_at (fst r) dest = Some new)
  /\ (snd r = Done tt \/ snd r = Killed)
  /\ (all_work env = true ->
      snd r = Done tt
      /\ file_at (fst r) dest = Some new
      /\ file_at (fst r) tmp = None
      /\ trace (fst r)
         = (trace w ++ [EvOpen tmp; EvWrite tmp new; EvFlush tmp; EvFsync tmp;
                        EvClose tmp; EvReplace tmp dest])%list)
  /\ (all_work env = false ->
      file_at (fst r) dest = file_at w dest
      /\ (snd r = Done tt -> on_remove env = Works -> file_at (fst r) tmp = None)).
Proof.
  cbv zeta.
  pose proof (save_attempt_run env K self w) as Hrun. cbv zeta in Hrun.
  unfold save_user_progress, try_except.
  destruct (save_attempt env K self w) as [w1 out1] eqn:Hattempt.
  cbn [fst snd] in Hrun.
  destruct (all_work env).
  - destruct Hrun as (-> & Hdest & Htmp & Htrace). cbn [fst snd].
    repeat split; auto; discriminate.
  - destruct Hrun as [Hnot Hdest].
    assert (Hfresh : PROGRESS_FILE K <> PROGRESS_FILE K ++ ".tmp")
      by (intros E; symmetry in E; now apply temp_path_fresh in E).
    destruct out1 as [[]| e |]; [congruence| |].
    + destruct (save_cleanup_run env K e w1) as (Hother & Hout & Hgone).
      rewrite (Hother _ Hfresh), Hdest.
      repeat split; auto; discriminate.
    + cbn [fst snd]. repeat split; auto; discriminate.
Qed.

Lemma save_user_progress_atomic_witness :
  file_at (fst (save_user_progress no_faults sample_constants sample_manager old_world))
    "progress.json"
  = Some (Json.dumps (JDict (user_progress sample_manager)))
  /\ file_at (fst (save_user_progress dies_before_replace sample_constants sample_manager
                     old_world)) "progress.json"
     = Some "{}"
  /\ file_at (fst (save_user_progress write_fails_midway sample_constants sample_manager
                     old_world)) "progress.json.tmp"
     = None.
Proof.
  pose proof (save_user_progress_atomic no_faults sample_constants sample_manager old_world)
    as (_ & _ & Hok & _).
  pose proof (save_user_progress_atomic dies_before_replace sample_constants sample_manager
                old_world) as (_ & _ & _ & Hdies).
  pose proof (save_user_progress_atomic write_fails_midway sample_constants sample_manager
                old_world) as (_ & _ & _ & Hfails).
  split; [exact (proj1 (proj2 (Hok eq_refl)))|].
  split; [exact (proj1 (Hdies eq_refl))|].
  apply (proj2 (Hfails eq_refl)); reflexivity.
Defined.

(** C2, as stated, fails: when the replace raises and the removal of the
    temporary file raises too, the method returns with the temporary file
    still in place. *)
Lemma save_user_progress_temp_left_behind :
  snd (save_user_progress replace_and_remove_fail sample_constants sample_manager old_world)
  = Done tt
  /\ file_at (fst (save_user_progress replace_and_remove_fail sample_constants
                     sample_manager old_world)) "progress.json"
     = Some "{}"
  /\ file_at (fst (save_user_progress replace_and_remove_fail sample_constants
                     sample_manager old_world)) "progress.json.tmp"
     = Some (Json.dumps (JDict (user_progress sample_manager))).
Proof.
  vm_compute. repeat split.
Qed.

Lemma save_user_progress_returns
    (env : faults) (K : Constants) (self : DataManager) (w : world) :
  (snd (save_user_progress env K self w) = Done tt
   \/ snd (save_user_progress env K self w) = Killed)
  /\ (never_dies env = true -> snd (save_user_progress env K self w) = Done tt).
Proof.
  assert (Hattempt : never_dies env = true -> snd (save_attempt env K self w) <> Killed).
  { destruct env as [o wr n fl fy cl rp rm], w as [[f d] t].
    destruct o, wr, fl, fy, cl, rp, rm; cbv [never_dies on_open on_write on_flush
      on_fsync on_close on_replace on_remove]; try discriminate; intros _; run_io;
      rewrite ?lookup_insert_eq; run_io; discriminate. }
  unfold save_user_progress, try_except.
  pose proof (save_attempt_run env K self w) as Hrun. cbv zeta in Hrun.
  destruct (save_attempt env K self w) as [w1 out1] eqn:Heq. cbn [fst snd] in *.
  destruct out1 as [[]|e|]; cbn [snd].
  - split; auto.
  - destruct (save_cleanup_run env K e w1) as (_ & Hout & _).
    split; [exact Hout|].
    intros Halive. destruct Hout as [Hd|Hk]; [exact Hd|].
    exfalso. revert Hk. destruct w1 as [[f d] t].
    unfold save_cleanup. cbv [io_bind print emit os_path_exists fs trace].
    destruct (path_exists _ _); [|discriminate].
    cbv [try_except sys_remove syscall io_ret].
    destruct env as [o wr n fl fy cl rp rm]. cbn [on_remove].
    destruct rm; cbn [fs files].
    + destruct (f !! _); discriminate.
    + discriminate.
    + destruct o, wr, fl, fy, cl, rp; discriminate Halive.
  - split; auto. intros Halive. now apply Hattempt in Halive.
Qed.

(** ** Dictionary updates *)

Section DictFacts.
Context {A : Type}.
Implicit Types (d : dict A) (k : string) (v : A).

Lemma dict_get_set_eq d k v : dict_get (dict_set d k v) k = Some v.
Proof.
  induction d as [|[k' v'] d IH]; cbn [dict_set dict_get].
  - now rewrite String.eqb_refl.
  - destruct (String.eqb k k') eqn:E; cbn [dict_get]; now rewrite E.
Qed.

Lemma dict_get_set_ne d k k' v :
  k <> k' -> dict_get (dict_set d k v) k' = dict_get d k'.
Proof.
  intros Hne. induction d as [|[k0 v0] d IH]; cbn [dict_set dict_get].
  - apply String.eqb_neq in Hne. rewrite String.eqb_sym in Hne. now rewrite Hne.
  - destruct (String.eqb k k0) eqn:E; cbn [dict_get].
    + apply String.eqb_eq in E as <-.
      destruct (String.eqb k' k) eqn:E'; [|reflexivity].
      apply String.eqb_eq in E'. congruence.
    + now rewrite IH.
Qed.

Lemma dict_get_del_eq d k : dict_get (dict_del d k) k = None.
Proof.
  induction d as [|[k' v'] d IH]; cbn [dict_del dict_get]; [reflexivity|].
  destruct (String.eqb k k') eqn:E; [exact IH|].
  cbn [dict_get]. now rewrite E.
Qed.

Lemma dict_get_del_ne d k k' :
  k <> k' -> dict_get (dict_del d k) k' = dict_get d k'.
Proof.
  intros Hne. induction d as [|[k0 v0] d IH]; cbn [dict_del dict_get]; [reflexivity|].
  destruct (String.eqb k k0) eqn:E; cbn [dict_get].
  - apply String.eqb_eq in E as <-.
    destruct (String.eqb k' k) eqn:E'; [|exact IH].
    apply String.eqb_eq in E'. congruence.
  - now rewrite IH.
Qed.

End DictFacts.

(** ** White space *)

Lemma has_text_lstrip (s : string) : has_text (PyStr.lstrip s) = has_text s.
Proof.
  induction s as [|c s IH]; cbn [PyStr.lstrip has_text]; [reflexivity|].
  destruct (PyStr.isspace c) eqn:E; cbn [negb orb has_text]; [exact IH|].
  now rewrite E.
Qed.

Lemma lstrip_empty (s : string) : PyStr.lstrip s = EmptyString <-> has_text s = false.
Proof.
  induction s as [|c s IH]; cbn [PyStr.lstrip has_text]; [tauto|].
  destruct (PyStr.isspace c); cbn [negb orb]; [exact IH|].
  split; discriminate.
Qed.

Lemma has_text_rev_app (s t : string) :
  has_text (String.rev_app s t) = has_text s || has_text t.
Proof.
  revert t. induction s as [|c s IH]; intros t; cbn [String.rev_app has_text]; [reflexivity|].
  rewrite IH. cbn [has_text]. now destruct (PyStr.isspace c), (has_text s), (has_text t).
Qed.

Lemma has_text_rev (s : string) : has_text (String.rev s) = has_text s.
Proof.
  unfold String.rev. rewrite has_text_rev_app. cbn [has_text]. apply orb_false_r.
Qed.

Lemma rev_app_empty (s t : string) :
  String.rev_app s t = EmptyString -> s = EmptyString /\ t = EmptyString.
Proof.
  revert t. induction s as [|c s IH]; intros t; cbn [String.rev_app]; [auto|].
  intros H. apply IH in H as [_ H]. discriminate H.
Qed.

(** A note survives [strip] exactly when it has text. *)
Lemma strip_empty (s : string) : PyStr.strip s = EmptyString <-> has_text s = false.
Proof.
  unfold PyStr.strip, PyStr.rstrip. split.
  - intros H. apply rev_app_empty in H as [H _].
    apply lstrip_empty in H. rewrite has_text_rev, has_text_lstrip in H. exact H.
  - intros H.
    assert (E : PyStr.lstrip (String.rev (PyStr.lstrip s)) = EmptyString).
    { apply lstrip_empty. now rewrite has_text_rev, has_text_lstrip. }
    now rewrite E.
Qed.

Lemma note_test (note : string) :
  negb (String.eqb note "") && negb (String.eqb (PyStr.strip note) "") = has_text note.
Proof.
  destruct (has_text note) eqn:Htext.
  - destruct (String.eqb note "") eqn:E1.
    { apply String.eqb_eq in E1. subst. discriminate Htext. }
    destruct (String.eqb (PyStr.strip note) "") eqn:E2; [|reflexivity].
    apply String.eqb_eq, strip_empty in E2. congruence.
  - apply strip_empty in Htext. rewrite Htext. cbn. apply andb_false_r.
Qed.

(** ** Item notes *)

(** C10. On a progress document whose [item_notes], if present, is an
    object: [set_item_note] updates the document and returns, unless the
    process dies while saving, and never raises; [get_item_note] on the
    updated manager returns the stripped note when the note has a character
    that is not white space, and the empty string otherwise, the id having
    no stored note any more; [get_item_note] returns the manager it was
    given. *)
Theorem set_item_note_then_get
    (env : faults) (K : Constants) (self : DataManager) (item_id note : string)
    (w : world) :
  notes_typed (user_progress self) = true ->
  exists up' : pydict,
    store_note (user_progress self) item_id note = Ok up'
    /\ (snd (set_item_note env K self item_id note w) = Done (with_user_progress self up')
        \/ snd (set_item_note env K self item_id note w) = Killed)
    /\ (never_dies env = true ->
        snd (set_item_note env K self item_id note w) = Done (with_user_progress self up'))
    /\ get_item_note (with_user_progress self up') item_id
       = (with_user_progress self up',
          Ok (JStr (if has_text note then PyStr.strip note else "")))
    /\ (has_text note = false -> dict_get (notes_of up') item_id = None)
    /\ fst (get_item_note self item_id) = self.
Proof.
  intros Htyped.
  assert (Hstore : exists up', store_note (user_progress self) item_id note = Ok up'
            /\ dict_get (notes_of up') item_id
               = (if has_text note then Some (JStr (PyStr.strip note)) else None)
            /\ exists d, dict_get up' "item_notes" = Some (JDict d)).
  { unfold store_note, notes_typed in *. rewrite note_test. unfold dict_mem.
    destruct (dict_get (user_progress self) "item_notes") as [notes|] eqn:Hnotes.
    - destruct notes as [| | | | |d]; try discriminate Htyped.
      cbn [dict_get_or]. rewrite Hnotes.
      destruct (has_text note).
      + eexists. split; [reflexivity|]. unfold notes_of.
        rewrite dict_get_set_eq. split; [apply dict_get_set_eq|eauto].
      + destruct (dict_get d item_id) eqn:Hd.
        * eexists. split; [reflexivity|]. unfold notes_of.
          rewrite dict_get_set_eq. split; [apply dict_get_del_eq|eauto].
        * eexists. split; [reflexivity|]. unfold notes_of.
          rewrite Hnotes. split; [exact Hd|eauto].
    - cbn [dict_get_or]. rewrite dict_get_set_eq.
      destruct (has_text note).
      + eexists. split; [reflexivity|]. unfold notes_of.
        rewrite dict_get_set_eq. split; [apply dict_get_set_eq|eauto].
      + cbn [dict_get]. eexists. split; [reflexivity|]. unfold notes_of.
        rewrite dict_get_set_eq. split; [reflexivity|eauto]. }
  destruct Hstore as (up' & Hstore & Hget & d & Hd).
  exists up'. split; [exact Hstore|].
  destruct (save_user_progress_returns env K (with_user_progress self up') w)
    as [Hout Halive].
  unfold set_item_note. rewrite Hstore. unfold io_bind.
  destruct (save_user_progress env K (with_user_progress self up') w) as [w1 out1].
  cbn [snd] in Hout, Halive.
  split; [|split; [|split; [|split]]].
  - destruct Hout as [-> | ->]; cbn; auto.
  - intros Hnd. rewrite (Halive Hnd). reflexivity.
  - unfold get_item_note. cbn [user_progress with_user_progress dict_get_or].
    rewrite Hd. cbn [py_get dict_get_or].
    unfold notes_of in Hget. rewrite Hd in Hget. rewrite Hget.
    now destruct (has_text note).
  - intros Hblank. now rewrite Hget, Hblank.
  - reflexivity.
Qed.

Lemma set_item_note_then_get_witness :
  get_item_note
    (with_user_progress manager_with_notes
       [("item_notes", JDict [("rope", JStr "sell")]); ("theme", JStr "dark")])
    "rope"
  = (with_user_progress manager_with_notes
       [("item_notes", JDict [("rope", JStr "sell")]); ("theme", JStr "dark")],
     Ok (JStr "sell")).
Proof.
  destruct (set_item_note_then_get no_faults sample_constants manager_with_notes
              "rope" "  sell " old_world eq_refl)
    as (up' & Hstore & _ & _ & Hget & _).
  injection Hstore as <-. exact Hget.
Defined.

(** ** Stable sorting *)

Section SortFacts.
Context {K A : Type} (lt : K -> K -> bool).
Hypothesis lt_asym : forall a b, lt a b = true -> lt b a = false.
Hypothesis le_trans : forall a b c, lt b a = false -> lt c b = false -> lt c a = false.

Let le (x y : K * A) : Prop := lt (fst y) (fst x) = false.

Lemma insert_keyed_perm (x : K * A) (l : list (K * A)) :
  Permutation (insert_keyed lt x l) (x :: l).
Proof.
  induction l as [|y l IH]; cbn [insert_keyed]; [reflexivity|].
  destruct (lt (fst y) (fst x)); [|reflexivity].
  rewrite IH. apply perm_swap.
Qed.

Lemma sort_keyed_perm (l : list (K * A)) : Permutation (sort_keyed lt l) l.
Proof.
  induction l as [|x l IH]; cbn [sort_keyed fold_right]; [reflexivity|].
  fold (sort_keyed lt l). rewrite insert_keyed_perm. now rewrite IH.
Qed.

Lemma insert_keyed_sorted (x : K * A) (l : list (K * A)) :
  StronglySorted le l -> StronglySorted le (insert_keyed lt x l).
Proof.
  induction 1 as [|y l Hsorted IH Hall]; cbn [insert_keyed].
  - constructor; constructor.
  - destruct (lt (fst y) (fst x)) eqn:Hlt.
    + constructor; [exact IH|].
      apply (Permutation_Forall (x := x :: l)).
      * symmetry. apply insert_keyed_perm.
      * constructor; [|exact Hall]. unfold le. now apply lt_asym.
    + constructor; [now constructor|].
      constructor; [exact Hlt|].
      apply (List.Forall_impl _ (P := le y)); [|exact Hall].
      intros z Hz. unfold le in *. eapply le_trans; eassumption.
Qed.

Lemma sort_keyed_sorted (l : list (K * A)) : StronglySorted le (sort_keyed lt l).
Proof.
  induction l as [|x l IH]; cbn [sort_keyed fold_right]; [constructor|].
  now apply insert_keyed_sorted.
Qed.

(** Elements whose keys do not precede one another keep their order. *)
Section Stable.
Variable p : K * A -> bool.
Hypothesis p_tied : forall x y, p x = true -> p y = true -> lt (fst x) (fst y) = false.

Lemma insert_keyed_filter (x : K * A) (l : list (K * A)) :
  List.filter p (insert_keyed lt x l) = List.filter p (x :: l).
Proof.
  induction l as [|y l IH]; cbn [insert_keyed]; [reflexivity|].
  destruct (lt (fst y) (fst x)) eqn:Hlt; [|reflexivity].
  cbn [List.filter] in *. rewrite IH.
  destruct (p x) eqn:Hx, (p y) eqn:Hy; try reflexivity.
  rewrite (p_tied y x Hy Hx) in Hlt. discriminate Hlt.
Qed.

Lemma sort_keyed_filter (l : list (K * A)) :
  List.filter p (sort_keyed lt l) = List.filter p l.
Proof.
  induction l as [|x l IH]; cbn [sort_keyed fold_right]; [reflexivity|].
  fold (sort_keyed lt l). rewrite insert_keyed_filter.
  cbn [List.filter]. now rewrite IH.
Qed.
End Stable.

(** The keys computed first are those of the elements, in order. *)
Lemma keyed_map (key : A -> result K) (k : A -> K) (l : list A) :
  (forall x, In x l -> key x = Ok (k x)) ->
  keyed key l = Ok (map (fun x => (k x, x)) l).
Proof.
  intros Hkey. unfold keyed.
  rewrite (for_each_collect (fun x => [(k x, x)])).
  - cbn [app]. f_equal.
  - intros acc x Hx. now rewrite (Hkey x Hx).
Qed.

End SortFacts.

(** ** The order on sort keys *)

Ltac key_cases :=
  repeat match goal with
    | |- context [Nat.eqb ?x ?y] => destruct (Nat.eqb_spec x y)
    | |- context [Nat.ltb ?x ?y] => destruct (Nat.ltb_spec x y)
    | |- context [Z.ltb ?x ?y] => destruct (Z.ltb_spec x y)
    | |- context [Z.eqb ?x ?y] => destruct (Z.eqb_spec x y)
    end.

Lemma key_lt_asym (a b : sort_key_t) : key_lt a b = true -> key_lt b a = false.
Proof.
  destruct a as [[[] a2] a3], b as [[[] b2] b3];
    cbn [key_lt key_eqb Bool.eqb negb andb]; key_cases;
    intros; subst; try reflexivity; try congruence; lia.
Qed.

Lemma key_le_trans (a b c : sort_key_t) :
  key_lt b a = false -> key_lt c b = false -> key_lt c a = false.
Proof.
  destruct a as [[[] a2] a3], b as [[[] b2] b3], c as [[[] c2] c3];
    cbn [key_lt Bool.eqb negb andb]; key_cases;
    intros; subst; try reflexivity; try congruence; lia.
Qed.

Lemma key_lt_irrefl (a : sort_key_t) : key_lt a a = false.
Proof.
  destruct (key_lt a a) eqn:E; [|reflexivity].
  now rewrite (key_lt_asym a a E) in E.
Qed.

Lemma key_eqb_eq (a b : sort_key_t) : key_eqb a b = true -> a = b.
Proof.
  destruct a as [[[] a2] a3], b as [[[] b2] b3];
    cbn [key_lt key_eqb Bool.eqb negb andb]; key_cases; cbn [andb];
    intros; subst; try reflexivity; congruence.
Qed.

(** ** The merged quest records *)

Section QuestView.
Variable up : pydict.
Hypothesis Htyped : quests_typed up = true.

Let up1 : pydict := with_quests up.

Lemma with_quests_other (k : string) :
  k <> "quests" -> dict_get up1 k = dict_get up k.
Proof.
  intros Hk. unfold up1, with_quests.
  destruct (dict_mem "quests" up); [reflexivity|].
  apply dict_get_set_ne. congruence.
Qed.

Lemma with_quests_section (dflt : json) :
  dict_get_or up1 (Some "quests") dflt = dict_get_or up (Some "quests") (JDict []).
Proof.
  unfold up1, with_quests, dict_mem. cbn [dict_get_or].
  destruct (dict_get up "quests") eqn:E; [now rewrite E|].
  now rewrite dict_get_set_eq.
Qed.

Lemma quest_entry_typed (q_id : string) :
  exists e,
    quest_progress up1 q_id = JDict e
    /\ py_get (dict_get_or up1 (Some "quests") JNull) (Some q_id) (JDict []) = Ok (JDict e)
    /\ is_bool (dict_get_or e (Some "quest_completed") (JBool false)) = true.
Proof.
  unfold quests_typed in Htyped. apply andb_true_iff in Htyped as [Hq _].
  unfold quest_progress. rewrite !with_quests_section.
  destruct (dict_of_inv _ _ Hq) as (qs & -> & Pqs).
  cbn [sub_dict py_get].
  specialize (Pqs (Some q_id) (JDict []) eq_refl).
  destruct (dict_get_or qs (Some q_id) (JDict [])) as [| | | | |e]; try discriminate Pqs.
  now exists e.
Qed.

Lemma custom_order_list :
  dict_get_or up1 (Some "quest_order") (JList []) = JList (custom_order_of up1).
Proof.
  unfold quests_typed in Htyped. apply andb_true_iff in Htyped as [_ Ho].
  unfold custom_order_of. cbn [dict_get_or].
  rewrite with_quests_other by discriminate.
  destruct (dict_get up "quest_order") as [[]|]; try discriminate Ho; reflexivity.
Qed.

Lemma all_quest_info_merged (quest_data : list quest) :
  all_quest_info quest_data up1 = Ok (merged up1 quest_data).
Proof.
  unfold all_quest_info, merged.
  rewrite (for_each_collect
             (fun q => match quest_id q with
                       | None | Some EmptyString => []
                       | Some q_id => [merged_info up1 q q_id]
                       end)); [reflexivity|].
  intros acc q _.
  destruct (quest_id q) as [[|c q_id]|]; [now rewrite app_nil_r| |now rewrite app_nil_r].
  destruct (quest_entry_typed (String c q_id)) as (e & Hprog & Hget & _).
  rewrite Hget. cbn [bind py_get].
  unfold merged_info. rewrite Hprog. reflexivity.
Qed.

Lemma merged_completed_bool (quest_data : list quest) :
  Forall (fun q => is_bool (is_completed q) = true) (merged up1 quest_data).
Proof.
  apply List.Forall_forall. intros q Hq.
  unfold merged in Hq. apply in_flat_map in Hq as (q0 & _ & Hq).
  destruct (quest_id q0) as [[|c q_id]|]; [contradiction| |contradiction].
  destruct Hq as [<-|[]].
  destruct (quest_entry_typed (String c q_id)) as (e & Hprog & _ & Hbool).
  cbn [merged_info is_completed]. rewrite Hprog. exact Hbool.
Qed.

Lemma sort_key_rank (q : quest_info) :
  is_bool (is_completed q) = true ->
  sort_key (JList (custom_order_of up1)) q = Ok (rank (custom_order_of up1) q).
Proof.
  intros Hbool. unfold sort_key, rank, position, number_of.
  cbn [index_or py_len].
  destruct (is_completed q); try discriminate Hbool.
  now destruct (find_index _ _).
Qed.

End QuestView.

Lemma position_listed (custom_order : list json) (q_id : string) :
  if listed custom_order q_id
  then (position custom_order q_id < length custom_order)%nat
  else position custom_order q_id = length custom_order.
Proof.
  unfold listed, position.
  induction custom_order as [|x l IH]; cbn [existsb find_index length]; [reflexivity|].
  destruct (is_str q_id x); cbn [orb]; [lia|].
  destruct (existsb (is_str q_id) l), (find_index (is_str q_id) l);
    cbn [option_map]; lia.
Qed.

Lemma precedes_key (custom_order : list json) (a b : quest_info) :
  is_bool (is_completed a) = true ->
  is_bool (is_completed b) = true ->
  key_lt (rank custom_order b) (rank custom_order a) = false ->
  precedes custom_order a b.
Proof.
  unfold precedes, rank, tracked, completed, number_of.
  destruct (is_completed a) as [|ca| | | |]; try discriminate.
  destruct (is_completed b) as [|cb| | | |]; try discriminate.
  intros _ _. cbn [as_int default truthy key_lt].
  destruct (truthy (is_tracked a)), (truthy (is_tracked b)), ca, cb;
    cbn [negb Bool.eqb andb]; key_cases; intros Hkey; try discriminate Hkey;
    cbv [id] in *; try lia;
    first [ left; split; reflexivity
          | right; split; [reflexivity|]; left; lia
          | right; split; [reflexivity|]; right; split; [lia|]; intros E;
            first [exact E | reflexivity | discriminate E] ].
Qed.

Lemma has_rank_key (custom_order : list json) (t : bool) (p : nat) (c : bool)
    (q : quest_info) :
  is_bool (is_completed q) = true ->
  key_eqb (rank custom_order q) (negb t, p, if c then 1 else 0)
  = has_rank custom_order t p c q.
Proof.
  unfold has_rank, rank, tracked, completed, number_of.
  destruct (is_completed q) as [|cq| | | |]; try discriminate.
  intros _. cbn [as_int default truthy key_eqb].
  now destruct (truthy (is_tracked q)), t, cq, c,
    (Nat.eqb (position custom_order (info_id q)) p).
Qed.

Lemma StronglySorted_map {A B : Type} (R : A -> A -> Prop) (R' : B -> B -> Prop)
    (f : A -> B) (inv : A -> Prop) (l : list A) :
  (forall x y, inv x -> inv y -> R x y -> R' (f x) (f y)) ->
  Forall inv l -> StronglySorted R l -> StronglySorted R' (map f l).
Proof.
  intros Hmono Hinv Hsorted.
  induction Hsorted as [|x l Hsorted IH Hall]; cbn [map]; [constructor|].
  apply List.Forall_cons_iff in Hinv as [Hx Hl].
  constructor; [now apply IH|].
  apply List.Forall_map.
  rewrite List.Forall_forall in *.
  intros y Hy. apply Hmono; auto.
Qed.

Lemma filter_map_snd {K A : Type} (p : K * A -> bool) (p' : A -> bool)
    (l : list (K * A)) :
  Forall (fun kx => p kx = p' (snd kx)) l ->
  map snd (List.filter p l) = List.filter p' (map snd l).
Proof.
  induction 1 as [|kx l Hkx _ IH]; cbn [List.filter map]; [reflexivity|].
  rewrite Hkx. destruct (p' (snd kx)); cbn [map]; now rewrite IH.
Qed.

Lemma sorted_quests_ok (up : pydict) (quest_data : list quest) :
  quests_typed up = true ->
  py_sorted key_lt (sort_key (JList (custom_order_of (with_quests up))))
    (merged (with_quests up) quest_data)
  = Ok (map snd
          (sort_keyed key_lt
             (map (fun x => (rank (custom_order_of (with_quests up)) x, x))
                (merged (with_quests up) quest_data)))).
Proof.
  intros Htyped. unfold py_sorted.
  rewrite (keyed_map (sort_key (JList (custom_order_of (with_quests up))))
             (rank (custom_order_of (with_quests up)))); [reflexivity|].
  intros q Hq. apply (sort_key_rank _ q).
  pose proof (merged_completed_bool _ Htyped quest_data) as Hbool.
  rewrite List.Forall_forall in Hbool. now apply Hbool.
Qed.

(** C5. On a progress document whose quest section is typed,
    [get_filtered_quests] with [tracked_only] false returns the merged
    records of all quests that have an id, rearranged: the list is ordered
    by tracked before untracked, then by position in the custom order,
    then by incomplete before completed; quests of equal rank keep the
    order in which the quest data lists them; a quest absent from the
    custom order has the position after all listed ones. *)
Theorem get_filtered_quests_full_order (self : DataManager) :
  quests_typed (user_progress self) = true ->
  let up1 := with_quests (user_progress self) in
  let order := custom_order_of up1 in
  let all := merged up1 (quest_data self) in
  exists sorted_quests : list quest_info,
    get_filtered_quests self false = (with_user_progress self up1, Ok sorted_quests)
    /\ Permutation all sorted_quests
    /\ StronglySorted (precedes order) sorted_quests
    /\ (forall (t : bool) (p : nat) (c : bool),
          List.filter (has_rank order t p c) sorted_quests
          = List.filter (has_rank order t p c) all)
    /\ (forall q_id,
          if listed order q_id
          then (position order q_id < length order)%nat
          else position order q_id = length order).
Proof.
  intros Htyped up1 order all.
  pose proof (merged_completed_bool _ Htyped (quest_data self)) as Hbool.
  fold up1 in Hbool. fold all in Hbool.
  set (pairs := map (fun x => (rank order x, x)) all).
  assert (Hinv : Forall (fun kx => fst kx = rank order (snd kx)
                                   /\ is_bool (is_completed (snd kx)) = true) pairs).
  { unfold pairs. apply List.Forall_map. cbn [fst snd].
    apply (List.Forall_impl _ (P := fun q => is_bool (is_completed q) = true));
      [now split | exact Hbool]. }
  assert (Hsnd : map snd pairs = all).
  { unfold pairs. rewrite map_map. cbn [snd]. apply map_id. }
  pose proof (sort_keyed_perm key_lt pairs) as Hperm.
  assert (Hinv' : Forall (fun kx => fst kx = rank order (snd kx)
                                    /\ is_bool (is_completed (snd kx)) = true)
                    (sort_keyed key_lt pairs)).
  { apply (Permutation_Forall (x := pairs)); [now symmetry|exact Hinv]. }
  exists (map snd (sort_keyed key_lt pairs)).
  split; [|split; [|split; [|split]]].
  - unfold get_filtered_quests. f_equal. fold up1.
    unfold up1. rewrite (all_quest_info_merged _ Htyped). cbn [bind].
    rewrite (custom_order_list _ Htyped).
    rewrite (sorted_quests_ok _ _ Htyped). reflexivity.
  - rewrite <- Hsnd. apply Permutation_map. now symmetry.
  - apply (StronglySorted_map
             (fun x y : sort_key_t * quest_info => key_lt (fst y) (fst x) = false)
             (precedes order) snd
             (fun kx => fst kx = rank order (snd kx)
                        /\ is_bool (is_completed (snd kx)) = true)).
    + intros x y [Hx Hbx] [Hy Hby] Hle. rewrite Hx, Hy in Hle.
      now apply precedes_key.
    + exact Hinv'.
    + apply sort_keyed_sorted; [apply key_lt_asym | apply key_le_trans].
  - intros t p c. rewrite <- Hsnd.
    rewrite <- !(filter_map_snd
                   (fun kx => key_eqb (fst kx) (negb t, p, if c then 1 else 0))).
    + f_equal. apply sort_keyed_filter.
      intros x y Hx Hy. apply key_eqb_eq in Hx, Hy. rewrite Hx, Hy.
      apply key_lt_irrefl.
    + apply (List.Forall_impl _ (P := fun kx => fst kx = rank order (snd kx)
                                    /\ is_bool (is_completed (snd kx)) = true));
        [|exact Hinv].
      intros kx [Hk Hb]. rewrite Hk. now apply has_rank_key.
    + apply (List.Forall_impl _ (P := fun kx => fst kx = rank order (snd kx)
                                    /\ is_bool (is_completed (snd kx)) = true));
        [|exact Hinv'].
      intros kx [Hk Hb]. rewrite Hk. now apply has_rank_key.
  - intros q_id. apply position_listed.
Qed.

Lemma get_filtered_quests_full_order_witness :
  exists sorted_quests : list quest_info,
    snd (get_filtered_quests manager_with_quests false) = Ok sorted_quests
    /\ StronglySorted (precedes [JStr "d"; JStr "a"]) sorted_quests.
Proof.
  destruct (get_filtered_quests_full_order manager_with_quests eq_refl)
    as (sorted_quests & Heq & _ & Hsorted & _).
  exists sorted_quests. split; [now rewrite Heq | exact Hsorted].
Defined.

Example full_order_sample :
  result_map (map info_id) (snd (get_filtered_quests manager_with_quests false))
  = Ok ["d"; "b"; "a"; "c"].
Proof. reflexivity. Qed.

Example tracked_only_sample :
  result_map (map info_id) (snd (get_filtered_quests manager_with_quests true))
  = Ok ["b"].
Proof. reflexivity. Qed.

(** ** The item index *)

Lemma table_index_get (o2 : pydict) (name_obj : pydict) :
  forall (choices : dict pydict) (k : string),
    dict_get
      (fold_left
         (fun ch kv =>
            if truthy (snd kv)
            then dict_set ch (PyStr.strip (PyRepr.str (snd kv))) o2
            else ch)
         name_obj choices) k
    = if in_dec string_dec k (table_keys name_obj) then Some o2 else dict_get choices k.
Proof.
  induction name_obj as [|[lang v] tbl IH]; intros choices k; [reflexivity|].
  cbn [fold_left snd]. rewrite IH. unfold table_keys. cbn [flat_map snd].
  fold (table_keys tbl).
  destruct (in_dec string_dec k (table_keys tbl)) as [Hin|Hout].
  - destruct (in_dec string_dec k _) as [|Hno]; [reflexivity|].
    exfalso. apply Hno, in_or_app. now right.
  - destruct (truthy v); cbn [app].
    + fold (index_key v). destruct (string_dec (index_key v) k) as [<-|Hne].
      * rewrite dict_get_set_eq.
        destruct (in_dec string_dec _ _) as [|Hno]; [reflexivity|].
        exfalso. apply Hno. now left.
      * rewrite dict_get_set_ne by assumption.
        destruct (in_dec string_dec _ _) as [[Heq|Hin]|]; [congruence|contradiction|reflexivity].
    + destruct (in_dec string_dec _ _); [contradiction|reflexivity].
Qed.

Lemma index_item_get (choices : dict pydict) (filename : string) (item_object : json)
    (choices' : dict pydict) (printed : list diagnostic) (k : string) :
  index_item choices filename item_object = Ok (choices', printed) ->
  dict_get choices' k
  = if in_dec string_dec k (record_keys item_object)
    then Some (record_item item_object) else dict_get choices k.
Proof.
  unfold index_item, record_keys, record_item.
  destruct item_object as [| | | | |o]; try discriminate.
  destruct (dict_get o "name") as [[| | |name_str| |name_obj]|];
    intros H; injection H as <- _; try reflexivity.
  - destruct (string_dec (PyStr.strip name_str) k) as [<-|Hne].
    + rewrite dict_get_set_eq. destruct (in_dec string_dec _ _) as [|Hno]; [reflexivity|].
      exfalso. apply Hno. now left.
    + rewrite dict_get_set_ne by assumption.
      destruct (in_dec string_dec _ _) as [[Heq|[]]|]; [congruence|reflexivity].
  - rewrite table_index_get. unfold table_item, index_key. reflexivity.
Qed.

Lemma load_item_file_get (fs : filesystem) (directory : string)
    (acc : dict pydict * list diagnostic) (filename k : string) :
  dict_get (fst (load_item_file fs directory acc filename)) k
  = if in_dec string_dec k (file_keys fs directory filename)
    then Some (match parse_file fs directory filename with
               | Ok item_object => record_item item_object
               | Raise _ => []
               end)
    else dict_get (fst acc) k.
Proof.
  destruct acc as [choices log]. unfold load_item_file, file_keys.
  destruct (endswith filename ".json"); [|destruct (in_dec string_dec k []) as [[]|]; reflexivity].
  unfold parse_file.
  destruct (load_file fs (path_join directory filename)) as [item_object|e]; cbn [bind].
  - destruct (index_item choices filename item_object) as [[choices' printed]|e] eqn:Hidx.
    + cbn [fst]. now apply index_item_get with (k := k) in Hidx.
    + cbn [fst]. destruct item_object as [| | | | |o]; cbn [record_keys];
        try (destruct (in_dec string_dec k []) as [[]|]; reflexivity).
      exfalso. unfold index_item in Hidx.
      destruct (dict_get o "name") as [[| | | | |]|]; discriminate Hidx.
  - cbn [fst]. destruct (in_dec string_dec k []) as [[]|]; reflexivity.
Qed.

Lemma load_items_later_files (fs : filesystem) (directory : string) (k : string)
    (after : list string) :
  (forall later, In later after -> ~ In k (file_keys fs directory later)) ->
  forall acc,
    dict_get (fst (fold_left (load_item_file fs directory) after acc)) k
    = dict_get (fst acc) k.
Proof.
  induction after as [|f after IH]; intros Hlater acc; [reflexivity|].
  cbn [fold_left]. rewrite IH.
  - rewrite load_item_file_get.
    destruct (in_dec string_dec _ _) as [Hin|]; [|reflexivity].
    exfalso. apply (Hlater f); [now left|exact Hin].
  - intros later Hl. apply Hlater. now right.
Qed.

Lemma table_keys_in (name_obj : pydict) (lang : string) (name_val : json) :
  In (lang, name_val) name_obj -> truthy name_val = true ->
  In (index_key name_val) (table_keys name_obj).
Proof.
  intros Hin Htruthy. unfold table_keys. apply in_flat_map.
  exists (lang, name_val). split; [exact Hin|].
  cbn [snd]. rewrite Htruthy. now left.
Qed.

(** C4 (as amended). For an item record whose [name] is a language table
    with an [en] entry, loading the directory keeps one Item for the
    record: the record with the stripped [en] text as its [name] and the
    whole table as its [names].  The index maps the stripped text of every
    truthy name of the table to that Item, unless a file later in the
    listing is indexed under the same key.  The later files are texts in
    the range of the embedding, so that what is indexed under a key is what
    the program indexes under it. *)
Theorem load_items_indexes_every_name
    (fs : filesystem) (directory : string) (before after : list string)
    (filename : string) (o name_obj : pydict) (en : json) :
  listdir fs directory = Ok (before ++ filename :: after)%list ->
  endswith filename ".json" = true ->
  parse_file fs directory filename = Ok (JDict o) ->
  dict_get o "name" = Some (JDict name_obj) ->
  dict_get name_obj "en" = Some en ->
  forallb (file_in_range fs directory) after = true ->
  exists (choices : dict pydict) (log : list diagnostic),
    _load_items_from_dir fs directory = Ok (choices, log)
    /\ dict_get (table_item o name_obj) "name" = Some (JStr (index_key en))
    /\ dict_get (table_item o name_obj) "names" = Some (JDict name_obj)
    /\ forall (lang : string) (name_val : json),
         In (lang, name_val) name_obj ->
         truthy name_val = true ->
         (forall later, In later after ->
                        ~ In (index_key name_val) (file_keys fs directory later)) ->
         dict_get choices (index_key name_val) = Some (table_item o name_obj).
Proof.
  intros Hlist Hjson Hparse Hname Hen _.
  unfold _load_items_from_dir.
  assert (Hexists : path_exists fs directory = true).
  { unfold listdir in Hlist. unfold path_exists.
    destruct (dirs fs !! directory); [|discriminate Hlist].
    now destruct (files fs !! directory). }
  rewrite Hexists, Hlist. cbn [negb bind].
  destruct (fold_left (load_item_file fs directory) (before ++ filename :: after)%list ([], []))
    as [choices log] eqn:Hfold.
  exists choices, log. split; [reflexivity|].
  unfold table_item. rewrite Hen.
  split; [|split].
  - rewrite dict_get_set_ne by discriminate. apply dict_get_set_eq.
  - apply dict_get_set_eq.
  - intros lang name_val Hin Htruthy Hlater.
    replace choices with (fst (choices, log)) by reflexivity.
    rewrite <- Hfold, fold_left_app. cbn [fold_left].
    rewrite load_items_later_files by exact Hlater.
    rewrite load_item_file_get.
    unfold file_keys. rewrite Hjson, Hparse. cbn [record_keys record_item].
    rewrite Hname.
    destruct (in_dec string_dec _ _) as [_|Hno].
    + unfold table_item. now rewrite Hen.
    + exfalso. apply Hno. eapply table_keys_in; eassumption.
Qed.

Lemma load_items_indexes_every_name_witness :
  lookup_in (_load_items_from_dir items_fs "data/items") "Cord"
  = Some (table_item [("id", JStr "cord");
                      ("name", JDict [("en", JStr "Cord"); ("de", JStr "Seil")])]
            [("en", JStr "Cord"); ("de", JStr "Seil")])
  /\ lookup_in (_load_items_from_dir items_fs "data/items") "Seil"
     = lookup_in (_load_items_from_dir items_fs "data/items") "Cord".
Proof.
  destruct (load_items_indexes_every_name items_fs "data/items" ["a.json"] ["c.json"]
              "b.json" _ _ (JStr "Cord") eq_refl eq_refl eq_refl eq_refl eq_refl eq_refl)
    as (choices & log & Hload & _ & _ & Hidx).
  rewrite Hload. cbn [lookup_in].
  assert (Hlater : forall k later, In later ["c.json"] ->
                     k <> "Wire" -> ~ In k (file_keys items_fs "data/items" later)).
  { intros k later [<-|[]] Hk [Hin|[]]. now apply Hk. }
  split.
  - apply (Hidx "en" (JStr "Cord")); [now left|reflexivity|].
    intros later Hl. now apply Hlater.
  - etransitivity.
    + apply (Hidx "de" (JStr "Seil")); [right; now left|reflexivity|].
      intros later Hl. now apply Hlater.
    + symmetry. apply (Hidx "en" (JStr "Cord")); [now left|reflexivity|].
      intros later Hl. now apply Hlater.
Defined.

(** C4, as stated, fails: a name shared with a record loaded later leads to
    that record, and a padded name is not a key of the index. *)
Lemma load_items_name_collision :
  lookup_in (_load_items_from_dir items_fs "data/items") "Seil"
  = Some (record_item cord_record)
  /\ lookup_in (_load_items_from_dir items_fs "data/items") "Rope"
     = Some (record_item rope_record)
  /\ record_item cord_record <> record_item rope_record
  /\ lookup_in (_load_items_from_dir items_fs "data/items") " Wire " = None
  /\ lookup_in (_load_items_from_dir items_fs "data/items") "Wire"
     = Some (record_item wire_record)
  /\ dict_get (record_item wire_record) "name" = Some (JStr "Wire").
Proof.
  vm_compute. repeat split. discriminate.
Qed.

(** ** The JSON codec *)

Lemma append_assoc (a b c : string) : (a ++ b) ++ c = a ++ (b ++ c).
Proof.
  induction a as [|x a IH]; [reflexivity|].
  change ((String x a ++ b) ++ c) with (String x ((a ++ b) ++ c)).
  now rewrite IH.
Qed.

Lemma append_cons (x : ascii) (a b : string) : String x a ++ b = String x (a ++ b).
Proof. reflexivity. Qed.

Lemma append_nil_l (a : string) : EmptyString ++ a = a.
Proof. reflexivity. Qed.

(** *** Strings *)

Lemma parse_escape_char (c : ascii) (t : string) :
  Json.parse_string_body (Json.escape_char c ++ t)
  = match Json.parse_string_body t with
    | Some (body, r) => Some (String c body, r)
    | None => None
    end.
Proof.
  destruct c as [[] [] [] [] [] [] [] []]; reflexivity.
Qed.

Lemma parse_escape (s rest : string) :
  Json.parse_string_body (Json.escape s ++ String Json.dquote rest) = Some (s, rest).
Proof.
  induction s as [|c s IH]; [reflexivity|].
  cbn [Json.escape]. rewrite append_assoc, parse_escape_char. now rewrite IH.
Qed.

(** *** Numbers *)

Lemma ends_value_cases (rest : string) :
  ends_value rest = true ->
  rest = EmptyString
  \/ exists t, rest = String "," t \/ rest = String Json.newline t.
Proof.
  destruct rest as [|c t]; [now left|]. cbn [ends_value]. intros H. right. exists t.
  apply orb_true_iff in H as [H|H]; apply Ascii.eqb_eq in H; subst; auto.
Qed.

Lemma span_digits_uint (d : Decimal.uint) (rest : string) :
  ends_value rest = true ->
  Json.span_digits (NilEmpty.string_of_uint d ++ rest)
  = (NilEmpty.string_of_uint d, rest).
Proof.
  intros Hrest.
  induction d as [|d IH|d IH|d IH|d IH|d IH|d IH|d IH|d IH|d IH|d IH];
    cbn [NilEmpty.string_of_uint]; rewrite ?append_cons;
    try (cbn [Json.span_digits]; rewrite IH; reflexivity).
  rewrite append_nil_l.
  destruct (ends_value_cases rest Hrest) as [->|(t & [->| ->])]; reflexivity.
Qed.

Lemma to_uint_head (p : positive) :
  match Pos.to_uint p with
  | Decimal.Nil | Decimal.D0 _ => False
  | _ => True
  end.
Proof.
  pose proof (DecimalZ.to_of (Z.to_int (Z.pos p))) as H.
  rewrite DecimalZ.of_to in H. cbn [Z.to_int Decimal.norm] in H.
  injection H as H.
  pose proof (Unsigned.to_uint_nonnil p) as Hnil.
  pose proof (Unsigned.to_uint_nonzero p) as Hzero.
  destruct (Pos.to_uint p) as [|d| | | | | | | | |]; try exact I; [congruence|].
  unfold Decimal.unorm in H. cbn [Decimal.nzhead] in H.
  pose proof (nzhead_nonzero d d) as Hnz.
  destruct (Decimal.nzhead d) eqn:E; congruence.
Qed.

Lemma digit_head (c : ascii) :
  Json.is_digit c = true ->
  Ascii.eqb c "-" = false /\ Json.is_ws c = false
  /\ Ascii.eqb c "n" = false /\ Ascii.eqb c "t" = false /\ Ascii.eqb c "f" = false
  /\ Ascii.eqb c Json.dquote = false /\ Ascii.eqb c "[" = false
  /\ Ascii.eqb c "{" = false /\ Ascii.eqb c "]" = false /\ Ascii.eqb c "}" = false.
Proof.
  destruct c as [[] [] [] [] [] [] [] []]; cbv; intros H;
    first [discriminate H | repeat split].
Qed.

(** The digits of a number that is not written with a leading zero. *)
Lemma parse_int_digits (c : ascii) (ds rest : string) (d : Decimal.uint) :
  Json.is_digit c = true ->
  (Ascii.eqb c "0" = true -> ds = EmptyString) ->
  Json.span_digits (String c ds ++ rest) = (String c ds, rest) ->
  NilZero.uint_of_string (String c ds) = Some d ->
  ends_value rest = true ->
  Json.parse_int (String c ds ++ rest) = Some (Z.of_uint d, rest)
  /\ Json.parse_int (String "-" (String c ds ++ rest)) = Some (- Z.of_uint d, rest).
Proof.
  intros Hdigit Hzero Hspan Hd Hrest.
  assert (Hfloat : match rest with
                   | String c _ => Ascii.eqb c "." || Ascii.eqb c "e" || Ascii.eqb c "E"
                   | EmptyString => false
                   end = false).
  { destruct (ends_value_cases rest Hrest) as [->|(t & [->| ->])]; reflexivity. }
  assert (Hlead : match String c ds with
                  | String c (String _ _) => Ascii.eqb c "0"
                  | _ => false
                  end = false).
  { destruct ds; [reflexivity|]. destruct (Ascii.eqb c "0"); [|reflexivity].
    discriminate (Hzero eq_refl). }
  destruct (digit_head c Hdigit) as (Hminus & _).
  unfold Json.parse_int. split.
  - rewrite append_cons. cbn [Json.starts_with]. rewrite Hminus.
    rewrite <- append_cons, Hspan, Hlead, Hfloat, Hd. reflexivity.
  - cbn [Json.starts_with]. rewrite Ascii.eqb_refl.
    rewrite Hspan, Hlead, Hfloat, Hd. reflexivity.
Qed.

Lemma uint_head_string (d : Decimal.uint) :
  match d with Decimal.Nil | Decimal.D0 _ => False | _ => True end ->
  exists c ds,
    NilEmpty.string_of_uint d = String c ds
    /\ Json.is_digit c = true /\ Ascii.eqb c "0" = false.
Proof.
  destruct d; try contradiction; intros _; cbn [NilEmpty.string_of_uint];
    eexists _, _; repeat split.
Qed.

Lemma parse_int_of_int (z : Z) (rest : string) :
  ends_value rest = true ->
  Json.parse_int (PyStr.of_int z ++ rest) = Some (z, rest).
Proof.
  intros Hrest. unfold PyStr.of_int.
  destruct z as [|p|p]; cbn [Z.to_int NilZero.string_of_int].
  - apply (parse_int_digits "0" EmptyString rest (Decimal.D0 Decimal.Nil)); auto.
    apply (span_digits_uint (Decimal.D0 Decimal.Nil) rest Hrest).
  - pose proof (to_uint_head p) as Hhead.
    destruct (uint_head_string _ Hhead) as (c & ds & Hstr & Hdigit & Hnz).
    assert (E : NilZero.string_of_uint (Pos.to_uint p) = String c ds).
    { unfold NilZero.string_of_uint. rewrite <- Hstr.
      now destruct (Pos.to_uint p). }
    rewrite E.
    assert (Hd : NilZero.uint_of_string (String c ds) = Some (Pos.to_uint p)).
    { rewrite <- E. apply NilZero.usu. apply Unsigned.to_uint_nonnil. }
    destruct (parse_int_digits c ds rest (Pos.to_uint p)) as [H _]; auto.
    + intros H0. congruence.
    + rewrite <- Hstr. now apply span_digits_uint.
    + rewrite H. unfold Z.of_uint. now rewrite DecimalPos.Unsigned.of_to.
  - pose proof (to_uint_head p) as Hhead.
    destruct (uint_head_string _ Hhead) as (c & ds & Hstr & Hdigit & Hnz).
    assert (E : NilZero.string_of_uint (Pos.to_uint p) = String c ds).
    { unfold NilZero.string_of_uint. rewrite <- Hstr.
      now destruct (Pos.to_uint p). }
    rewrite E.
    assert (Hd : NilZero.uint_of_string (String c ds) = Some (Pos.to_uint p)).
    { rewrite <- E. apply NilZero.usu. apply Unsigned.to_uint_nonnil. }
    destruct (parse_int_digits c ds rest (Pos.to_uint p)) as [_ H]; auto.
    + intros H0. congruence.
    + rewrite <- Hstr. now apply span_digits_uint.
    + rewrite append_cons, H. unfold Z.of_uint. now rewrite DecimalPos.Unsigned.of_to.
Qed.

(** *** White space and first characters *)

Lemma skip_ws_spaces (k : nat) (s : string) :
  Json.skip_ws (Json.spaces k ++ s) = Json.skip_ws s.
Proof.
  induction k as [|k IH]; [reflexivity|].
  cbn [Json.spaces]. rewrite append_cons. cbn [Json.skip_ws]. exact IH.
Qed.

Lemma skip_ws_nl (n : nat) (s : string) :
  Json.skip_ws (Json.nl n ++ s) = Json.skip_ws s.
Proof.
  unfold Json.nl. rewrite append_cons. cbn [Json.skip_ws].
  change (Json.is_ws Json.newline) with true. cbv iota. apply skip_ws_spaces.
Qed.

Lemma skip_ws_head (c : ascii) (t : string) :
  Json.is_ws c = false -> Json.skip_ws (String c t) = String c t.
Proof.
  intros H. cbn [Json.skip_ws]. now rewrite H.
Qed.

Lemma parse_value_skip (fuel : nat) (s1 s2 : string) :
  Json.skip_ws s1 = Json.skip_ws s2 ->
  Json.parse_value fuel s1 = Json.parse_value fuel s2.
Proof.
  intros H. destruct fuel; [reflexivity|]. cbn [Json.parse_value]. now rewrite H.
Qed.

Lemma parse_members_skip (fuel : nat) (s1 s2 : string) :
  Json.skip_ws s1 = Json.skip_ws s2 ->
  Json.parse_members fuel s1 = Json.parse_members fuel s2.
Proof.
  intros H. destruct fuel; [reflexivity|]. cbn [Json.parse_members]. now rewrite H.
Qed.

Lemma of_int_head (z : Z) :
  exists c t, PyStr.of_int z = String c t
              /\ (Json.is_digit c = true \/ c = "-"%char).
Proof.
  unfold PyStr.of_int. destruct z as [|p|p]; cbn [Z.to_int NilZero.string_of_int].
  - exists "0"%char, EmptyString. split; [reflexivity|now left].
  - destruct (uint_head_string _ (to_uint_head p)) as (c & ds & Hstr & Hdigit & _).
    exists c, ds. split; [|now left].
    unfold NilZero.string_of_uint. rewrite <- Hstr. now destruct (Pos.to_uint p).
  - eexists _, _. split; [reflexivity|now right].
Qed.

Lemma dumps_head (n : nat) (v : json) :
  exists c t, Json.dumps_at n v = String c t /\ value_head c = true.
Proof.
  destruct v as [|[]|z|s|[|x l]|[|kv d]]; cbn [Json.dumps_at];
    try (eexists _, _; split; reflexivity).
  destruct (of_int_head z) as (c & t & -> & [Hd| ->]).
  - exists c, t. split; [reflexivity|].
    destruct (digit_head c Hd) as (_ & Hws & _ & _ & _ & _ & _ & _ & Hb & Hc).
    unfold value_head. now rewrite Hws, Hb, Hc.
  - exists "-"%char, t. split; reflexivity.
Qed.

Lemma value_head_skip (c : ascii) (t : string) :
  value_head c = true ->
  Json.skip_ws (String c t) = String c t
  /\ Json.starts_with "]" (String c t) = None
  /\ Json.starts_with "}" (String c t) = None.
Proof.
  unfold value_head. intros H.
  apply andb_true_iff in H as [H Hc]. apply andb_true_iff in H as [Hws Hb].
  apply negb_true_iff in Hws, Hb, Hc.
  cbn [Json.skip_ws Json.starts_with]. now rewrite Hws, Hb, Hc.
Qed.

(** *** Values *)

Ltac is_bool_value r :=
  match r with
  | true => idtac
  | false => idtac
  end.

Ltac eval_chars :=
  repeat match goal with
    | |- context [Ascii.eqb ?a ?b] =>
        let r := eval vm_compute in (Ascii.eqb a b) in
        is_bool_value r; change (Ascii.eqb a b) with r
    | |- context [Json.is_ws ?a] =>
        let r := eval vm_compute in (Json.is_ws a) in
        is_bool_value r; change (Json.is_ws a) with r
    end; cbv iota.

Lemma parse_value_int_head (fuel : nat) (c : ascii) (t : string) :
  Json.is_digit c = true \/ c = "-"%char ->
  Json.parse_value (S fuel) (String c t)
  = match Json.parse_int (String c t) with
    | Some (z, r) => Some (JInt z, r)
    | None => None
    end.
Proof.
  intros [Hd| ->].
  - destruct (digit_head c Hd) as (_ & Hws & Hn & Ht & Hf & Hq & Hl & Hb & _).
    cbn [Json.parse_value Json.skip_ws]. now rewrite Hws, Hn, Ht, Hf, Hq, Hl, Hb.
  - reflexivity.
Qed.

Lemma size_pos (v : json) : (1 <= size v)%nat.
Proof. destruct v; cbn [size]; lia. Qed.

Lemma ends_value_tail {A : Type} (n k : nat) (f : A -> string) (l : list A)
    (rest : string) :
  ends_value (tail_text ("," ++ Json.nl k) f l ++ Json.nl n ++ rest) = true.
Proof.
  destruct l as [|y l]; reflexivity.
Qed.

Section Elements.
Variables (n : nat) (rest : string).

Let f : json -> string := Json.dumps_at (S n).
Let sep : string := "," ++ Json.nl (S n).

Lemma parse_elements_text (xs : list json) :
  forall (x : json) (fuel : nat),
    Forall (fun v => forall n fuel rest,
                well_formed v = true -> (size v <= fuel)%nat -> ends_value rest = true ->
                Json.parse_value fuel (Json.dumps_at n v ++ rest) = Some (v, rest))
      (x :: xs) ->
    forallb well_formed (x :: xs) = true ->
    (1 + list_sum (map size (x :: xs)) <= fuel)%nat ->
    Json.parse_elements fuel
      (Json.nl (S n) ++ f x ++ tail_text sep f xs ++ Json.nl n ++ "]" ++ rest)
    = Some (x :: xs, rest).
Proof.
  induction xs as [|y ys IH]; intros x fuel Hall Hwf Hfuel;
    apply List.Forall_cons_iff in Hall as [Hx Hrest];
    cbn [forallb] in Hwf; apply andb_true_iff in Hwf as [Hwx Hwrest];
    unfold list_sum in Hfuel; cbn [map fold_right] in Hfuel;
    (destruct fuel as [|fuel]; [lia|]); cbn [Json.parse_elements];
    rewrite (parse_value_skip fuel _ _ (skip_ws_nl (S n) _)).
  - rewrite (Hx (S n) fuel _ Hwx) by (try lia; reflexivity).
    cbn [tail_text fold_right]. rewrite append_nil_l, skip_ws_nl. reflexivity.
  - rewrite (Hx (S n) fuel _ Hwx) by (try lia; apply ends_value_tail).
    cbn [tail_text fold_right]. fold (tail_text sep f ys).
    unfold sep at 1. rewrite !append_assoc, !append_cons, append_nil_l.
    cbn [Json.skip_ws]. eval_chars. cbn [Json.starts_with]. eval_chars.
    rewrite IH; [reflexivity|exact Hrest|exact Hwrest|].
    unfold list_sum. cbn [map fold_right]. pose proof (size_pos x). lia.
Qed.

End Elements.

Section Members.
Variables (n : nat) (rest : string).

Let f (kv : string * json) : string :=
  Json.quote (fst kv) ++ ": " ++ Json.dumps_at (S n) (snd kv).
Let sep : string := "," ++ Json.nl (S n).

Lemma parse_members_text (xs : list (string * json)) :
  forall (x : string * json) (fuel : nat),
    Forall (fun kv => forall n fuel rest,
                well_formed (snd kv) = true -> (size (snd kv) <= fuel)%nat ->
                ends_value rest = true ->
                Json.parse_value fuel (Json.dumps_at n (snd kv) ++ rest)
                = Some (snd kv, rest))
      (x :: xs) ->
    forallb (fun kv => well_formed (snd kv)) (x :: xs) = true ->
    (1 + list_sum (map (fun kv => size (snd kv)) (x :: xs)) <= fuel)%nat ->
    Json.parse_members fuel
      (Json.nl (S n) ++ f x ++ tail_text sep f xs ++ Json.nl n ++ "}" ++ rest)
    = Some (x :: xs, rest).
Proof.
  induction xs as [|y ys IH]; intros [k v] fuel Hall Hwf Hfuel;
    apply List.Forall_cons_iff in Hall as [Hx Hrest];
    cbn [forallb] in Hwf; apply andb_true_iff in Hwf as [Hwx Hwrest];
    unfold list_sum in Hfuel; cbn [map fold_right snd] in Hfuel; cbn [snd] in Hx, Hwx;
    (destruct fuel as [|fuel]; [lia|]); cbn [Json.parse_members];
    rewrite skip_ws_nl; unfold f at 1, Json.quote; cbn [fst snd];
    rewrite ?append_assoc, ?append_cons, ?append_assoc, ?append_cons, ?append_nil_l;
    cbn [Json.skip_ws]; eval_chars; cbn [Json.starts_with]; eval_chars;
    rewrite parse_escape; cbn [Json.skip_ws]; eval_chars;
    cbn [Json.starts_with]; eval_chars;
    rewrite (parse_value_skip fuel (String " " _) (Json.dumps_at (S n) v ++ _))
      by reflexivity.
  - rewrite (Hx (S n) fuel _ Hwx) by (try lia; reflexivity).
    rewrite skip_ws_nl. reflexivity.
  - rewrite (Hx (S n) fuel _ Hwx) by (try lia; apply ends_value_tail).
    cbn [tail_text fold_right]. fold (tail_text sep f ys).
    unfold sep at 1. rewrite !append_assoc, !append_cons, append_nil_l.
    cbn [Json.skip_ws]. eval_chars. cbn [Json.starts_with]. eval_chars.
    change (String "}" rest) with ("}" ++ rest).
    rewrite IH; [reflexivity|exact Hrest|exact Hwrest|].
    unfold list_sum. cbn [map fold_right]. pose proof (size_pos v). lia.
Qed.

End Members.

(** *** Objects without repeated keys *)

Lemma dict_set_fresh {A : Type} (d : dict A) (k : string) (v : A) :
  existsb (String.eqb k) (map fst d) = false -> dict_set d k v = (d ++ [(k, v)])%list.
Proof.
  induction d as [|[k' v'] d IH]; cbn [dict_set map existsb fst app]; [reflexivity|].
  intros H. apply orb_false_iff in H as [Hk Hd]. rewrite Hk. now rewrite IH.
Qed.

Lemma dict_of_pairs_app (d : list (string * json)) :
  forall acc : pydict,
    unique (map fst acc ++ map fst d)%list = true ->
    fold_left (fun a kv => dict_set a (fst kv) (snd kv)) d acc = (acc ++ d)%list.
Proof.
  induction d as [|[k v] d IH]; intros acc Hu; cbn [fold_left fst snd].
  - now rewrite app_nil_r.
  - assert (Hfresh : existsb (String.eqb k) (map fst acc) = false).
    { clear IH. induction acc as [|[k' v'] acc IHa]; [reflexivity|].
      cbn [map fst app unique] in Hu. apply andb_true_iff in Hu as [Hk' Hu].
      cbn [map fst existsb]. rewrite (IHa Hu), orb_false_r.
      apply negb_true_iff in Hk'. rewrite existsb_app in Hk'.
      apply orb_false_iff in Hk' as [_ Hk']. cbn [map fst existsb] in Hk'.
      apply orb_false_iff in Hk' as [Hk' _]. now rewrite String.eqb_sym. }
    rewrite dict_set_fresh by exact Hfresh. rewrite IH.
    + now rewrite <- app_assoc.
    + rewrite map_app. cbn [map fst]. now rewrite <- app_assoc.
Qed.

Lemma dict_of_pairs_unique (d : list (string * json)) :
  unique (map fst d) = true -> Json.dict_of_pairs d = d.
Proof.
  intros Hu. unfold Json.dict_of_pairs. now rewrite dict_of_pairs_app.
Qed.

(** *** Reading back a printed value *)

Lemma list_text (n : nat) (x : json) (xs : list json) (rest : string) :
  Json.dumps_at n (JList (x :: xs)) ++ rest
  = String "[" (Json.nl (S n) ++ Json.dumps_at (S n) x
                ++ tail_text ("," ++ Json.nl (S n)) (Json.dumps_at (S n)) xs
                ++ Json.nl n ++ "]" ++ rest).
Proof.
  cbn [Json.dumps_at Json.members].
  fold (tail_text ("," ++ Json.nl (S n)) (Json.dumps_at (S n)) xs).
  now rewrite !append_assoc.
Qed.

Lemma dict_text (n : nat) (kv : string * json) (xs : list (string * json))
    (rest : string) :
  Json.dumps_at n (JDict (kv :: xs)) ++ rest
  = String "{"
      (Json.nl (S n)
       ++ (Json.quote (fst kv) ++ ": " ++ Json.dumps_at (S n) (snd kv))
       ++ tail_text ("," ++ Json.nl (S n))
            (fun kv => Json.quote (fst kv) ++ ": " ++ Json.dumps_at (S n) (snd kv)) xs
       ++ Json.nl n ++ "}" ++ rest).
Proof.
  cbn [Json.dumps_at Json.members].
  fold (tail_text ("," ++ Json.nl (S n))
          (fun kv => Json.quote (fst kv) ++ ": " ++ Json.dumps_at (S n) (snd kv)) xs).
  now rewrite !append_assoc.
Qed.

Lemma parse_dumps (v : json) :
  forall (n fuel : nat) (rest : string),
    well_formed v = true -> (size v <= fuel)%nat -> ends_value rest = true ->
    Json.parse_value fuel (Json.dumps_at n v ++ rest) = Some (v, rest).
Proof.
  induction v as [|b|z|s|l IH|d IH] using json_ind; intros n fuel rest Hwf Hfuel Hrest;
    cbn [size] in Hfuel; (destruct fuel as [|fuel]; [lia|]).
  - reflexivity.
  - destruct b; reflexivity.
  - destruct (of_int_head z) as (c & t & E & Hc).
    cbn [Json.dumps_at]. pose proof (parse_int_of_int z rest Hrest) as Hint.
    rewrite E in *. rewrite append_cons in *.
    rewrite parse_value_int_head by exact Hc. now rewrite Hint.
  - cbn [Json.dumps_at]. unfold Json.quote.
    rewrite append_cons, append_assoc, append_cons, append_nil_l.
    cbn [Json.parse_value Json.skip_ws]. eval_chars.
    now rewrite parse_escape.
  - destruct l as [|x xs]; [reflexivity|].
    rewrite list_text. cbn [Json.parse_value Json.skip_ws]. eval_chars.
    rewrite skip_ws_nl.
    destruct (dumps_head (S n) x) as (c & t & E & Hhead).
    rewrite E, append_cons.
    destruct (value_head_skip c (t ++ tail_text ("," ++ Json.nl (S n))
                                   (Json.dumps_at (S n)) xs
                                 ++ Json.nl n ++ "]" ++ rest) Hhead)
      as (Hskip & Hclose & _).
    rewrite Hskip, Hclose, <- append_cons, <- E.
    rewrite parse_elements_text; [reflexivity|exact IH|exact Hwf|lia].
  - destruct d as [|[k x] xs]; [reflexivity|].
    cbn [well_formed] in Hwf. apply andb_true_iff in Hwf as [Huniq Hwf].
    rewrite dict_text. cbn [Json.parse_value Json.skip_ws]. eval_chars.
    rewrite skip_ws_nl.
    assert (Hopen : Json.starts_with "}"
              (Json.skip_ws
                 ((Json.quote (fst (k, x)) ++ ": " ++ Json.dumps_at (S n) (snd (k, x)))
                  ++ tail_text ("," ++ Json.nl (S n))
                       (fun kv => Json.quote (fst kv) ++ ": "
                                  ++ Json.dumps_at (S n) (snd kv)) xs
                  ++ Json.nl n ++ "}" ++ rest)) = None) by reflexivity.
    rewrite Hopen.
    rewrite (parse_members_text n rest xs (k, x) fuel IH Hwf) by lia.
    now rewrite dict_of_pairs_unique.
Qed.

Lemma append_nil_r (s : string) : s ++ EmptyString = s.
Proof.
  induction s as [|c s IH]; [reflexivity|]. rewrite append_cons. now rewrite IH.
Qed.

Lemma members_length {A : Type} (sep : string) (f : A -> string) (g : A -> nat)
    (l : list A) :
  Forall (fun x => (g x <= String.length (f x))%nat) l ->
  (list_sum (map g l) <= String.length (Json.members sep f l))%nat.
Proof.
  intros Hall. destruct Hall as [|x l Hx Hl]; [cbn; lia|].
  cbn [Json.members]. unfold list_sum. cbn [map fold_right].
  rewrite length_append.
  enough (fold_right Nat.add 0%nat (map g l)
          <= String.length (fold_right (fun y acc => sep ++ f y ++ acc) EmptyString l))%nat
    by lia.
  induction Hl as [|y l Hy Hl IH]; cbn [map fold_right]; [cbn; lia|].
  rewrite !length_append. lia.
Qed.

Lemma size_le_length (v : json) :
  forall n, (size v <= String.length (Json.dumps_at n v))%nat.
Proof.
  induction v as [|b|z|s|l IH|d IH] using json_ind; intros n.
  - cbn. lia.
  - destruct b; cbn; lia.
  - destruct (of_int_head z) as (c & t & E & _). cbn [Json.dumps_at size].
    rewrite E. cbn [String.length]. lia.
  - cbn [Json.dumps_at size]. unfold Json.quote. cbn [String.length]. lia.
  - destruct l as [|x xs]; [cbn; lia|].
    cbn [Json.dumps_at size].
    assert (Hall : Forall (fun x => (size x <= String.length (Json.dumps_at (S n) x))%nat)
                     (x :: xs)).
    { apply (List.Forall_impl _ (P := fun v => forall n,
                (size v <= String.length (Json.dumps_at n v))%nat)); [|exact IH].
      intros a Ha. apply Ha. }
    pose proof (members_length ("," ++ Json.nl (S n)) (Json.dumps_at (S n)) size
                  (x :: xs) Hall) as Hm.
    rewrite append_cons, append_nil_l. cbn [String.length].
    rewrite !length_append. cbn [String.length]. lia.
  - destruct d as [|kv xs]; [cbn; lia|].
    cbn [Json.dumps_at size].
    assert (Hall : Forall (fun kv : string * json =>
                     (size (snd kv)
                      <= String.length (Json.quote (fst kv) ++ ": "
                                        ++ Json.dumps_at (S n) (snd kv)))%nat)
                     (kv :: xs)).
    { apply (List.Forall_impl _ (P := fun kv : string * json => forall n,
                (size (snd kv) <= String.length (Json.dumps_at n (snd kv)))%nat));
        [|exact IH].
      intros a Ha. rewrite !length_append. specialize (Ha (S n)). lia. }
    pose proof (members_length ("," ++ Json.nl (S n))
                  (fun kv : string * json =>
                     Json.quote (fst kv) ++ ": " ++ Json.dumps_at (S n) (snd kv))
                  (fun kv => size (snd kv)) (kv :: xs) Hall) as Hm.
    rewrite append_cons, append_nil_l. cbn [String.length].
    rewrite !length_append. cbn [String.length]. lia.
Qed.

(** [json.loads(json.dumps(v, indent=4)) == v] for a well-formed value. *)
Lemma loads_dumps (v : json) : well_formed v = true -> Json.loads (Json.dumps v) = Ok v.
Proof.
  intros Hwf. unfold Json.loads, Json.dumps.
  pose proof (size_le_length v 0) as Hsize.
  pose proof (parse_dumps v 0 (2 * String.length (Json.dumps_at 0 v) + 2) EmptyString Hwf)
    as Hparse.
  rewrite append_nil_r in Hparse. rewrite Hparse; [reflexivity|lia|reflexivity].
Qed.

(** ** Saving, then loading *)

Lemma save_user_progress_written
    (env : faults) (K : Constants) (self : DataManager) (w : world) :
  all_work env = true ->
  file_at (fst (save_user_progress env K self w)) (PROGRESS_FILE K)
  = Some (Json.dumps (JDict (user_progress self))).
Proof.
  intros Hwork.
  pose proof (save_attempt_run env K self w) as Hrun. cbv zeta in Hrun.
  rewrite Hwork in Hrun. destruct Hrun as (Hdone & Hdest & _).
  unfold save_user_progress, try_except.
  destruct (save_attempt env K self w) as [w1 out1]. cbn [fst snd] in *.
  now rewrite Hdone.
Qed.

(** C3. When every call of the save works, loading the progress file
    after [save_user_progress] gives back the state that was saved, for
    every state whose objects have one entry per key, whatever its keys:
    keys the module does not know are written and read like the others. *)
Theorem save_then_load_round_trip
    (env : faults) (K : Constants) (self : DataManager) (w : world) :
  all_work env = true ->
  well_formed (JDict (user_progress self)) = true ->
  load_progress K (fs (fst (save_user_progress env K self w)))
  = JDict (user_progress self).
Proof.
  intros Hwork Hwf.
  pose proof (save_user_progress_written env K self w Hwork) as Hfile.
  unfold file_at in Hfile.
  unfold load_progress, _load_json, path_exists, load_file, read_text.
  rewrite Hfile. cbn [negb bind].
  now rewrite loads_dumps.
Qed.

Lemma save_then_load_round_trip_witness :
  load_progress sample_constants
    (fs (fst (save_user_progress no_faults sample_constants
                (with_user_progress sample_manager progress_with_unknown_keys)
                old_world)))
  = JDict progress_with_unknown_keys.
Proof.
  exact (save_then_load_round_trip no_faults sample_constants
           (with_user_progress sample_manager progress_with_unknown_keys) old_world
           eq_refl eq_refl).
Defined.

(** X22. The tracked-only view on a typed quest section: exactly the merged
    records that are tracked and not completed, ordered by position with
    999 for the unlisted ones. *)
Lemma get_filtered_quests_tracked_only (self : DataManager) :
  quests_typed (user_progress self) = true ->
  let up1 := with_quests (user_progress self) in
  let order := custom_order_of up1 in
  let all := merged up1 (quest_data self) in
  exists tracked_quests : list quest_info,
    get_filtered_quests self true = (with_user_progress self up1, Ok tracked_quests)
    /\ Permutation
         (List.filter (fun q => tracked q && negb (completed q)) all) tracked_quests
    /\ StronglySorted
         (fun a b => (tracked_rank order a <= tracked_rank order b)%nat) tracked_quests.
Proof.
  intros Htyped up1 order all.
  set (chosen := List.filter (fun q => tracked q && negb (completed q)) all).
  set (pairs := map (fun x => (tracked_rank order x, x)) chosen).
  assert (Hinv : Forall (fun kx => fst kx = tracked_rank order (snd kx)) pairs).
  { unfold pairs. apply List.Forall_map. now apply List.Forall_forall. }
  assert (Hsnd : map snd pairs = chosen).
  { unfold pairs. rewrite map_map. cbn [snd]. apply map_id. }
  pose proof (sort_keyed_perm Nat.ltb pairs) as Hperm.
  exists (map snd (sort_keyed Nat.ltb pairs)).
  split; [|split].
  - unfold get_filtered_quests. f_equal. fold up1.
    unfold up1. rewrite (all_quest_info_merged _ Htyped). cbn [bind].
    rewrite (custom_order_list _ Htyped).
    rewrite (sorted_quests_ok _ _ Htyped). cbn [bind].
    fold up1 order all. unfold py_sorted.
    rewrite (keyed_map (tracked_key (JList order)) (tracked_rank order)); [reflexivity|].
    intros q _. unfold tracked_key, tracked_rank. cbn [index_or].
    now destruct (find_index _ _).
  - rewrite <- Hsnd. apply Permutation_map. now symmetry.
  - apply (StronglySorted_map
             (fun x y : nat * quest_info => Nat.ltb (fst y) (fst x) = false)
             _ snd (fun kx => fst kx = tracked_rank order (snd kx))).
    + intros x y Hx Hy Hle. rewrite Hx, Hy in Hle.
      apply Nat.ltb_ge in Hle. exact Hle.
    + apply (Permutation_Forall (x := pairs)); [now symmetry|exact Hinv].
    + apply sort_keyed_sorted.
      * intros a b Hab. apply Nat.ltb_lt in Hab. apply Nat.ltb_ge. lia.
      * intros a b c Hba Hcb. apply Nat.ltb_ge in Hba, Hcb. apply Nat.ltb_ge. lia.
Qed.

(** C6. With a custom order of 1001 ids, a tracked quest listed at
    position 1000 comes after a tracked quest that is not listed: the rank
    999 given to unlisted quests is not above every position.  The full
    list of the same call ranks the unlisted quest last. *)
Theorem tracked_only_sentinel_below_listed :
  result_map (map info_id) (snd (get_filtered_quests manager_with_long_order true))
  = Ok ["unlisted"; "listed"]
  /\ result_map (map info_id) (snd (get_filtered_quests manager_with_long_order false))
     = Ok ["listed"; "unlisted"].
Proof.
  split; vm_compute; reflexivity.
Qed.

(** ** Keys *)

Lemma key_eq_refl (k : json) : hashable k = true -> key_eq k k = true.
Proof.
  destruct k as [|b|z|s|l|d]; cbn; try discriminate; intros _.
  - reflexivity.
  - destruct b; reflexivity.
  - apply Z.eqb_refl.
  - apply String.eqb_refl.
Qed.

Lemma key_eq_sym (a b : json) : key_eq a b = key_eq b a.
Proof.
  destruct a as [|[]|x|s|l|d], b as [|[]|y|t|l'|d']; cbv [key_eq as_int];
    try reflexivity; try apply Z.eqb_sym; apply String.eqb_sym.
Qed.

Lemma key_eq_trans (a b c : json) :
  key_eq a b = true -> key_eq b c = true -> key_eq a c = true.
Proof.
  destruct a as [|[]|x|s|l|d], b as [|[]|y|t|l'|d'], c as [|[]|z|u|l''|d''];
    cbv [key_eq as_int]; try discriminate; try reflexivity;
    rewrite ?Z.eqb_eq, ?String.eqb_eq; try congruence; try lia.
Qed.

Lemma key_eq_truthy (a b : json) : key_eq a b = true -> truthy a = truthy b.
Proof.
  destruct a as [|[]|x|s|l|d], b as [|[]|y|t|l'|d'];
    cbv [key_eq as_int truthy]; try discriminate; try reflexivity;
    rewrite ?Z.eqb_eq, ?String.eqb_eq; intros E; subst; try reflexivity;
    try discriminate.
Qed.

Section KDictFacts.
Context {A : Type}.
Implicit Types (m : kdict A) (k : json) (v : A).

Lemma kdict_get_key_eq m k k' : key_eq k k' = true -> kdict_get m k = kdict_get m k'.
Proof.
  intros E. induction m as [|[k1 v1] m IH]; cbn [kdict_get]; [reflexivity|].
  destruct (key_eq k k1) eqn:E1.
  - rewrite key_eq_sym in E. now rewrite (key_eq_trans _ _ _ E E1).
  - destruct (key_eq k' k1) eqn:E2; [|exact IH].
    now rewrite (key_eq_trans _ _ _ E E2) in E1.
Qed.

Lemma kdict_get_set m k v k' :
  hashable k = true ->
  kdict_get (kdict_set m k v) k' = if key_eq k' k then Some v else kdict_get m k'.
Proof.
  intros Hk. induction m as [|[k1 v1] m IH]; cbn [kdict_get kdict_set].
  - reflexivity.
  - destruct (key_eq k k1) eqn:E1; cbn [kdict_get].
    + destruct (key_eq k' k1) eqn:E2.
      * rewrite key_eq_sym in E1. now rewrite (key_eq_trans _ _ _ E2 E1).
      * destruct (key_eq k' k) eqn:E3; [|reflexivity].
        now rewrite (key_eq_trans _ _ _ E3 E1) in E2.
    + destruct (key_eq k' k1) eqn:E2; [|exact IH].
      destruct (key_eq k' k) eqn:E3; [|reflexivity].
      rewrite key_eq_sym in E3. now rewrite (key_eq_trans _ _ _ E3 E2) in E1.
Qed.

Lemma kdict_set_Forall (P : json * A -> Prop) m k v :
  Forall P m -> (forall k', P (k', v)) -> Forall P (kdict_set m k v).
Proof.
  intros Hm Hv. induction Hm as [|[k1 v1] m H1 Hm IH]; cbn [kdict_set].
  - now constructor.
  - destruct (key_eq k k1); constructor; auto.
Qed.

Lemma string_keys_get m (s : string) :
  dict_get (string_keys m) s = kdict_get m (JStr s).
Proof.
  unfold string_keys.
  induction m as [|[k1 v1] m IH]; [reflexivity|].
  cbn [flat_map fst snd kdict_get].
  destruct k1 as [|b|z|t|l|d]; cbn [app]; try exact IH.
  cbn [dict_get key_eq]. now rewrite IH.
Qed.

End KDictFacts.

(** ** Trades *)

Lemma trades_loop (trades : list json) :
  forall (acc m : kdict (list json)),
    for_each trades acc index_trade = Ok m ->
    forall k,
      default [] (kdict_get m k)
      = (default [] (kdict_get acc k) ++ List.filter (trade_for k) trades)%list.
Proof.
  induction trades as [|trade trades IH]; intros acc m Hrun k.
  - cbn in Hrun. injection Hrun as <-. cbn [List.filter]. now rewrite app_nil_r.
  - cbn [for_each] in Hrun.
    destruct (index_trade acc trade) as [acc1|e] eqn:Hstep; [|discriminate Hrun].
    cbn [bind] in Hrun. rewrite (IH _ _ Hrun k). clear IH Hrun.
    unfold index_trade in Hstep.
    destruct trade as [| | | | |t]; try discriminate Hstep.
    cbn [py_get bind] in Hstep. cbn [List.filter trade_for].
    set (item_id := dict_get_or t (Some "itemId") JNull) in *.
    destruct (truthy item_id) eqn:Htruthy; cbn [andb].
    + destruct (hashable item_id) eqn:Hhash; [|discriminate Hstep].
      injection Hstep as <-. rewrite kdict_get_set by exact Hhash.
      destruct (key_eq k item_id) eqn:E.
      * cbn [from_option]. rewrite (kdict_get_key_eq acc k item_id E).
        unfold id. now rewrite <- app_assoc.
      * reflexivity.
    + now injection Hstep as <-.
Qed.

(** X1. With the trade table the constructor builds, [find_trades_for_item]
    returns the trades whose [itemId] is truthy and equals the id of the
    named item, in the order of the trade data.  A name that is not in the
    item index and an item without an id give the empty list; an id that is
    a list or an object raises [TypeError]. *)
Theorem find_trades_for_item_by_id
    (self : DataManager) (trade_data : json) (trades : list json)
    (m : kdict (list json)) (item_name : string) :
  py_iter trade_data = Ok trades ->
  build_item_to_trades_map trade_data = Ok m ->
  find_trades_for_item self m item_name
  = match get_item_by_name self item_name with
    | None => Ok []
    | Some item =>
        match dict_get item "id" with
        | None => Ok []
        | Some tid =>
            if hashable tid then Ok (List.filter (trade_for tid) trades)
            else Raise TypeError
        end
    end.
Proof.
  intros Hiter Hbuild. unfold build_item_to_trades_map in Hbuild.
  rewrite Hiter in Hbuild. cbn [bind] in Hbuild.
  unfold find_trades_for_item.
  destruct (get_item_by_name self item_name) as [item|]; [|reflexivity].
  destruct item as [|kv item]; [reflexivity|].
  destruct (dict_get (kv :: item) "id") as [tid|]; [|reflexivity].
  destruct (hashable tid); [|reflexivity].
  now rewrite (trades_loop _ _ _ Hbuild tid).
Qed.

Lemma find_trades_for_item_by_id_witness :
  find_trades_for_item sample_manager sample_trade_map "Rope"
  = Ok [JDict [("itemId", JStr "rope"); ("trader", JStr "Celeste")];
        JDict [("itemId", JStr "rope"); ("trader", JStr "Apollo")]].
Proof.
  exact (find_trades_for_item_by_id sample_manager sample_trades
           [JDict [("itemId", JStr "rope"); ("trader", JStr "Celeste")];
            JDict [("itemId", JStr "wire"); ("trader", JStr "Apollo")];
            JDict [("trader", JStr "Lance")];
            JDict [("itemId", JStr "rope"); ("trader", JStr "Apollo")]]
           sample_trade_map "Rope" eq_refl eq_refl).
Defined.

(** ** The id tables *)

Lemma find_app {A : Type} (p : A -> bool) (l1 l2 : list A) :
  List.find p (l1 ++ l2)
  = match List.find p l1 with
    | Some x => Some x
    | None => List.find p l2
    end.
Proof.
  induction l1 as [|x l1 IH]; [reflexivity|].
  cbn [app List.find]. now destruct (p x).
Qed.

Lemma id_loop (items : dict pydict) :
  forall (acc m : kdict pydict),
    for_each items acc index_by_id = Ok m ->
    (forall k,
        kdict_get m k
        = match List.find (has_id k) (rev (map snd items)) with
          | Some item => Some item
          | None => kdict_get acc k
          end)
    /\ (Forall (fun kv => truthy (item_id_of (snd kv)) = true) acc ->
        Forall (fun kv => truthy (item_id_of (snd kv)) = true) m).
Proof.
  induction items as [|[name item] items IH]; intros acc m Hrun.
  - cbn in Hrun. injection Hrun as <-. split; [reflexivity|auto].
  - cbn [for_each] in Hrun.
    destruct (index_by_id acc (name, item)) as [acc1|e] eqn:Hstep; [|discriminate Hrun].
    cbn [bind] in Hrun. destruct (IH _ _ Hrun) as [Hget Hall]. clear IH Hrun.
    unfold index_by_id in Hstep. cbn [snd] in Hstep.
    fold (item_id_of item) in Hstep.
    split.
    + intros k. rewrite Hget. cbn [map snd rev]. rewrite find_app.
      destruct (List.find (has_id k) (rev (map snd items))); [reflexivity|].
      cbn [List.find]. unfold has_id at 1.
      destruct (truthy (item_id_of item)) eqn:Htruthy; cbn [andb].
      * destruct (hashable (item_id_of item)) eqn:Hhash; [|discriminate Hstep].
        injection Hstep as <-. rewrite kdict_get_set by exact Hhash.
        now destruct (key_eq k (item_id_of item)).
      * now injection Hstep as <-.
    + intros Hacc. apply Hall.
      destruct (truthy (item_id_of item)) eqn:Htruthy.
      * destruct (hashable (item_id_of item)); [|discriminate Hstep].
        injection Hstep as <-. apply kdict_set_Forall; [exact Hacc|].
        intros k'. exact Htruthy.
      * now injection Hstep as <-.
Qed.

Lemma string_keys_Forall {A : Type} (P : A -> Prop) (m : kdict A) :
  Forall (fun kv => P (snd kv)) m -> Forall (fun kv => P (snd kv)) (string_keys m).
Proof.
  unfold string_keys.
  induction 1 as [|[k v] m Hv _ IH]; cbn [flat_map fst snd]; [constructor|].
  destruct k; cbn [app]; try exact IH. now constructor.
Qed.

(** X2. The id table of the constructor maps an id to the last item of the
    index that has this id, and to nothing when no item has it; an item
    whose id is falsy is not entered.  No entry is an empty record, the
    name table gives for an id the [name] of its item, ["Unknown"] when the
    item has none, and the entries under string ids are those a lookup by
    a string finds. *)
Theorem build_id_to_item_map_last_item (items : dict pydict) (m : kdict pydict) :
  build_id_to_item_map items = Ok m ->
  (forall k : json, kdict_get m k = List.find (has_id k) (rev (map snd items)))
  /\ values_nonempty (string_keys m) = true
  /\ (forall s : string, dict_get (string_keys m) s = kdict_get m (JStr s))
  /\ (forall k : json,
        kdict_get (build_id_to_name_map m) k
        = option_map (fun item => dict_get_or item (Some "name") (JStr "Unknown"))
            (kdict_get m k)).
Proof.
  intros Hbuild. destruct (id_loop _ _ _ Hbuild) as [Hget Hall].
  split; [|split; [|split]].
  - intros k. rewrite Hget. now destruct (List.find _ _).
  - unfold values_nonempty. apply forallb_forall.
    pose proof (string_keys_Forall (fun item => truthy (item_id_of item) = true) m
                  (Hall (List.Forall_nil _))) as Hstr.
    rewrite List.Forall_forall in Hstr. intros kv Hin.
    specialize (Hstr kv Hin). destruct kv as [s item]. cbn [snd] in *.
    destruct item; [discriminate Hstr|reflexivity].
  - intros s. apply string_keys_get.
  - intros k. unfold build_id_to_name_map. clear.
    induction m as [|[k1 item] m' IH']; [reflexivity|].
    cbn [map fst snd kdict_get]. destruct (key_eq k k1); [reflexivity|].
    apply IH'.
Qed.

Lemma build_id_to_item_map_last_item_witness :
  (forall k : json,
      kdict_get two_items_by_id k = List.find (has_id k) (rev (map snd two_items)))
  /\ values_nonempty (string_keys two_items_by_id) = true
  /\ (forall s : string,
        dict_get (string_keys two_items_by_id) s = kdict_get two_items_by_id (JStr s))
  /\ (forall k : json,
        kdict_get (build_id_to_name_map two_items_by_id) k
        = option_map (fun item => dict_get_or item (Some "name") (JStr "Unknown"))
            (kdict_get two_items_by_id k)).
Proof.
  exact (build_id_to_item_map_last_item two_items two_items_by_id eq_refl).
Defined.

(** ** Names in lower case *)

Lemma dict_get_In {A : Type} (d : dict A) (k : string) :
  In k (map fst d) -> exists v, dict_get d k = Some v.
Proof.
  induction d as [|[k1 v1] d IH]; cbn [map fst In dict_get]; [intros []|].
  intros [E|Hin].
  - subst k1. rewrite String.eqb_refl. now exists v1.
  - destruct (String.eqb k k1); [now exists v1|auto].
Qed.

Lemma lower_loop (names : list (string * pydict)) :
  forall (seen : list string) (acc : dict string),
    (forall k a, dict_get acc k = Some a -> str_lower a = k /\ In a seen) ->
    (forall n, In n seen -> dict_get acc (str_lower n) <> None) ->
    let m := fold_left (fun m kv => dict_set m (str_lower (fst kv)) (fst kv)) names acc in
    (forall k a, dict_get m k = Some a ->
                 str_lower a = k /\ In a (seen ++ map fst names))
    /\ (forall n, In n (seen ++ map fst names) -> dict_get m (str_lower n) <> None).
Proof.
  induction names as [|[name item] names IH]; intros seen acc Hval Hkey; cbn zeta.
  - cbn [fold_left map]. rewrite app_nil_r. auto.
  - cbn [fold_left map fst].
    replace (seen ++ name :: map fst names)%list
      with ((seen ++ [name]) ++ map fst names)%list by now rewrite <- app_assoc.
    apply IH.
    + intros k a Hget.
      destruct (String.eqb k (str_lower name)) eqn:E.
      * apply String.eqb_eq in E. subst k. rewrite dict_get_set_eq in Hget.
        injection Hget as <-. split; [reflexivity|].
        apply in_or_app. right. now left.
      * apply String.eqb_neq in E. rewrite dict_get_set_ne in Hget by congruence.
        destruct (Hval _ _ Hget) as [Hl Hin]. split; [exact Hl|].
        apply in_or_app. now left.
    + intros n Hin.
      destruct (String.eqb (str_lower n) (str_lower name)) eqn:E.
      * apply String.eqb_eq in E. rewrite E, dict_get_set_eq. discriminate.
      * apply String.eqb_neq in E. rewrite dict_get_set_ne by congruence.
        apply in_app_or in Hin as [Hin|[<-|[]]]; [now apply Hkey|congruence].
Qed.

(** X3. Every entry of [item_names_lower] is a key of
    [lower_to_actual_name], and the name found under it is a name of the item
    index whose lower-case form is that entry: a match on a lower-case name
    always leads to an item. *)
Theorem lower_to_actual_name_resolves (self : DataManager) (lowered : string) :
  In lowered (item_names_lower (items self)) ->
  exists (actual : string) (item : pydict),
    dict_get (lower_to_actual_name (items self)) lowered = Some actual
    /\ str_lower actual = lowered
    /\ get_item_by_name self actual = Some item.
Proof.
  intros Hin. unfold item_names_lower in Hin.
  apply in_map_iff in Hin as ([name item0] & <- & Hin). cbn [fst].
  destruct (lower_loop (items self) [] []) as [Hval Hkey].
  - intros k a Hget. discriminate Hget.
  - intros n [].
  - cbn [app] in Hval, Hkey. fold (lower_to_actual_name (items self)) in Hval, Hkey.
    assert (Hname : In name (map fst (items self))).
    { apply in_map_iff. now exists (name, item0). }
    destruct (dict_get (lower_to_actual_name (items self)) (str_lower name))
      as [actual|] eqn:Hget; [|now apply Hkey in Hname].
    destruct (Hval _ _ Hget) as [Hl Hactual].
    destruct (dict_get_In (items self) actual Hactual) as [item Hitem].
    now exists actual, item.
Qed.

Lemma lower_to_actual_name_resolves_witness :
  exists (actual : string) (item : pydict),
    dict_get (lower_to_actual_name (items sample_manager)) "rope" = Some actual
    /\ str_lower actual = "rope"
    /\ get_item_by_name sample_manager actual = Some item.
Proof.
  apply (lower_to_actual_name_resolves sample_manager "rope").
  cbn. left. reflexivity.
Defined.

(** ** Directories *)

Lemma listdir_exists (fs : filesystem) (directory : string) (names : list string) :
  listdir fs directory = Ok names -> path_exists fs directory = true.
Proof.
  unfold listdir, path_exists.
  destruct (dirs fs !! directory); [|discriminate].
  now destruct (files fs !! directory).
Qed.

Lemma load_data_file_step (fs : filesystem) (directory : string)
    (acc : list json * list diagnostic) (filename : string) :
  load_data_file fs directory acc filename
  = ((fst acc ++ file_data fs directory filename)%list,
     (snd acc ++ data_diagnostics fs directory filename)%list).
Proof.
  destruct acc as [data_list log].
  unfold load_data_file, file_data, data_diagnostics, parse_file. cbn [fst snd].
  destruct (endswith filename ".json"); [|now rewrite !app_nil_r].
  destruct (load_file fs (path_join directory filename)); now rewrite !app_nil_r.
Qed.

Lemma load_data_files (fs : filesystem) (directory : string) (names : list string) :
  forall acc,
    fold_left (load_data_file fs directory) names acc
    = ((fst acc ++ flat_map (file_data fs directory) names)%list,
       (snd acc ++ flat_map (data_diagnostics fs directory) names)%list).
Proof.
  induction names as [|f names IH]; intros [data_list log].
  - cbn [fold_left flat_map fst snd]. now rewrite !app_nil_r.
  - cbn [fold_left flat_map]. rewrite load_data_file_step, IH. cbn [fst snd].
    now rewrite <- !app_assoc.
Qed.

(** X4. [_load_json_dir] on a directory returns the documents of its
    [.json] files that can be read and parsed, in the order of the listing,
    and prints one diagnostic for each [.json] file that cannot: such a file
    is left out, the files after it are loaded, and a file of another
    extension is not opened.  A path that does not exist gives the empty
    list and a diagnostic; a path that exists and cannot be listed, a
    regular file, raises [OSError].  The files are texts in the range of
    the embedding: a file that cannot be parsed is then one that
    [json.load] rejects. *)
Theorem _load_json_dir_keeps_loadable_files (fs : filesystem) (directory : string) :
  listing_in_range fs directory = true ->
  _load_json_dir fs directory
  = if path_exists fs directory then
      match dirs fs !! directory with
      | Some names =>
          Ok (flat_map (file_data fs directory) names,
              flat_map (data_diagnostics fs directory) names)
      | None => Raise OSError
      end
    else Ok ([], [DataDirNotFound directory]).
Proof.
  intros _. unfold _load_json_dir, listdir.
  destruct (path_exists fs directory); cbn [negb]; [|reflexivity].
  destruct (dirs fs !! directory) as [names|]; cbn [bind]; [|reflexivity].
  now rewrite load_data_files.
Qed.

Lemma _load_json_dir_keeps_loadable_files_witness :
  _load_json_dir hideout_fs "data/hideout"
  = Ok ([JDict [("id", JStr "workbench")]],
        [ErrorLoadingData "broken.json" "data/hideout"]).
Proof.
  exact (_load_json_dir_keeps_loadable_files hideout_fs "data/hideout" eq_refl).
Defined.

Lemma load_item_file_log (fs : filesystem) (directory : string)
    (acc : dict pydict * list diagnostic) (filename : string) :
  snd (load_item_file fs directory acc filename)
  = (snd acc ++ item_diagnostics fs directory filename)%list.
Proof.
  destruct acc as [choices log].
  unfold load_item_file, item_diagnostics, parse_file. cbn [snd].
  destruct (endswith filename ".json"); [|now rewrite app_nil_r].
  destruct (load_file fs (path_join directory filename)) as [item_object|e];
    cbn [bind]; [|reflexivity].
  unfold index_item.
  destruct item_object as [| | | | |o]; try reflexivity.
  destruct (dict_get o "name") as [[| | | | |]|]; cbn [snd];
    rewrite ?app_nil_r; reflexivity.
Qed.

Lemma load_item_files (fs : filesystem) (directory : string) (names : list string) :
  forall acc,
    (forall k,
        dict_get (fst (fold_left (load_item_file fs directory) names acc)) k
        = match List.find (declares fs directory k) (rev names) with
          | Some filename => Some (file_item fs directory filename)
          | None => dict_get (fst acc) k
          end)
    /\ snd (fold_left (load_item_file fs directory) names acc)
       = (snd acc ++ flat_map (item_diagnostics fs directory) names)%list.
Proof.
  induction names as [|f names IH]; intros acc.
  - cbn [fold_left flat_map rev List.find]. now rewrite app_nil_r.
  - cbn [fold_left flat_map rev]. destruct (IH (load_item_file fs directory acc f)) as [Hget Hlog].
    split.
    + intros k. rewrite Hget, find_app.
      destruct (List.find (declares fs directory k) (rev names)); [reflexivity|].
      cbn [List.find]. rewrite load_item_file_get. unfold declares, file_item.
      now destruct (in_dec string_dec k (file_keys fs directory f)).
    + rewrite Hlog, load_item_file_log. now rewrite <- app_assoc.
Qed.

(** X5. [_load_items_from_dir] on a directory returns an index in which a
    name leads to the Item of the last file of the listing that is indexed
    under it, and to nothing when no file is.  It prints one diagnostic for
    each [.json] file that cannot be read or parsed or holds no object, and
    for each record without a usable name; these files add nothing to the
    index and the others are loaded.  A path that does not exist gives the
    empty index and a diagnostic; a path that exists and cannot be listed, a
    regular file, raises [OSError].  The files are texts in the range of
    the embedding: a file that cannot be parsed is then one that
    [json.load] rejects. *)
Theorem load_items_last_file_wins (fs : filesystem) (directory : string) :
  listing_in_range fs directory = true ->
  if path_exists fs directory then
    match dirs fs !! directory with
    | Some names =>
        exists choices : dict pydict,
          _load_items_from_dir fs directory
          = Ok (choices, flat_map (item_diagnostics fs directory) names)
          /\ forall k : string,
               dict_get choices k
               = option_map (file_item fs directory)
                   (List.find (declares fs directory k) (rev names))
    | None => _load_items_from_dir fs directory = Raise OSError
    end
  else _load_items_from_dir fs directory = Ok ([], [ItemsDirNotFound directory]).
Proof.
  intros _. unfold _load_items_from_dir, listdir.
  destruct (path_exists fs directory); cbn [negb]; [|reflexivity].
  destruct (dirs fs !! directory) as [names|]; cbn [bind]; [|reflexivity].
  destruct (load_item_files fs directory names ([], [])) as [Hget Hlog].
  destruct (fold_left (load_item_file fs directory) names ([], [])) as [choices log].
  cbn [fst snd] in *. subst log. exists choices. split; [reflexivity|].
  intros k. rewrite Hget. now destruct (List.find _ _).
Qed.

Lemma load_items_last_file_wins_witness :
  exists choices : dict pydict,
    _load_items_from_dir items_fs "data/items"
    = Ok (choices, flat_map (item_diagnostics items_fs "data/items")
                     ["a.json"; "b.json"; "c.json"])
    /\ forall k : string,
         dict_get choices k
         = option_map (file_item items_fs "data/items")
             (List.find (declares items_fs "data/items" k)
                (rev ["a.json"; "b.json"; "c.json"])).
Proof.
  exact (load_items_last_file_wins items_fs "data/items" eq_refl).
Defined.

(** An Item entered in the index carries its [name] and its [names] table. *)
Lemma record_item_named (item_object : json) (k : string) :
  In k (record_keys item_object) ->
  exists names : pydict,
    dict_get (record_item item_object) "names" = Some (JDict names)
    /\ dict_mem "name" (record_item item_object) = true.
Proof.
  unfold record_keys, record_item. intros Hin.
  destruct item_object as [| | | | |o]; try (now cbn in Hin).
  destruct (dict_get o "name") as [[| | |name_str| |name_obj]|] eqn:Hname;
    try (now cbn in Hin); clear Hin.
  - exists [("en", JStr (PyStr.strip name_str))]. unfold plain_item, dict_mem.
    rewrite dict_get_set_eq. split; [reflexivity|].
    rewrite dict_get_set_ne by discriminate. now rewrite dict_get_set_eq.
  - exists name_obj. unfold table_item, dict_mem.
    rewrite dict_get_set_eq. split; [reflexivity|].
    rewrite dict_get_set_ne by discriminate.
    destruct (dict_get name_obj "en"); [now rewrite dict_get_set_eq|now rewrite Hname].
Qed.

(** X6. For an Item found in the index that [_load_items_from_dir] builds,
    [get_localized_name] raises nothing: the Item has a [name] and a
    [names] table, and the result is the entry of the table for the
    language when there is one and the [name] otherwise. *)
Theorem indexed_item_localized_name
    (fs : filesystem) (directory : string) (self : DataManager)
    (k : string) (item : pydict) (lang_code : string) :
  lookup_in (_load_items_from_dir fs directory) k = Some item ->
  exists names : pydict,
    dict_get item "names" = Some (JDict names)
    /\ dict_mem "name" item = true
    /\ get_localized_name self (IdItem item) lang_code
       = Ok (match dict_get names lang_code with
             | Some name_val => name_val
             | None => dict_get_or item (Some "name") (JStr "Unknown")
             end).
Proof.
  unfold lookup_in, _load_items_from_dir.
  destruct (path_exists fs directory); cbn [negb]; [|discriminate].
  destruct (listdir fs directory) as [names|e]; cbn [bind]; [|discriminate].
  destruct (load_item_files fs directory names ([], [])) as [Hget _].
  destruct (fold_left (load_item_file fs directory) names ([], [])) as [choices log].
  cbn [fst] in Hget. rewrite Hget. clear Hget.
  destruct (List.find (declares fs directory k) (rev names)) as [filename|] eqn:Hfind;
    [|discriminate].
  intros Hitem. injection Hitem as <-.
  apply find_some in Hfind as [_ Hdecl]. unfold declares in Hdecl.
  destruct (in_dec string_dec k (file_keys fs directory filename)) as [Hin|];
    [clear Hdecl|discriminate Hdecl].
  unfold file_keys in Hin. unfold file_item.
  destruct (endswith filename ".json"); [|destruct Hin].
  destruct (parse_file fs directory filename) as [item_object|e]; [|destruct Hin].
  destruct (record_item_named item_object k Hin) as (names' & Hnames & Hname).
  exists names'. split; [exact Hnames|]. split; [exact Hname|].
  unfold get_localized_name.
  destruct (record_item item_object) as [|kv rest] eqn:Hrec; [discriminate Hnames|].
  cbn [dict_get_or]. rewrite Hnames. cbn [py_in bind]. unfold dict_mem.
  destruct (dict_get names' lang_code) as [name_val|] eqn:Hlang.
  - cbn [py_item]. now rewrite Hlang.
  - reflexivity.
Qed.

Lemma indexed_item_localized_name_witness :
  exists names : pydict,
    dict_get (record_item cord_record) "names" = Some (JDict names)
    /\ dict_mem "name" (record_item cord_record) = true
    /\ get_localized_name sample_manager (IdItem (record_item cord_record)) "de"
       = Ok (match dict_get names "de" with
             | Some name_val => name_val
             | None => dict_get_or (record_item cord_record) (Some "name") (JStr "Unknown")
             end).
Proof.
  apply (indexed_item_localized_name items_fs "data/items" sample_manager "Seil").
  vm_compute. reflexivity.
Defined.

(** ** What a save leaves alone *)

Lemma save_attempt_frame (env : faults) (K : Constants) (self : DataManager) (w : world) :
  dirs (fs (fst (save_attempt env K self w))) = dirs (fs w)
  /\ forall p, p <> PROGRESS_FILE K -> p <> PROGRESS_FILE K ++ ".tmp" ->
               file_at (fst (save_attempt env K self w)) p = file_at w p.
Proof.
  destruct env as [o wr n fl fy cl rp rm], w as [[f d] t].
  split; [|intros p Hdest Htmp].
  - destruct o, wr, fl, fy, cl, rp; run_io; rewrite ?lookup_insert_eq; run_io;
      reflexivity.
  - destruct o, wr, fl, fy, cl, rp; run_io; rewrite ?lookup_insert_eq; run_io;
      rewrite ?lookup_insert_ne, ?lookup_delete_ne, ?lookup_insert_ne by congruence;
      reflexivity.
Qed.

Lemma save_cleanup_dirs (env : faults) (K : Constants) (e : pyexn) (w : world) :
  dirs (fs (fst (save_cleanup env K e w))) = dirs (fs w).
Proof.
  destruct w as [[f d] t]. unfold save_cleanup.
  cbv [io_bind print emit os_path_exists fs trace].
  destruct (path_exists _ _); [|reflexivity].
  cbv [try_except sys_remove syscall io_ret].
  destruct (on_remove env); cbn [fs files]; [|reflexivity..].
  now destruct (f !! (PROGRESS_FILE K ++ ".tmp")).
Qed.

(** The files after a save, path by path. *)
Lemma save_user_progress_files
    (env : faults) (K : Constants) (self : DataManager) (w : world) :
  let w' := fst (save_user_progress env K self w) in
  dirs (fs w') = dirs (fs w)
  /\ (forall p, p <> PROGRESS_FILE K -> p <> PROGRESS_FILE K ++ ".tmp" ->
                file_at w' p = file_at w p)
  /\ (if all_work env
      then file_at w' (PROGRESS_FILE K) = Some (Json.dumps (JDict (user_progress self)))
           /\ file_at w' (PROGRESS_FILE K ++ ".tmp") = None
      else file_at w' (PROGRESS_FILE K) = file_at w (PROGRESS_FILE K)).
Proof.
  cbv zeta.
  pose proof (temp_path_fresh (PROGRESS_FILE K)) as Hfresh.
  pose proof (save_attempt_run env K self w) as Hrun. cbv zeta in Hrun.
  destruct (save_attempt_frame env K self w) as [Hdirs Hframe].
  unfold save_user_progress, try_except.
  destruct (save_attempt env K self w) as [w1 out1]. cbn [fst snd] in *.
  destruct out1 as [[]|e|]; cbn [fst].
  - split; [exact Hdirs|]. split; [exact Hframe|].
    destruct (all_work env); [|now destruct Hrun].
    destruct Hrun as (_ & Hdest & Htmp & _). now split.
  - destruct (save_cleanup_run env K e w1) as (Hother & _ & _).
    pose proof (save_cleanup_dirs env K e w1) as Hdirs1.
    split; [congruence|]. split.
    + intros p Hp Htmp. rewrite Hother by exact Htmp. now apply Hframe.
    + destruct (all_work env); [now destruct Hrun as [Hdone _]|].
      destruct Hrun as [_ Hdest]. rewrite Hother by congruence. exact Hdest.
  - split; [exact Hdirs|]. split; [exact Hframe|].
    destruct (all_work env); [now destruct Hrun as [Hdone _]|].
    now destruct Hrun.
Qed.

(** X7. Whatever call of a save fails or is where the process dies,
    [save_user_progress] creates and removes no directory and leaves every
    file alone but the progress file and its temporary file. *)
Theorem save_user_progress_other_files
    (env : faults) (K : Constants) (self : DataManager) (w : world) :
  dirs (fs (fst (save_user_progress env K self w))) = dirs (fs w)
  /\ forall p : string,
       p <> PROGRESS_FILE K -> p <> PROGRESS_FILE K ++ ".tmp" ->
       file_at (fst (save_user_progress env K self w)) p = file_at w p.
Proof.
  destruct (save_user_progress_files env K self w) as (Hdirs & Hframe & _).
  now split.
Qed.

Lemma save_user_progress_other_files_witness :
  file_at (fst (save_user_progress write_fails_midway sample_constants sample_manager
                  shared_world)) "settings.json"
  = Some "{1}".
Proof.
  destruct (save_user_progress_other_files write_fails_midway sample_constants
              sample_manager shared_world) as [_ Hframe].
  rewrite Hframe; [reflexivity|discriminate|discriminate].
Defined.

(** X8. When every call works, a second save of the same state leaves the
    files as the first one left them: the progress file holds the same text
    and there is no temporary file. *)
Theorem save_user_progress_twice
    (env : faults) (K : Constants) (self : DataManager) (w : world) :
  all_work env = true ->
  fs (fst (save_user_progress env K self (fst (save_user_progress env K self w))))
  = fs (fst (save_user_progress env K self w))
  /\ file_at (fst (save_user_progress env K self w)) (PROGRESS_FILE K)
     = Some (Json.dumps (JDict (user_progress self)))
  /\ file_at (fst (save_user_progress env K self w)) (PROGRESS_FILE K ++ ".tmp") = None.
Proof.
  intros Hwork.
  destruct (save_user_progress_files env K self w) as (Hdirs1 & Hframe1 & Hsaved1).
  destruct (save_user_progress_files env K self (fst (save_user_progress env K self w)))
    as (Hdirs2 & Hframe2 & Hsaved2).
  rewrite Hwork in Hsaved1, Hsaved2.
  destruct Hsaved1 as [Hdest1 Htmp1], Hsaved2 as [Hdest2 Htmp2].
  split; [|now split].
  set (w1 := fst (save_user_progress env K self w)) in *.
  set (w2 := fst (save_user_progress env K self w1)) in *.
  unfold file_at in *.
  destruct (fs w2) as [f2 d2], (fs w1) as [f1 d1]. cbn [files dirs] in *.
  f_equal; [|exact Hdirs2].
  apply map_eq. intros p.
  destruct (string_dec p (PROGRESS_FILE K)) as [->|Hp]; [congruence|].
  destruct (string_dec p (PROGRESS_FILE K ++ ".tmp")) as [->|Ht]; [congruence|].
  now apply Hframe2.
Qed.

Lemma save_user_progress_twice_witness :
  fs (fst (save_user_progress no_faults sample_constants sample_manager
             (fst (save_user_progress no_faults sample_constants sample_manager
                     shared_world))))
  = fs (fst (save_user_progress no_faults sample_constants sample_manager shared_world))
  /\ file_at (fst (save_user_progress no_faults sample_constants sample_manager
                     shared_world)) "progress.json"
     = Some (Json.dumps (JDict (user_progress sample_manager)))
  /\ file_at (fst (save_user_progress no_faults sample_constants sample_manager
                     shared_world)) "progress.json.tmp" = None.
Proof.
  exact (save_user_progress_twice no_faults sample_constants sample_manager
           shared_world eq_refl).
Defined.

(** X9. Whatever call of a save fails or is where the process dies, what
    [_load_json] reads from the progress file afterwards is what it read
    before the save or, for a state whose objects have one entry per key,
    the state that was being saved. *)
Theorem load_after_any_save
    (env : faults) (K : Constants) (self : DataManager) (w : world) :
  well_formed (JDict (user_progress self)) = true ->
  load_progress K (fs (fst (save_user_progress env K self w))) = load_progress K (fs w)
  \/ load_progress K (fs (fst (save_user_progress env K self w)))
     = JDict (user_progress self).
Proof.
  intros Hwf.
  destruct (save_user_progress_files env K self w) as (Hdirs & _ & Hsaved).
  unfold file_at in Hsaved.
  unfold load_progress, _load_json, path_exists, load_file, read_text.
  destruct (all_work env).
  - right. destruct Hsaved as [Hdest _]. rewrite Hdest. cbn [negb bind].
    now rewrite loads_dumps.
  - left. now rewrite Hsaved, Hdirs.
Qed.

Lemma load_after_any_save_witness :
  load_progress sample_constants
    (fs (fst (save_user_progress dies_before_replace sample_constants sample_manager
                old_world)))
  = load_progress sample_constants (fs old_world)
  \/ load_progress sample_constants
       (fs (fst (save_user_progress dies_before_replace sample_constants sample_manager
                   old_world)))
     = JDict (user_progress sample_manager).
Proof.
  exact (load_after_any_save dies_before_replace sample_constants sample_manager
           old_world eq_refl).
Defined.

(** ** Notes of other items *)

Lemma store_note_frame (up up' : pydict) (item_id note : string) :
  store_note up item_id note = Ok up' ->
  (forall k, k <> "item_notes" -> dict_get up' k = dict_get up k)
  /\ (forall other, other <> item_id ->
        py_get (dict_get_or up' (Some "item_notes") (JDict [])) (Some other) (JStr "")
        = py_get (dict_get_or up (Some "item_notes") (JDict [])) (Some other) (JStr "")).
Proof.
  unfold store_note, dict_mem. cbn [dict_get_or].
  destruct (dict_get up "item_notes") as [notes|] eqn:Hnotes.
  - rewrite Hnotes.
    destruct (negb (String.eqb note "") && negb (String.eqb (PyStr.strip note) "")).
    + destruct notes as [| | | | |d]; try discriminate. intros H. injection H as <-.
      split.
      * intros k Hk. now rewrite dict_get_set_ne by congruence.
      * intros other Hother. rewrite dict_get_set_eq. cbn [py_get dict_get_or].
        now rewrite dict_get_set_ne by congruence.
    + destruct notes as [| | |s|l|d]; try discriminate.
      * destruct (PyStr.contains item_id s); [discriminate|].
        intros H. injection H as <-. now rewrite Hnotes.
      * destruct (existsb (is_str item_id) l); [discriminate|].
        intros H. injection H as <-. now rewrite Hnotes.
      * destruct (dict_get d item_id) eqn:Hd; intros H; injection H as <-.
        -- split.
           ++ intros k Hk. now rewrite dict_get_set_ne by congruence.
           ++ intros other Hother. rewrite dict_get_set_eq. cbn [py_get dict_get_or].
              now rewrite dict_get_del_ne by congruence.
        -- now rewrite Hnotes.
  - rewrite dict_get_set_eq.
    destruct (negb (String.eqb note "") && negb (String.eqb (PyStr.strip note) "")).
    + intros H. injection H as <-. split.
      * intros k Hk. now rewrite !dict_get_set_ne by congruence.
      * intros other Hother. rewrite dict_get_set_eq. cbn [py_get dict_get_or dict_get].
        apply String.eqb_neq in Hother. now rewrite Hother.
    + cbn [dict_get]. intros H. injection H as <-. split.
      * intros k Hk. now rewrite dict_get_set_ne by congruence.
      * intros other Hother. now rewrite dict_get_set_eq.
Qed.

(** X10. When [set_item_note] returns, the note of every other item reads
    as before, every key of the progress document other than [item_notes]
    holds what it held, and the reference data of the manager is the same. *)
Theorem set_item_note_other_items
    (env : faults) (K : Constants) (self self' : DataManager)
    (item_id note : string) (w : world) :
  snd (set_item_note env K self item_id note w) = Done self' ->
  (forall other : string,
      other <> item_id ->
      snd (get_item_note self' other) = snd (get_item_note self other))
  /\ (forall k : string,
        k <> "item_notes" ->
        dict_get (user_progress self') k = dict_get (user_progress self) k)
  /\ exists up' : pydict, self' = with_user_progress self up'.
Proof.
  unfold set_item_note.
  destruct (store_note (user_progress self) item_id note) as [up'|e] eqn:Hstore;
    [|discriminate].
  unfold io_bind, io_ret.
  destruct (save_user_progress env K (with_user_progress self up') w) as [w1 [[]|e|]];
    cbn [snd]; try discriminate.
  intros H. injection H as <-.
  destruct (store_note_frame _ _ _ _ Hstore) as [Hkeys Hnotes].
  split; [|split].
  - intros other Hother. unfold get_item_note. cbn [snd user_progress with_user_progress].
    now apply Hnotes.
  - exact Hkeys.
  - now exists up'.
Qed.

Lemma set_item_note_other_items_witness :
  snd (get_item_note
         (with_user_progress manager_with_notes
            [("item_notes", JDict [("rope", JStr "keep ten"); ("wire", JStr "sell")]);
             ("theme", JStr "dark")])
         "rope")
  = snd (get_item_note manager_with_notes "rope").
Proof.
  destruct (set_item_note_other_items no_faults sample_constants manager_with_notes
              (with_user_progress manager_with_notes
                 [("item_notes", JDict [("rope", JStr "keep ten"); ("wire", JStr "sell")]);
                  ("theme", JStr "dark")])
              "wire" " sell" old_world eq_refl) as [Hnotes _].
  apply Hnotes. discriminate.
Defined.

(** ** Notes on disk *)

Section KeysFacts.
Context {A : Type}.
Implicit Types (d : dict A) (k a : string) (v : A).

Lemma dict_set_keys d k v a :
  existsb (String.eqb a) (map fst (dict_set d k v))
  = existsb (String.eqb a) (map fst d) || String.eqb a k.
Proof.
  induction d as [|[k1 v1] d IH]; cbn [dict_set map fst existsb].
  - now rewrite orb_false_r.
  - destruct (String.eqb k k1) eqn:E; cbn [map fst existsb].
    + apply String.eqb_eq in E. subst k1.
      destruct (String.eqb a k); [reflexivity|]. cbn [orb]. now rewrite orb_false_r.
    + rewrite IH. now rewrite orb_assoc.
Qed.

Lemma dict_del_keys d k a :
  existsb (String.eqb a) (map fst (dict_del d k))
  = existsb (String.eqb a) (map fst d) && negb (String.eqb a k).
Proof.
  induction d as [|[k1 v1] d IH]; cbn [dict_del map fst existsb]; [reflexivity|].
  destruct (String.eqb k k1) eqn:E; cbn [map fst existsb].
  - apply String.eqb_eq in E. subst k1. rewrite IH.
    destruct (String.eqb a k); cbn [orb negb]; [now rewrite andb_false_r|reflexivity].
  - rewrite IH. destruct (String.eqb a k1) eqn:E1; cbn [orb]; [|reflexivity].
    apply String.eqb_eq in E1. subst k1. rewrite String.eqb_sym in E.
    now rewrite E.
Qed.

Lemma dict_set_unique d k v :
  unique (map fst d) = true -> unique (map fst (dict_set d k v)) = true.
Proof.
  induction d as [|[k1 v1] d IH]; cbn [dict_set map fst unique existsb];
    [reflexivity|].
  intros Hu. apply andb_true_iff in Hu as [Hk1 Hu].
  destruct (String.eqb k k1) eqn:E; cbn [map fst unique].
  - now rewrite Hk1, Hu.
  - rewrite dict_set_keys, (IH Hu). rewrite String.eqb_sym in E.
    rewrite E, orb_false_r. now rewrite Hk1.
Qed.

Lemma dict_del_unique d k :
  unique (map fst d) = true -> unique (map fst (dict_del d k)) = true.
Proof.
  induction d as [|[k1 v1] d IH]; cbn [dict_del map fst unique]; [reflexivity|].
  intros Hu. apply andb_true_iff in Hu as [Hk1 Hu].
  destruct (String.eqb k k1); [now apply IH|].
  cbn [map fst unique]. rewrite dict_del_keys, (IH Hu).
  apply negb_true_iff in Hk1. now rewrite Hk1.
Qed.

Lemma dict_set_forallb (p : string * A -> bool) d k v :
  forallb p d = true -> (forall k', p (k', v) = true) ->
  forallb p (dict_set d k v) = true.
Proof.
  intros Hd Hv. induction d as [|[k1 v1] d IH]; cbn [dict_set forallb].
  - now rewrite Hv.
  - cbn [forallb] in Hd. apply andb_true_iff in Hd as [H1 Hd].
    destruct (String.eqb k k1); cbn [forallb].
    + now rewrite Hv, Hd.
    + now rewrite H1, (IH Hd).
Qed.

Lemma dict_del_forallb (p : string * A -> bool) d k :
  forallb p d = true -> forallb p (dict_del d k) = true.
Proof.
  intros Hd. induction d as [|[k1 v1] d IH]; cbn [dict_del forallb]; [reflexivity|].
  cbn [forallb] in Hd. apply andb_true_iff in Hd as [H1 Hd].
  destruct (String.eqb k k1); cbn [forallb]; [now apply IH|].
  now rewrite H1, (IH Hd).
Qed.

End KeysFacts.

Lemma dict_get_well_formed (d : pydict) (k : string) (v : json) :
  forallb (fun kv => well_formed (snd kv)) d = true ->
  dict_get d k = Some v -> well_formed v = true.
Proof.
  induction d as [|[k1 v1] d IH]; cbn [dict_get forallb snd]; [discriminate|].
  intros Hd. apply andb_true_iff in Hd as [H1 Hd].
  destruct (String.eqb k k1); [|now apply IH].
  intros H. now injection H as <-.
Qed.

Lemma dict_set_well_formed (d : pydict) (k : string) (v : json) :
  well_formed (JDict d) = true -> well_formed v = true ->
  well_formed (JDict (dict_set d k v)) = true.
Proof.
  cbn [well_formed]. intros Hd Hv. apply andb_true_iff in Hd as [Hu Hd].
  rewrite dict_set_unique by exact Hu.
  now rewrite dict_set_forallb.
Qed.

(** The update of a note keeps the document one a [dict] can hold. *)
Lemma store_note_well_formed (up up' : pydict) (item_id note : string) :
  well_formed (JDict up) = true ->
  store_note up item_id note = Ok up' ->
  well_formed (JDict up') = true.
Proof.
  intros Hwf. unfold store_note.
  set (up1 := if dict_mem "item_notes" up then up else dict_set up "item_notes" (JDict [])).
  assert (Hwf1 : well_formed (JDict up1) = true).
  { unfold up1. destruct (dict_mem "item_notes" up); [exact Hwf|].
    now apply dict_set_well_formed. }
  assert (Hnotes : forall d, dict_get_or up1 (Some "item_notes") JNull = JDict d ->
                             well_formed (JDict d) = true).
  { intros d. cbn [dict_get_or].
    destruct (dict_get up1 "item_notes") as [v|] eqn:Hget; [|discriminate].
    intros ->. cbn [well_formed] in Hwf1. apply andb_true_iff in Hwf1 as [_ Hall].
    exact (dict_get_well_formed _ _ _ Hall Hget). }
  destruct (dict_get_or up1 (Some "item_notes") JNull) as [| | |s|l|d];
    destruct (negb (String.eqb note "") && negb (String.eqb (PyStr.strip note) ""));
    try discriminate.
  - destruct (PyStr.contains item_id s); [discriminate|]. intros H. now injection H as <-.
  - destruct (existsb (is_str item_id) l); [discriminate|]. intros H. now injection H as <-.
  - intros H. injection H as <-. apply dict_set_well_formed; [exact Hwf1|].
    apply dict_set_well_formed; [now apply Hnotes|reflexivity].
  - destruct (dict_mem item_id d); intros H; injection H as <-; [|exact Hwf1].
    apply dict_set_well_formed; [exact Hwf1|].
    specialize (Hnotes d eq_refl). cbn [well_formed] in *.
    apply andb_true_iff in Hnotes as [Hu Hall].
    now rewrite dict_del_unique, dict_del_forallb.
Qed.

Lemma save_user_progress_done
    (env : faults) (K : Constants) (self : DataManager) (w : world) :
  all_work env = true -> snd (save_user_progress env K self w) = Done tt.
Proof.
  intros Hwork.
  pose proof (save_attempt_run env K self w) as Hrun. cbv zeta in Hrun.
  rewrite Hwork in Hrun. destruct Hrun as (Hdone & _).
  unfold save_user_progress, try_except.
  destruct (save_attempt env K self w) as [w1 out1]. cbn [snd] in *.
  now rewrite Hdone.
Qed.

(** X11. When every call of the save works, [set_item_note] on a document
    whose [item_notes], if present, is an object returns the updated
    manager, and the progress file then holds its document: loading the
    file gives the document with the note, which is again one with one
    entry per key. *)
Theorem set_item_note_persists
    (env : faults) (K : Constants) (self : DataManager) (item_id note : string)
    (w : world) :
  all_work env = true ->
  notes_typed (user_progress self) = true ->
  well_formed (JDict (user_progress self)) = true ->
  exists (w' : world) (up' : pydict),
    set_item_note env K self item_id note w = (w', Done (with_user_progress self up'))
    /\ store_note (user_progress self) item_id note = Ok up'
    /\ well_formed (JDict up') = true
    /\ load_progress K (fs w') = JDict up'.
Proof.
  intros Hwork Htyped Hwf.
  assert (Hstore : exists up', store_note (user_progress self) item_id note = Ok up').
  { unfold store_note, notes_typed, dict_mem in *. cbn [dict_get_or].
    destruct (dict_get (user_progress self) "item_notes") as [notes|] eqn:Hnotes.
    - rewrite Hnotes. destruct notes as [| | | | |d]; try discriminate Htyped.
      destruct (_ && _); [eauto|]. destruct (dict_get d item_id); eauto.
    - rewrite dict_get_set_eq. destruct (_ && _); [eauto|]. cbn [dict_get]. eauto. }
  destruct Hstore as [up' Hstore].
  pose proof (store_note_well_formed _ _ _ _ Hwf Hstore) as Hwf'.
  pose proof (save_user_progress_done env K (with_user_progress self up') w Hwork) as Hdone.
  pose proof (save_user_progress_files env K (with_user_progress self up') w)
    as (_ & _ & Hsaved).
  cbv zeta in Hsaved. rewrite Hwork in Hsaved. destruct Hsaved as [Hdest _].
  unfold set_item_note. rewrite Hstore. unfold io_bind, io_ret.
  destruct (save_user_progress env K (with_user_progress self up') w) as [w1 out1].
  cbn [fst snd] in *. subst out1.
  exists w1, up'. split; [reflexivity|]. split; [reflexivity|]. split; [exact Hwf'|].
  unfold file_at in Hdest.
  unfold load_progress, _load_json, path_exists, load_file, read_text.
  rewrite Hdest. cbn [negb bind user_progress with_user_progress].
  now rewrite loads_dumps.
Qed.

Lemma set_item_note_persists_witness :
  exists (w' : world) (up' : pydict),
    set_item_note no_faults sample_constants manager_with_notes "wire" " sell" old_world
    = (w', Done (with_user_progress manager_with_notes up'))
    /\ store_note (user_progress manager_with_notes) "wire" " sell" = Ok up'
    /\ well_formed (JDict up') = true
    /\ load_progress sample_constants (fs w') = JDict up'.
Proof.
  exact (set_item_note_persists no_faults sample_constants manager_with_notes
           "wire" " sell" old_world eq_refl eq_refl eq_refl).
Defined.

(** ** Backups *)

Lemma backup_path_fresh (p : string) : p ++ ".bak" <> p.
Proof.
  intros E. apply (f_equal String.length) in E.
  rewrite length_append in E. cbn in E. lia.
Qed.

(** X12. [_backup_progress] raises nothing and changes no file but the
    backup, whatever the copy does; it creates no directory.  When the copy
    works, the backup holds the text of the progress file; when there is no
    progress file, nothing is copied and nothing is printed.  The backup path
    is assumed not to be a directory. *)
Theorem _backup_progress_copies (c : copy_mode) (K : Constants) (w : world) :
  dirs (fs w) !! (PROGRESS_FILE K ++ ".bak") = None ->
  (forall e : pyexn, snd (_backup_progress c K w) <> Raised e)
  /\ (forall p : string,
        p <> PROGRESS_FILE K ++ ".bak" ->
        file_at (fst (_backup_progress c K w)) p = file_at w p)
  /\ dirs (fs (fst (_backup_progress c K w))) = dirs (fs w)
  /\ (forall text : string,
        c = CopyWorks ->
        file_at w (PROGRESS_FILE K) = Some text ->
        _backup_progress c K w
        = (set_files w (<[PROGRESS_FILE K ++ ".bak" := text]> (files (fs w))),
           Done [BackupCreated (PROGRESS_FILE K ++ ".bak")]))
  /\ (path_exists (fs w) (PROGRESS_FILE K) = false ->
      _backup_progress c K w = (w, Done [])).
Proof.
  intros Hbak.
  pose proof (backup_path_fresh (PROGRESS_FILE K)) as Hfresh.
  apply String.eqb_neq in Hfresh.
  destruct w as [[f d] t]. cbn [fs dirs] in Hbak.
  unfold _backup_progress, file_at.
  cbv [io_bind os_path_exists fs].
  destruct (path_exists {| files := f; dirs := d |} (PROGRESS_FILE K)) eqn:Hex.
  - cbv [try_except shutil_copy2 copy_target io_bind io_ret fs files dirs].
    rewrite Hbak.
    destruct (f !! PROGRESS_FILE K) as [text|] eqn:Hfile.
    + rewrite Hfresh.
      destruct c as [|[n|]|[n|]];
        cbv [write_file partial_copy io_bind io_ret raise set_files fs files dirs trace
             fst snd];
        (split; [discriminate|]);
        (split; [intros p Hp; now rewrite ?lookup_insert_ne by congruence|]);
        (split; [reflexivity|]);
        (split; [|discriminate]);
        intros text' Hc Htext; try discriminate Hc.
      now injection Htext as <-.
    + cbn [fst snd].
      split; [discriminate|]. split; [reflexivity|]. split; [reflexivity|].
      split; [|discriminate]. intros text' _ Htext. discriminate Htext.
  - cbv [io_ret fst snd fs files dirs].
    split; [discriminate|]. split; [reflexivity|]. split; [reflexivity|].
    split; [|reflexivity].
    intros text' _ Htext. apply path_exists_file in Hex. congruence.
Qed.

Lemma _backup_progress_copies_witness :
  _backup_progress CopyWorks sample_constants old_world
  = (set_files old_world (<["progress.json.bak" := "{}"]> (files (fs old_world))),
     Done [BackupCreated "progress.json.bak"]).
Proof.
  destruct (_backup_progress_copies CopyWorks sample_constants old_world eq_refl)
    as (_ & _ & _ & Hcopy & _).
  exact (Hcopy "{}" eq_refl eq_refl).
Defined.

(** X13. When there is a progress file and the copy works,
    [reload_progress] sets the state to what [_load_json] reads from the
    file and leaves a backup with the text of the file: loading the backup
    gives what loading the progress file gave, and the progress file is as
    it was.  The backup path is assumed not to be a directory. *)
Theorem reload_progress_backup_matches (K : Constants) (w : world) (text : string) :
  dirs (fs w) !! (PROGRESS_FILE K ++ ".bak") = None ->
  file_at w (PROGRESS_FILE K) = Some text ->
  snd (reload_progress CopyWorks K w)
  = Done (load_progress K (fs w),
          [BackupCreated (PROGRESS_FILE K ++ ".bak"); ProgressReloaded])
  /\ file_at (fst (reload_progress CopyWorks K w)) (PROGRESS_FILE K ++ ".bak") = Some text
  /\ file_at (fst (reload_progress CopyWorks K w)) (PROGRESS_FILE K) = Some text
  /\ forall default : json,
       _load_json (fs (fst (reload_progress CopyWorks K w))) (PROGRESS_FILE K ++ ".bak")
         default
       = _load_json (fs w) (PROGRESS_FILE K) default.
Proof.
  intros Hbak Hfile.
  pose proof (backup_path_fresh (PROGRESS_FILE K)) as Hfresh.
  assert (Hrun : _backup_progress CopyWorks K w
                 = (set_files w (<[PROGRESS_FILE K ++ ".bak" := text]> (files (fs w))),
                    Done [BackupCreated (PROGRESS_FILE K ++ ".bak")])).
  { pose proof (backup_path_fresh (PROGRESS_FILE K)) as Hne.
    apply String.eqb_neq in Hne.
    unfold file_at in Hfile.
    unfold _backup_progress. cbv [io_bind os_path_exists].
    unfold path_exists. rewrite Hfile.
    cbv [try_except shutil_copy2 copy_target io_bind io_ret write_file].
    now rewrite Hfile, Hbak, Hne. }
  unfold reload_progress, io_bind, io_ret. rewrite Hrun. cbn [fst snd app].
  unfold file_at in *. cbn [set_files fs files].
  split; [reflexivity|]. split; [apply lookup_insert_eq|].
  split; [now rewrite lookup_insert_ne by congruence|].
  intros default. unfold _load_json, path_exists, load_file, read_text.
  cbn [files dirs]. now rewrite lookup_insert_eq, Hfile.
Qed.

Lemma reload_progress_backup_matches_witness :
  snd (reload_progress CopyWorks sample_constants old_world)
  = Done (JDict [], [BackupCreated "progress.json.bak"; ProgressReloaded])
  /\ file_at (fst (reload_progress CopyWorks sample_constants old_world))
       "progress.json.bak" = Some "{}".
Proof.
  destruct (reload_progress_backup_matches sample_constants old_world "{}"
              eq_refl eq_refl) as (Hstate & Hbak & _).
  split; [exact Hstate|exact Hbak].
Defined.

(** ** The two quest views *)

Section SortByFacts.
Context {K A : Type} (lt : K -> K -> bool) (key : A -> K).

Lemma sort_keyed_by (l : list A) :
  sort_keyed lt (map (fun x => (key x, x)) l)
  = map (fun x => (key x, x)) (sort_by (fun y x => lt (key y) (key x)) l).
Proof.
  induction l as [|x l IH]; [reflexivity|].
  cbn [map sort_keyed sort_by fold_right].
  fold (sort_keyed lt (map (fun x => (key x, x)) l)).
  fold (sort_by (fun y x => lt (key y) (key x)) l).
  rewrite IH. generalize (sort_by (fun y x => lt (key y) (key x)) l) as m.
  induction m as [|y m IHm]; [reflexivity|].
  cbn [map insert_keyed insert_by fst].
  destruct (lt (key y) (key x)); [|reflexivity].
  cbn [map]. now rewrite IHm.
Qed.

End SortByFacts.

Section SortByOrder.
Context {A : Type}.

Lemma insert_by_In (c : A -> A -> bool) (x z : A) (l : list A) :
  In z (insert_by c x l) -> z = x \/ In z l.
Proof.
  induction l as [|y l IH]; cbn [insert_by].
  - intros [<-|[]]. now left.
  - destruct (c y x).
    + intros [<-|Hin]; [right; now left|].
      destruct (IH Hin); [now left|right; now right].
    + intros [<-|Hin]; [now left|now right].
Qed.

Lemma sort_by_In (c : A -> A -> bool) (z : A) (l : list A) :
  In z (sort_by c l) -> In z l.
Proof.
  induction l as [|x l IH]; cbn [sort_by fold_right]; [auto|].
  fold (sort_by c l). intros Hin.
  apply insert_by_In in Hin as [->|Hin]; [now left|right; auto].
Qed.

(** The result depends on the comparisons between the elements only. *)
Lemma sort_by_ext (c1 c2 : A -> A -> bool) (l : list A) :
  (forall x y, In x l -> In y l -> c1 y x = c2 y x) ->
  sort_by c1 l = sort_by c2 l.
Proof.
  induction l as [|x l IH]; intros Hext; [reflexivity|].
  cbn [sort_by fold_right]. fold (sort_by c1 l) (sort_by c2 l).
  rewrite <- IH by (intros a b Ha Hb; apply Hext; now right).
  assert (Hin : forall y, In y (sort_by c1 l) -> c1 y x = c2 y x).
  { intros y Hy. apply Hext; [now left|right; now apply sort_by_In in Hy]. }
  revert Hin. generalize (sort_by c1 l) as m.
  induction m as [|y m IHm]; intros Hin; [reflexivity|].
  cbn [insert_by]. rewrite <- (Hin y) by now left.
  destruct (c1 y x); [|reflexivity].
  f_equal. apply IHm. intros z Hz. apply Hin. now right.
Qed.

(** Elements that are tied keep their order. *)
Lemma sort_by_tied (c : A -> A -> bool) (l : list A) :
  (forall x y, In x l -> In y l -> c y x = false) -> sort_by c l = l.
Proof.
  induction l as [|x l IH]; intros Htied; [reflexivity|].
  cbn [sort_by fold_right]. fold (sort_by c l).
  rewrite IH by (intros a b Ha Hb; apply Htied; now right).
  destruct l as [|y l]; [reflexivity|].
  cbn [insert_by]. now rewrite Htied by (try (now left); right; now left).
Qed.

Variable c : A -> A -> bool.
Hypothesis c_trans : forall x y z, c y x = false -> c z y = false -> c z x = false.

Let le (x y : A) : Prop := c y x = false.

Lemma insert_by_sorted_In (x : A) (l : list A) :
  (forall a b, c a b = true -> c b a = false) ->
  StronglySorted le l -> StronglySorted le (insert_by c x l).
Proof.
  intros c_asym.
  induction 1 as [|y l Hsorted IH Hall]; cbn [insert_by].
  - constructor; constructor.
  - destruct (c y x) eqn:Hc.
    + constructor; [exact IH|].
      apply List.Forall_forall. intros z Hz.
      apply insert_by_In in Hz as [->|Hz].
      * unfold le. now apply c_asym.
      * rewrite List.Forall_forall in Hall. now apply Hall.
    + constructor; [now constructor|].
      constructor; [exact Hc|].
      apply (List.Forall_impl _ (P := le y)); [|exact Hall].
      intros z Hz. unfold le in *. eapply c_trans; eassumption.
Qed.

Lemma sort_by_sorted (l : list A) :
  (forall a b, c a b = true -> c b a = false) ->
  StronglySorted le (sort_by c l).
Proof.
  intros c_asym.
  induction l as [|x l IH]; cbn [sort_by fold_right]; [constructor|].
  now apply insert_by_sorted_In.
Qed.

(** Leaving elements out of a sorted list and inserting commute. *)
Lemma insert_by_filter (p : A -> bool) (x : A) (l : list A) :
  StronglySorted le l ->
  List.filter p (insert_by c x l)
  = if p x then insert_by c x (List.filter p l) else List.filter p l.
Proof.
  induction 1 as [|y l Hsorted IH Hall]; cbn [insert_by List.filter].
  - now destruct (p x).
  - destruct (c y x) eqn:Hc; cbn [List.filter].
    + rewrite IH. destruct (p y), (p x); cbn [insert_by]; rewrite ?Hc; reflexivity.
    + destruct (p x); [|reflexivity].
      assert (Hhead : forall z, In z (List.filter p (y :: l)) -> c z x = false).
      { intros z Hz. apply filter_In in Hz as [[<-|Hz] _]; [exact Hc|].
        rewrite List.Forall_forall in Hall. specialize (Hall z Hz).
        unfold le in Hall. eapply c_trans; eassumption. }
      cbn [List.filter] in Hhead.
      destruct (p y).
      * cbn [insert_by]. now rewrite Hc.
      * destruct (List.filter p l) as [|z rest]; [reflexivity|].
        cbn [insert_by]. now rewrite (Hhead z) by now left.
Qed.

Lemma sort_by_filter (p : A -> bool) (l : list A) :
  (forall a b, c a b = true -> c b a = false) ->
  List.filter p (sort_by c l) = sort_by c (List.filter p l).
Proof.
  intros c_asym.
  induction l as [|x l IH]; [reflexivity|].
  cbn [sort_by fold_right List.filter]. fold (sort_by c l).
  rewrite insert_by_filter by now apply sort_by_sorted.
  rewrite IH. now destruct (p x).
Qed.

End SortByOrder.

Lemma with_quests_order (up : pydict) :
  custom_order_of (with_quests up) = custom_order_of up.
Proof.
  unfold custom_order_of, with_quests.
  destruct (dict_mem "quests" up); [reflexivity|].
  now rewrite dict_get_set_ne by discriminate.
Qed.

Lemma find_index_existsb {A : Type} (p : A -> bool) (l : list A) :
  existsb p l = match find_index p l with Some _ => true | None => false end.
Proof.
  induction l as [|x l IH]; cbn [find_index existsb]; [reflexivity|].
  destruct (p x); cbn [orb]; [reflexivity|].
  rewrite IH. now destruct (find_index p l).
Qed.

Lemma tracked_rank_position (custom_order : list json) (q : quest_info) :
  tracked_rank custom_order q
  = if listed custom_order (info_id q) then position custom_order (info_id q) else 999%nat.
Proof.
  unfold tracked_rank, listed, position. rewrite find_index_existsb.
  now destruct (find_index (is_str (info_id q)) custom_order).
Qed.

(** Among tracked, incomplete quests both sorts compare positions. *)
Lemma shown_rank_order (custom_order : list json) (x y : quest_info) :
  (length custom_order <= 999)%nat ->
  is_bool (is_completed x) = true -> is_bool (is_completed y) = true ->
  shown_when_tracked x = true -> shown_when_tracked y = true ->
  key_lt (rank custom_order y) (rank custom_order x)
  = Nat.ltb (tracked_rank custom_order y) (tracked_rank custom_order x).
Proof.
  intros Hlen Hbx Hby Hx Hy.
  rewrite !tracked_rank_position.
  pose proof (position_listed custom_order (info_id x)) as Hpx.
  pose proof (position_listed custom_order (info_id y)) as Hpy.
  unfold shown_when_tracked, tracked, completed in Hx, Hy.
  apply andb_true_iff in Hx as [Htx Hcx], Hy as [Hty Hcy].
  unfold rank, tracked, number_of.
  destruct (is_completed x) as [|[]| | | |]; try discriminate.
  destruct (is_completed y) as [|[]| | | |]; try discriminate.
  rewrite Htx, Hty. cbn [negb as_int default key_lt Bool.eqb from_option id].
  destruct (listed custom_order (info_id x)), (listed custom_order (info_id y));
    key_cases; cbv [id] in *; try reflexivity; try lia.
Qed.

(** X14. On a typed quest section with at most 999 ids in the custom
    order, the tracked-only view is the full view with the quests that are
    untracked or completed left out: the two sorts agree on the quests
    shown.  Both calls leave the same manager. *)
Theorem tracked_only_filters_full_view (self : DataManager) :
  quests_typed (user_progress self) = true ->
  (length (custom_order_of (user_progress self)) <= 999)%nat ->
  snd (get_filtered_quests self true)
  = result_map (List.filter shown_when_tracked) (snd (get_filtered_quests self false))
  /\ fst (get_filtered_quests self true) = fst (get_filtered_quests self false).
Proof.
  intros Htyped Hlen. split; [|reflexivity].
  unfold get_filtered_quests. cbn [snd].
  rewrite (all_quest_info_merged _ Htyped). cbn [bind].
  rewrite (custom_order_list _ Htyped).
  rewrite (sorted_quests_ok _ _ Htyped). cbn [bind result_map].
  rewrite with_quests_order.
  set (order := custom_order_of (user_progress self)).
  set (all := merged (with_quests (user_progress self)) (quest_data self)).
  pose proof (merged_completed_bool _ Htyped (quest_data self)) as Hbool.
  fold all in Hbool. rewrite List.Forall_forall in Hbool.
  change (List.filter (fun q => truthy (is_tracked q) && negb (truthy (is_completed q))) all)
    with (List.filter shown_when_tracked all).
  unfold py_sorted.
  rewrite (keyed_map (tracked_key (JList order)) (tracked_rank order)).
  2:{ intros q _. unfold tracked_key, tracked_rank. cbn [index_or].
      now destruct (find_index _ _). }
  cbn [bind]. f_equal.
  rewrite !sort_keyed_by, !map_map. cbn [snd]. rewrite !map_id.
  rewrite sort_by_filter.
  - apply sort_by_ext. intros x y Hx Hy.
    apply filter_In in Hx as [Hx Hsx], Hy as [Hy Hsy].
    symmetry. apply shown_rank_order; auto.
  - intros x y z. apply key_le_trans.
  - intros a b. apply key_lt_asym.
Qed.

Lemma tracked_only_filters_full_view_witness :
  snd (get_filtered_quests manager_with_quests true)
  = result_map (List.filter shown_when_tracked)
      (snd (get_filtered_quests manager_with_quests false)).
Proof.
  refine (proj1 (tracked_only_filters_full_view manager_with_quests eq_refl _)).
  simpl. lia.
Defined.

(** ** Quests without progress *)

Lemma dict_set_absent {A : Type} (d : dict A) (k : string) (v : A) :
  dict_get d k = None -> dict_set d k v = (d ++ [(k, v)])%list.
Proof.
  induction d as [|[k1 v1] d IH]; cbn [dict_get dict_set app]; [reflexivity|].
  destruct (String.eqb k k1); [discriminate|]. intros H. now rewrite IH.
Qed.

Lemma filter_none {A : Type} (p : A -> bool) (l : list A) :
  (forall x, In x l -> p x = false) -> List.filter p l = [].
Proof.
  induction l as [|x l IH]; intros Hp; [reflexivity|].
  cbn [List.filter]. rewrite (Hp x) by now left.
  apply IH. intros y Hy. apply Hp. now right.
Qed.

(** X15. On a progress document without [quests] and without
    [quest_order], [get_filtered_quests] raises nothing: it adds an empty
    [quests] object at the end of the document; the full view lists every
    quest that has an id in the order of the quest data, untracked, not
    completed and without completed objectives, and the tracked-only view
    is empty. *)
Theorem get_filtered_quests_without_progress (self : DataManager) (tracked_only : bool) :
  dict_get (user_progress self) "quests" = None ->
  dict_get (user_progress self) "quest_order" = None ->
  get_filtered_quests self tracked_only
  = (with_user_progress self (user_progress self ++ [("quests", JDict [])])%list,
     Ok (if tracked_only then [] else unstarted (quest_data self))).
Proof.
  intros Hquests Horder.
  assert (Htyped : quests_typed (user_progress self) = true).
  { unfold quests_typed. cbn [dict_get_or]. now rewrite Hquests, Horder. }
  assert (Hup : with_quests (user_progress self)
                = (user_progress self ++ [("quests", JDict [])])%list).
  { unfold with_quests, dict_mem. rewrite Hquests. now apply dict_set_absent. }
  assert (Hempty : custom_order_of (with_quests (user_progress self)) = []).
  { rewrite with_quests_order. unfold custom_order_of. now rewrite Horder. }
  assert (Hall : merged (with_quests (user_progress self)) (quest_data self)
                 = unstarted (quest_data self)).
  { unfold merged, unstarted. apply flat_map_ext. intros q.
    destruct (quest_id q) as [[|c q_id]|]; try reflexivity.
    unfold merged_info, unstarted_info, quest_progress.
    rewrite (with_quests_section _ (JDict [])). cbn [dict_get_or].
    now rewrite Hquests. }
  unfold get_filtered_quests. rewrite <- Hup. f_equal.
  rewrite (all_quest_info_merged _ Htyped). cbn [bind].
  rewrite (custom_order_list _ Htyped).
  rewrite (sorted_quests_ok _ _ Htyped). cbn [bind].
  rewrite Hall, Hempty.
  assert (Hrank : forall q, In q (unstarted (quest_data self)) -> rank [] q = (true, 0%nat, 0)).
  { intros q Hq. unfold unstarted in Hq. apply in_flat_map in Hq as (q0 & _ & Hq).
    destruct (quest_id q0) as [[|c q_id]|]; try contradiction.
    destruct Hq as [<-|[]]. reflexivity. }
  destruct tracked_only.
  - assert (Hnone : List.filter
                      (fun q => truthy (is_tracked q) && negb (truthy (is_completed q)))
                      (unstarted (quest_data self)) = []).
    { apply filter_none. intros q Hq. unfold unstarted in Hq.
      apply in_flat_map in Hq as (q0 & _ & Hq).
      destruct (quest_id q0) as [[|c q_id]|]; try contradiction.
      destruct Hq as [<-|[]]. reflexivity. }
    now rewrite Hnone.
  - rewrite sort_keyed_by, map_map. cbn [snd]. rewrite map_id.
    f_equal. apply sort_by_tied. intros x y Hx Hy.
    rewrite (Hrank x Hx), (Hrank y Hy). reflexivity.
Qed.

Lemma get_filtered_quests_without_progress_witness :
  get_filtered_quests manager_without_quest_progress false
  = (with_user_progress manager_without_quest_progress
       [("theme", JStr "dark"); ("quests", JDict [])],
     Ok [unstarted_info (plain_quest "a") "a"; unstarted_info (plain_quest "b") "b"]).
Proof.
  exact (get_filtered_quests_without_progress manager_without_quest_progress false
           eq_refl eq_refl).
Defined.


(** ** Records the resolvers cannot read *)

Section ProjectSteps.
Variables (up : pydict) (tid : json).
Hypothesis Hprojects : projects_typed up = true.

Let p_prog : json := dict_get_or up (Some "projects") (JDict []).

Let body (results : list entry) (proj : project) : result (list entry) :=
  let pid := project_id proj in
  let* pname := display_name (project_name proj) in
  let* prog := py_get p_prog pid default_project_progress in
  let* comp_phase := py_get prog (Some "completed_phase") (JInt 0) in
  let* inv := py_get prog (Some "inventory") (JDict []) in
  for_each (default [] (phases proj)) results (fun (results : list entry) ph =>
    let pnum := default 0 (phase ph) in
    let* skip := int_le pnum comp_phase in
    if (skip : bool) then Ok results else
    let* is_next := int_eq_succ pnum comp_phase in
    let req_type := if (is_next : bool) then "next" else "future" in
    for_each (default [] (phase_requirementItemIds ph)) results
      (fun (results : list entry) req =>
        if opt_str_eq (itemId req) tid then
          let needed := default 0 (quantity req) in
          let* at_phase := py_get inv (Some (PyStr.of_int pnum)) (JDict []) in
          let* owned := py_get at_phase (itemId req) (JInt 0) in
          let* rem := int_sub needed owned in
          if 0 <? rem
          then Ok (results ++ [(project_label pname pnum rem, req_type)])%list
          else Ok results
        else Ok results)).

Lemma project_step (acc : list entry) (pr : project) :
  body acc pr
  = if named pr
    then Ok (acc ++ flat_map (phase_entries up tid pr) (default [] (phases pr)))%list
    else Raise TypeError.
Proof.
  unfold body, named. cbv zeta.
  destruct (project_name pr) as [n|] eqn:Hname; [|reflexivity].
  assert (Hshown : display_name (Some n) = Ok (shown_name pr)).
  { unfold display_name, shown_name. rewrite Hname.
    now destruct (PyStr.contains "Project" n). }
  rewrite Hshown. cbn [bind].
  destruct (project_progress_inv up Hprojects pr) as (d & Eget & Eprog & Hc & Hi).
  fold p_prog in Eget. rewrite Eget. cbn [bind py_get].
  apply for_each_collect. intros acc' ph _.
  unfold phase_entries, completed_phase, project_owned. rewrite Eprog.
  cbn [count_in sub_dict].
  unfold int_le, int_eq_succ. rewrite (is_number_as_int _ Hc). cbn [bind].
  destruct (default 0 (phase ph) <=? _); [now rewrite app_nil_r|].
  apply for_each_collect. intros acc'' req _.
  destruct (opt_str_eq (itemId req) tid); cbn [andb]; [|now rewrite app_nil_r].
  destruct (dict_of_inv _ _ Hi) as (d2 & E2 & P2). rewrite E2.
  cbn [py_get bind sub_dict].
  destruct (dict_of_inv _ _ (P2 (Some (PyStr.of_int (default 0 (phase ph)))) (JDict []) eq_refl))
    as (d3 & E3 & P3).
  rewrite E3. cbn [py_get bind count_in]. unfold int_sub.
  rewrite (is_number_as_int _ (P3 (itemId req) (JInt 0) eq_refl)). cbn [bind].
  destruct (0 <? _); [reflexivity | now rewrite app_nil_r].
Qed.

Lemma project_steps (projects : list project) :
  forall acc,
    for_each projects acc body
    = if forallb named projects
      then Ok (acc ++ project_entries up tid projects)%list
      else Raise TypeError.
Proof.
  induction projects as [|pr projects IH]; intros acc.
  - cbn. now rewrite app_nil_r.
  - cbn [for_each forallb]. rewrite project_step.
    destruct (named pr); cbn [bind andb]; [|reflexivity].
    rewrite IH. destruct (forallb named projects); [|reflexivity].
    unfold project_entries. cbn [flat_map]. now rewrite app_assoc.
Qed.

End ProjectSteps.

(** X16. For a target found by name that has an id, on a progress document
    whose project section is typed, [find_project_requirements] raises
    [TypeError] when a project of the data has no name and otherwise returns
    [project_entries]: projects in the order declared, their phases in the
    order declared, one entry for each requirement of the target in a phase
    above the completed one whose remainder is positive, ["next"] for the
    phase after the completed one and ["future"] for the later ones, under
    the name of the project without ["Project"]. *)
Theorem find_project_requirements_typed
    (self : DataManager) (item_name : string) (target_item : pydict) (tid : json) :
  get_item_by_name self item_name = Some target_item ->
  dict_get target_item "id" = Some tid ->
  projects_typed (user_progress self) = true ->
  find_project_requirements self item_name
  = if forallb named (project_data self)
    then Ok (project_entries (user_progress self) tid (project_data self))
    else Raise TypeError.
Proof.
  intros Hitem Hid Htyped.
  unfold find_project_requirements. rewrite Hitem.
  destruct target_item as [|kv rest]; [discriminate Hid|].
  rewrite Hid.
  exact (project_steps (user_progress self) tid Htyped (project_data self) []).
Qed.

Lemma find_project_requirements_typed_witness :
  find_project_requirements manager_with_project "Rope"
  = Ok [("Expedition (Ph2): x6", "next"); ("Expedition (Ph4): x7", "future")].
Proof.
  exact (find_project_requirements_typed manager_with_project "Rope" rope_item
           (JStr "rope") eq_refl eq_refl eq_refl).
Defined.

Section StationSteps.
Variables (up : pydict) (tid : json).
Hypothesis Hinv : inventory_typed up = true.

Let h_inv : json := dict_get_or up (Some "hideout_inventory") (JDict []).

Let body (results : list entry) (station : station) : result (list entry) :=
  let sid := station_id station in
  let sname := station_name station in
  let cur_lvl := dict_get_or up sid (JInt 0) in
  for_each (default [] (levels station)) results (fun (results : list entry) lvl_info =>
    let lvl := default 0 (level lvl_info) in
    let* skip := int_le lvl cur_lvl in
    if (skip : bool) then Ok results else
    let* is_next := int_eq_succ lvl cur_lvl in
    let req_type := if (is_next : bool) then "next" else "future" in
    for_each (default [] (level_requirementItemIds lvl_info)) results
      (fun (results : list entry) req =>
        if opt_str_eq (itemId req) tid then
          let needed := default 0 (quantity req) in
          let* at_station := py_get h_inv sid (JDict []) in
          let* at_level := py_get at_station (Some (PyStr.of_int lvl)) (JDict []) in
          let* owned := py_get at_level (itemId req) (JInt 0) in
          let* rem := int_sub needed owned in
          if 0 <? rem
          then Ok (results ++ [(hideout_label sname lvl rem, req_type)])%list
          else Ok results
        else Ok results)).

Lemma station_step (acc : list entry) (st : station) :
  body acc st
  = if level_readable up st
    then Ok (acc ++ flat_map (level_entries up tid st) (default [] (levels st)))%list
    else Raise TypeError.
Proof.
  unfold body, level_readable. cbv zeta.
  destruct (is_number (dict_get_or up (station_id st) (JInt 0))) eqn:Hnum; cbn [orb].
  - apply for_each_collect. intros acc' li _.
    now apply (level_loop up tid Hinv st li acc').
  - destruct (default [] (levels st)) as [|li rest]; [cbn; now rewrite app_nil_r|].
    cbn [for_each]. unfold int_le, is_number in *.
    now destruct (as_int (dict_get_or up (station_id st) (JInt 0))).
Qed.

Lemma station_steps (stations : list station) :
  forall acc,
    for_each stations acc body
    = if forallb (level_readable up) stations
      then Ok (acc ++ hideout_entries up tid stations)%list
      else Raise TypeError.
Proof.
  induction stations as [|st stations IH]; intros acc.
  - cbn. now rewrite app_nil_r.
  - cbn [for_each forallb]. rewrite station_step.
    destruct (level_readable up st); cbn [bind andb]; [|reflexivity].
    rewrite IH. destruct (forallb (level_readable up) stations); [|reflexivity].
    unfold hideout_entries. cbn [flat_map]. now rewrite app_assoc.
Qed.

End StationSteps.

(** X17. For a target found by name that has an id, on a progress document
    whose hideout inventory is typed, [find_hideout_requirements] raises
    [TypeError] when the level saved for a station that has levels is not a
    number, for instance a text, and otherwise returns [hideout_entries]. *)
Theorem find_hideout_requirements_level_type
    (self : DataManager) (item_name : string) (target_item : pydict) (tid : json) :
  get_item_by_name self item_name = Some target_item ->
  dict_get target_item "id" = Some tid ->
  inventory_typed (user_progress self) = true ->
  find_hideout_requirements self item_name
  = if forallb (level_readable (user_progress self)) (hideout_data self)
    then Ok (hideout_entries (user_progress self) tid (hideout_data self))
    else Raise TypeError.
Proof.
  intros Hitem Hid Htyped.
  unfold find_hideout_requirements. rewrite Hitem.
  destruct target_item as [|kv rest]; [discriminate Hid|].
  rewrite Hid.
  exact (station_steps (user_progress self) tid Htyped (hideout_data self) []).
Qed.

Lemma find_hideout_requirements_level_type_witness :
  find_hideout_requirements manager_with_text_level "Rope" = Raise TypeError.
Proof.
  exact (find_hideout_requirements_level_type manager_with_text_level "Rope" rope_item
           (JStr "rope") eq_refl eq_refl eq_refl).
Defined.

(** X18. The tables of the constructor raise for ids that cannot be keys
    and for trades that are not objects, and for nothing else:
    [build_id_to_item_map] raises [TypeError] when an item has a truthy id
    that is a list or an object; [build_item_to_trades_map] on a list raises
    what the first trade that cannot be entered raises, [AttributeError]
    for a trade that is not an object and [TypeError] for a truthy [itemId]
    that is a list or an object. *)
Theorem constructor_tables_raise (items : dict pydict) (trades : list json) :
  result_map (fun _ => tt) (build_id_to_item_map items)
  = (if forallb id_usable (map snd items) then Ok tt else Raise TypeError)
  /\ result_map (fun _ => tt) (build_item_to_trades_map (JList trades))
     = match first_error trade_error trades with
       | Some e => Raise e
       | None => Ok tt
       end.
Proof.
  split.
  - unfold build_id_to_item_map. generalize (@nil (json * pydict)) as acc.
    induction items as [|[name item] items IH]; intros acc; [reflexivity|].
    cbn [for_each map snd forallb]. unfold index_by_id at 1. cbn [snd].
    fold (item_id_of item). unfold id_usable at 1.
    destruct (truthy (item_id_of item)); cbn [negb orb bind]; [|apply IH].
    destruct (hashable (item_id_of item)); cbn [bind andb]; [apply IH|reflexivity].
  - unfold build_item_to_trades_map. cbn [py_iter bind].
    generalize (@nil (json * list json)) as acc.
    induction trades as [|trade trades IH]; intros acc; [reflexivity|].
    cbn [for_each first_error]. unfold index_trade at 1, trade_error at 1.
    destruct trade as [| | | | |t]; try reflexivity.
    cbn [py_get bind].
    destruct (truthy (dict_get_or t (Some "itemId") JNull)); cbn [andb bind]; [|apply IH].
    destruct (hashable (dict_get_or t (Some "itemId") JNull)); cbn [negb bind];
      [apply IH|reflexivity].
Qed.

(** ** A second look at the quests *)

Lemma with_quests_again (up : pydict) : with_quests (with_quests up) = with_quests up.
Proof.
  unfold with_quests at 1. unfold dict_mem.
  assert (H : dict_get (with_quests up) "quests" <> None).
  { unfold with_quests, dict_mem.
    destruct (dict_get up "quests") eqn:E; [now rewrite E|].
    now rewrite dict_get_set_eq. }
  now destruct (dict_get (with_quests up) "quests").
Qed.

(** X19. The only change [get_filtered_quests] makes is the [quests]
    object it adds when the document has none: every other key reads as
    before, and a later call, of either view, leaves the manager as the
    first call left it and returns what it returns on the manager before
    the first call. *)
Theorem get_filtered_quests_again (self : DataManager) (first again : bool) :
  get_filtered_quests (fst (get_filtered_quests self first)) again
  = (fst (get_filtered_quests self first), snd (get_filtered_quests self again))
  /\ (forall k : string,
        k <> "quests" ->
        dict_get (user_progress (fst (get_filtered_quests self first))) k
        = dict_get (user_progress self) k)
  /\ dict_get (user_progress (fst (get_filtered_quests self first))) "quests"
     = Some (dict_get_or (user_progress self) (Some "quests") (JDict [])).
Proof.
  unfold get_filtered_quests. cbn [fst snd user_progress with_user_progress quest_data].
  rewrite with_quests_again. split; [reflexivity|]. split.
  - intros k Hk. unfold with_quests. destruct (dict_mem "quests" (user_progress self));
      [reflexivity|]. now rewrite dict_get_set_ne by congruence.
  - unfold with_quests, dict_mem. cbn [dict_get_or].
    destruct (dict_get (user_progress self) "quests") eqn:E; [exact E|].
    apply dict_get_set_eq.
Qed.

Lemma get_filtered_quests_again_witness :
  dict_get (user_progress (fst (get_filtered_quests manager_without_quest_progress true)))
    "theme"
  = Some (JStr "dark").
Proof.
  destruct (get_filtered_quests_again manager_without_quest_progress true false)
    as (_ & Hkeys & _).
  rewrite Hkeys; [reflexivity|discriminate].
Defined.

(** ** The characters of the progress file *)

Lemma all_plain_app (a b : string) : all_plain (a ++ b) = all_plain a && all_plain b.
Proof.
  induction a as [|c a IH]; [reflexivity|].
  rewrite append_cons. cbn [all_plain]. now rewrite IH, andb_assoc.
Qed.

Lemma all_plain_escape_char (c : ascii) : all_plain (Json.escape_char c) = true.
Proof.
  destruct c as [[] [] [] [] [] [] [] []]; reflexivity.
Qed.

Lemma all_plain_quote (s : string) : all_plain (Json.quote s) = true.
Proof.
  unfold Json.quote. cbn [all_plain]. rewrite all_plain_app.
  assert (H : all_plain (Json.escape s) = true).
  { induction s as [|c s IH]; [reflexivity|].
    cbn [Json.escape]. now rewrite all_plain_app, all_plain_escape_char. }
  now rewrite H.
Qed.

Lemma all_plain_nl (n : nat) : all_plain (Json.nl n) = true.
Proof.
  unfold Json.nl. cbn [all_plain].
  generalize (4 * n)%nat as k. induction k as [|k IH]; [reflexivity|exact IH].
Qed.

Lemma all_plain_uint (d : Decimal.uint) : all_plain (NilEmpty.string_of_uint d) = true.
Proof.
  induction d; cbn [NilEmpty.string_of_uint all_plain]; try exact IHd; reflexivity.
Qed.

Lemma all_plain_of_int (z : Z) : all_plain (PyStr.of_int z) = true.
Proof.
  assert (H : forall d, all_plain (NilZero.string_of_uint d) = true).
  { intros d. unfold NilZero.string_of_uint.
    destruct d; try reflexivity; apply all_plain_uint. }
  unfold PyStr.of_int, NilZero.string_of_int.
  destruct (Z.to_int z); [apply H|]. cbn [all_plain]. apply H.
Qed.

Lemma all_plain_members {A : Type} (sep : string) (f : A -> string) (l : list A) :
  all_plain sep = true ->
  Forall (fun x => all_plain (f x) = true) l ->
  all_plain (Json.members sep f l) = true.
Proof.
  intros Hsep Hall. destruct Hall as [|x l Hx Hl]; [reflexivity|].
  cbn [Json.members]. rewrite all_plain_app, Hx. cbn [andb].
  induction Hl as [|y l Hy Hl IH]; [reflexivity|].
  cbn [fold_right]. now rewrite !all_plain_app, Hsep, Hy, IH.
Qed.

Lemma all_plain_dumps (v : json) : forall n, all_plain (Json.dumps_at n v) = true.
Proof.
  induction v as [|b|z|s|l IH|d IH] using json_ind; intros n.
  - reflexivity.
  - now destruct b.
  - apply all_plain_of_int.
  - apply all_plain_quote.
  - destruct l as [|x xs]; [reflexivity|].
    cbn [Json.dumps_at]. rewrite !all_plain_app, !all_plain_nl.
    rewrite all_plain_members; [reflexivity| |].
    + now rewrite all_plain_app, all_plain_nl.
    + apply (List.Forall_impl _ (P := fun v => forall n, all_plain (Json.dumps_at n v) = true));
        [|exact IH].
      intros a Ha. apply Ha.
  - destruct d as [|kv xs]; [reflexivity|].
    cbn [Json.dumps_at]. rewrite !all_plain_app, !all_plain_nl.
    rewrite all_plain_members; [reflexivity| |].
    + now rewrite all_plain_app, all_plain_nl.
    + apply (List.Forall_impl _ (P := fun kv : string * json =>
                 forall n, all_plain (Json.dumps_at n (snd kv)) = true)); [|exact IH].
      intros a Ha. now rewrite !all_plain_app, all_plain_quote, Ha.
Qed.

(** X20. When every call of the save works, the progress file holds
    printable characters of ASCII and line feeds only, whatever text the
    document holds: a character outside this range is written as an escape. *)
Theorem save_user_progress_writes_ascii
    (env : faults) (K : Constants) (self : DataManager) (w : world) :
  all_work env = true ->
  exists text : string,
    file_at (fst (save_user_progress env K self w)) (PROGRESS_FILE K) = Some text
    /\ all_plain text = true.
Proof.
  intros Hwork.
  exists (Json.dumps (JDict (user_progress self))).
  split; [now apply save_user_progress_written|apply all_plain_dumps].
Qed.

Lemma save_user_progress_writes_ascii_witness :
  exists text : string,
    file_at (fst (save_user_progress no_faults sample_constants manager_with_accents
                    old_world)) "progress.json" = Some text
    /\ all_plain text = true.
Proof.
  exact (save_user_progress_writes_ascii no_faults sample_constants manager_with_accents
           old_world eq_refl).
Defined.

(** ** Station files *)

Lemma english_names (data : list json) :
  forall done,
    for_each data done (fun done station =>
      let* station' := english_name station in Ok (done ++ [station'])%list)
    = if forallb is_object data
      then Ok (done ++ map with_english_name data)%list
      else Raise AttributeError.
Proof.
  induction data as [|station data IH]; intros done.
  - cbn. now rewrite app_nil_r.
  - cbn [for_each forallb map]. unfold with_english_name at 1.
    destruct station as [| | | | |o]; try reflexivity.
    cbn [is_object andb].
    destruct (english_name (JDict o)) as [station'|e] eqn:Hname.
    + cbn [bind]. rewrite IH. destruct (forallb is_object data); [|reflexivity].
      now rewrite <- app_assoc.
    + exfalso. unfold english_name in Hname.
      destruct (dict_get o "name") as [[| | | | |names]|]; try discriminate Hname.
      destruct (dict_get names "en"); discriminate Hname.
Qed.

(** X21. For a station directory that can be listed, the constructor's
    loading of the stations raises [AttributeError] when a [.json] file of
    the directory holds a document that is not an object: such a file is
    loaded without a diagnostic and stops the constructor.  Otherwise the
    stations are the documents in the order of the listing, each with the
    [en] entry of its name table in the place of the table and its other
    keys as they were.  The files are texts in the range of the embedding,
    so that the documents are those the program reads. *)
Theorem load_hideout_data_objects (fs : filesystem) (K : Constants) (names : list string) :
  listdir fs (HIDEOUT_DIR K) = Ok names ->
  listing_in_range fs (HIDEOUT_DIR K) = true ->
  load_hideout_data fs K
  = (if forallb is_object (flat_map (file_data fs (HIDEOUT_DIR K)) names)
     then Ok (map with_english_name (flat_map (file_data fs (HIDEOUT_DIR K)) names),
              flat_map (data_diagnostics fs (HIDEOUT_DIR K)) names)
     else Raise AttributeError)
  /\ forall (o : pydict) (k : string),
       k <> "name" ->
       exists o' : pydict,
         with_english_name (JDict o) = JDict o' /\ dict_get o' k = dict_get o k.
Proof.
  intros Hlist _. split.
  - unfold load_hideout_data, _load_json_dir.
    rewrite (listdir_exists _ _ _ Hlist), Hlist. cbn [negb bind].
    rewrite load_data_files. cbn [fst snd app bind].
    rewrite english_names.
    now destruct (forallb is_object _).
  - intros o k Hk. unfold with_english_name, english_name.
    destruct (dict_get o "name") as [[| | | | |names']|]; try (now exists o).
    destruct (dict_get names' "en"); [|now exists o].
    eexists. split; [reflexivity|]. now rewrite dict_get_set_ne by congruence.
Qed.

Lemma load_hideout_data_objects_witness :
  load_hideout_data hideout_fs_with_list sample_constants = Raise AttributeError.
Proof.
  exact (proj1 (load_hideout_data_objects hideout_fs_with_list sample_constants
                  ["bench.json"; "list.json"] eq_refl eq_refl)).
Defined.

Lemma get_filtered_quests_tracked_only_witness :
  exists tracked_quests : list quest_info,
    get_filtered_quests manager_with_quests true
    = (with_user_progress manager_with_quests
         (with_quests (user_progress manager_with_quests)),
       Ok tracked_quests)
    /\ Permutation
         (List.filter (fun q => tracked q && negb (completed q))
            (merged (with_quests (user_progress manager_with_quests))
               (quest_data manager_with_quests)))
         tracked_quests
    /\ StronglySorted
         (fun a b =>
            (tracked_rank (custom_order_of (with_quests (user_progress manager_with_quests))) a
             <= tracked_rank
                  (custom_order_of (with_quests (user_progress manager_with_quests))) b)%nat)
         tracked_quests.
Proof.
  exact (get_filtered_quests_tracked_only manager_with_quests eq_refl).
Defined.
